(** * PowerFlowViz: load-profile synthesis, network assembly and daily
      aggregation

    A shallow embedding of the Python package [PowerFlowViz]
    ([daily_profile_generator.py], [loadflow.py], [data_prepare.py],
    [power_flow_viz.py]) and the properties of its specification.

    Modelling conventions.
    - A Python/NumPy float is a [pyfloat]: an exact rational or NaN.
      Rounding and infinities are abstracted away; NaN is kept because the
      code's comparisons and truth tests behave differently on it.
    - A pandas column of labels is a [list string]; a frame is kept
      column-major, as pandas keeps it.
    - Exceptions are values of [exn]; code that reads or writes shared
      mutable objects (NumPy's global random state, the pandapower network,
      the [LoadFlow.buses] dict) runs in a state-and-error monad.
    - A Python dict whose iteration order is observed ([LoadFlow.buses]) is
      an association list in insertion order; a dict only read by key
      ([line_hist]) is a [gmap]. *)

From Stdlib Require Import ZArith QArith Qminmax Lqa String Ascii List.
From stdpp Require Import base option list strings gmap pretty.

Local Open Scope Z_scope.
Local Open Scope string_scope.
Local Open Scope list_scope.

(** ** Numbers *)

Module Num.

(** A float cell: finite value or NaN. *)
Inductive pyfloat : Type :=
| Fin (q : Q)
| NaN.

Definition Qltb (x y : Q) : bool := (Qnum x * QDen y <? Qnum y * QDen x)%Z.
Definition Qnonzero (x : Q) : bool := negb (Qnum x =? 0)%Z.

(** [bool(x)] of a float: false exactly for zero; NaN is truthy. *)
Definition truthy (x : pyfloat) : bool :=
  match x with Fin q => Qnonzero q | NaN => true end.

(** [x != 0]; every comparison with NaN is false, so [nan != 0] is true. *)
Definition ne_zero (x : pyfloat) : bool :=
  match x with Fin q => Qnonzero q | NaN => true end.

(** [a > b] *)
Definition fgt (a b : pyfloat) : bool :=
  match a, b with Fin x, Fin y => Qltb y x | _, _ => false end.

Definition fmul (a b : pyfloat) : pyfloat :=
  match a, b with Fin x, Fin y => Fin (x * y) | _, _ => NaN end.

Definition fdiv (a b : pyfloat) : pyfloat :=
  match a, b with Fin x, Fin y => Fin (x / y) | _, _ => NaN end.

Definition is_nan (a : pyfloat) : bool :=
  match a with NaN => true | Fin _ => false end.

(** [np.clip(x, lo, hi)] = [minimum(maximum(x, lo), hi)]. *)
Definition clip (x lo hi : Q) : Q := Qmin (Qmax x lo) hi.

(** [np.clip(x, 0, None)] *)
Definition clip_lo (x lo : Q) : Q := Qmax x lo.

End Num.
Import Num.

(** ** Exceptions and the state-and-error monad *)

Inductive exn : Type :=
| KeyError (key : string)
| ValueError (msg : string)
| TypeError (msg : string)
| IndexError
| OverflowError.

(** A computation over a mutable store [S]: it ends in a value or an
    exception, and in both cases leaves a store behind. *)
Definition M (S A : Type) : Type := S -> (exn + A) * S.

Definition ret {S A} (a : A) : M S A := fun s => (inr a, s).
Definition raise {S A} (e : exn) : M S A := fun s => (inl e, s).
Definition bind {S A B} (m : M S A) (k : A -> M S B) : M S B :=
  fun s => match m s with
           | (inr a, s') => k a s'
           | (inl e, s') => (inl e, s')
           end.
Definition get {S} : M S S := fun s => (inr s, s).
Definition put {S} (s : S) : M S unit := fun _ => (inr tt, s).
Definition modify {S} (f : S -> S) : M S unit := fun s => (inr tt, f s).
Definition lift {S A} (r : exn + A) : M S A := fun s => (r, s).

Notation "'let!' x ':=' m 'in' k" := (bind m (fun x => k))
  (at level 10, x name, m at level 200, k at level 200).
Notation "'do!' m 'in' k" := (bind m (fun _ => k))
  (at level 10, m at level 200, k at level 200).

(** [for x in xs: body(x)], stopping at the first exception. *)
Fixpoint for_each {S A} (xs : list A) (body : A -> M S unit) : M S unit :=
  match xs with
  | [] => ret tt
  | x :: xs' => do! body x in for_each xs' body
  end.

(** Exception-only code (no store). *)
Definition ebind {A B} (r : exn + A) (k : A -> exn + B) : exn + B :=
  match r with inl e => inl e | inr a => k a end.

Fixpoint emapM {A B} (f : A -> exn + B) (xs : list A) : exn + list B :=
  match xs with
  | [] => inr []
  | x :: xs' => ebind (f x) (fun y => ebind (emapM f xs') (fun ys => inr (y :: ys)))
  end.

(** ** Python's [int(str)] and [str(int)] *)

Module PyInt.

(** The strings the model of [int()] covers: ASCII ones. On a Unicode
    string [int()] also skips Unicode white space and reads the decimal
    digits of other scripts. *)
Definition is_ascii (s : string) : bool :=
  forallb (fun c => (nat_of_ascii c <? 128)%nat) (list_ascii_of_string s).

(** Characters [int()] skips before and after the literal: tab, LF, VT, FF,
    CR and space. The separators FS, GS, RS, US are not skipped:
    [int("\x1c7")] raises. *)
Definition is_space (c : ascii) : bool :=
  let n := nat_of_ascii c in
  ((9 <=? n) && (n <=? 13) || (n =? 32))%nat.

Definition digit_val (c : ascii) : option Z :=
  let n := nat_of_ascii c in
  if ((48 <=? n) && (n <=? 57))%nat then Some (Z.of_nat (n - 48)) else None.

Fixpoint drop_spaces (s : list ascii) : list ascii :=
  match s with
  | c :: s' => if is_space c then drop_spaces s' else s
  | [] => []
  end.

Definition strip (s : list ascii) : list ascii :=
  rev (drop_spaces (rev (drop_spaces s))).

(** Decimal digits, single underscores allowed between two digits.
    [prev] tells whether the previous character was a digit. *)
Fixpoint parse_digits (acc : Z) (prev : bool) (s : list ascii) : option Z :=
  match s with
  | [] => if prev then Some acc else None
  | c :: s' =>
      match digit_val c with
      | Some d => parse_digits (10 * acc + d) true s'
      | None =>
          if (Ascii.eqb c "_" && prev)%bool then
            match s' with
            | [] => None
            | _ => parse_digits acc false s'
            end
          else None
      end
  end.

(** [int(s)] for an ASCII string, base 10: [None] stands for the
    [ValueError] "invalid literal for int()". *)
Definition parse_int (s : string) : option Z :=
  match strip (list_ascii_of_string s) with
  | "+"%char :: ds => parse_digits 0 false ds
  | "-"%char :: ds => Z.opp <$> parse_digits 0 false ds
  | ds => parse_digits 0 false ds
  end.

Definition int64_min : Z := - 2 ^ 63.
Definition int64_max : Z := 2 ^ 63 - 1.
Definition in_int64 (z : Z) : bool :=
  ((int64_min <=? z)%Z && (z <=? int64_max)%Z)%bool.

(** One cell of [Series.astype(int)] on a column of strings: NumPy calls
    [int()] on the object and stores the result in an int64. *)
Definition cell_astype_int (s : string) : exn + Z :=
  match parse_int s with
  | None => inl (ValueError ("invalid literal for int() with base 10: " +:+ s))
  | Some z => if in_int64 z then inr z else inl OverflowError
  end.

(** [str(z)] *)
Definition render_int (z : Z) : string := pretty z.

(** [col.astype(int).astype(str)] *)
Definition astype_int_str (col : list string) : exn + list string :=
  ebind (emapM cell_astype_int col) (fun zs => inr (render_int <$> zs)).

End PyInt.

(** ** NumPy pieces used by the synthesizer *)

(** NumPy's process-wide legacy generator ([np.random.seed],
    [np.random.uniform], [np.random.normal]). The algorithm is NumPy's
    business; the synthesizer only relies on the interface: seeding fixes the
    state, and every draw returns a value and the next state. [seeded] and
    [normal] give the state and the draw for the arguments NumPy accepts; the
    [ValueError] it raises for a seed outside 0 .. 2^32 - 1 and for a
    negative scale is raised by the wrappers [np_random_seed] and
    [np_random_normal] below. *)
Class NumpyRandom : Type := {
  rng_state : Type;
  seeded : Z -> rng_state;
  uniform01 : rng_state -> Q * rng_state;
  normal : Q -> Q -> rng_state -> Q * rng_state
}.

Module Np.

(** [n] successive draws. *)
Fixpoint draws {G A} (draw : G -> A * G) (n : nat) (g : G) : list A * G :=
  match n with
  | O => ([], g)
  | S n' =>
      let (x, g1) := draw g in
      let (xs, g2) := draws draw n' g1 in
      (x :: xs, g2)
  end.

(** A matrix of draws of shape [(n, m)], filled row by row. *)
Fixpoint draw_rows {G A} (draw : G -> A * G) (n m : nat) (g : G)
  : list (list A) * G :=
  match n with
  | O => ([], g)
  | S n' =>
      let (r, g1) := draws draw m g in
      let (rs, g2) := draw_rows draw n' m g1 in
      (r :: rs, g2)
  end.

(** Linear interpolation on the knots after [(x0, y0)], for [x0 <= x]:
    on the segment that holds [x] the value is
    [slope * (x - xp[j]) + fp[j]]; right of the last knot it is [fp[-1]]. *)
Fixpoint interp_from (x x0 y0 : Q) (rest : list (Q * Q)) : Q :=
  match rest with
  | [] => y0
  | (x1, y1) :: rest' =>
      if Qltb x x1
      then ((y1 - y0) / (x1 - x0)) * (x - x0) + y0
      else interp_from x x1 y1 rest'
  end.

(** [np.interp(x, xp, fp)] for a scalar [x]; left of the first knot the
    value is [fp[0]]. *)
Definition interp (x : Q) (xp fp : list Q) : Q :=
  match zip xp fp with
  | [] => 0
  | (x0, y0) :: rest => if Qltb x x0 then y0 else interp_from x x0 y0 rest
  end.

(** [round(v, 4)]: to the nearest multiple of 1/10000, ties to even. *)
Definition round4 (v : Q) : Q :=
  let t := (v * 10000)%Q in
  let n := (Qnum t / QDen t)%Z in
  let r := (t - inject_Z n)%Q in
  let up := if Qltb (1 # 2) r then true
            else if Qltb r (1 # 2) then false
            else Z.odd n in
  inject_Z (if up then n + 1 else n) / 10000.

End Np.

(** ** daily_profile_generator.py *)

Module Gen.

(** One row of the load table [df]. *)
Record load_point : Type := {
  lp_Bus_ID : string;
  lp_PLmax : pyfloat;      (* "PLmax(kW)" *)
  lp_QLmax : pyfloat;      (* "QLmax(kVar)" *)
  lp_Pg : pyfloat          (* "Pg(kW)" *)
}.

(** One row of the quantile table [df_stats], for a table whose breakpoint
    cells all hold numbers: a blank cell would be read as NaN, which
    [np.interp] and [np.clip] pass on. *)
Record quantile_row : Type := {
  hour : string;
  Q5 : Q; Q10 : Q; Q25 : Q; Q50 : Q; Q75 : Q; Q90 : Q; Q95 : Q
}.

Inductive power_col : Type := PLmax_kW | QLmax_kVar.

Definition peak_of (c : power_col) (r : load_point) : pyfloat :=
  match c with PLmax_kW => lp_PLmax r | QLmax_kVar => lp_QLmax r end.

(** A profile frame, column-major: the [Bus_ID] column and the labelled
    value columns in column order. *)
Record frame : Type := {
  Bus_ID : list string;
  columns : list (string * list pyfloat)
}.

(** [frame[label]] *)
Fixpoint get_col (label : string) (cs : list (string * list pyfloat))
  : option (list pyfloat) :=
  match cs with
  | [] => None
  | (l, v) :: cs' => if String.eqb l label then Some v else get_col label cs'
  end.

(** [frame[label] = v]: replaces the column in place, or appends it. *)
Fixpoint set_col (label : string) (v : list pyfloat)
  (cs : list (string * list pyfloat)) : list (string * list pyfloat) :=
  match cs with
  | [] => [(label, v)]
  | (l, w) :: cs' =>
      if String.eqb l label then (l, v) :: cs' else (l, w) :: set_col label v cs'
  end.

(** [frame[labels]]: [KeyError] on the first missing label. *)
Definition select_cols (labels : list string) (cs : list (string * list pyfloat))
  : exn + list (string * list pyfloat) :=
  emapM (fun l => match get_col l cs with
                  | Some v => inr (l, v)
                  | None => inl (KeyError l)
                  end) labels.

(** [f"{h:02d}:00"] *)
Definition hour_label (h : nat) : string :=
  (if (h <? 10)%nat then "0" +:+ pretty h else pretty h) +:+ ":00".

Definition hours : list string := hour_label <$> seq 0 24.

Definition hundredths (zs : list Z) : list Q := (fun z => z # 100) <$> zs.

Definition profiles : list (string * list Q) :=
  [ ("residential_weekday", hundredths
       [25; 20; 15; 12; 15; 40; 60; 80;
        60; 40; 35; 30; 30; 40; 50; 60;
        80; 100; 90; 70; 50; 40; 35; 30]);
    ("residential_weekend", hundredths
       [35; 30; 25; 20; 25; 40; 60; 80;
        90; 100; 95; 85; 75; 80; 90; 95;
        100; 95; 85; 70; 50; 40; 35; 30]);
    ("office", hundredths
       [0; 0; 0; 0; 5; 20; 50; 70;
        90; 100; 100; 95; 95; 90; 80; 60;
        40; 20; 10; 5; 0; 0; 0; 0]);
    ("industry", hundredths
       [10; 10; 10; 10; 20; 40; 60; 80;
        100; 100; 100; 100; 100; 100; 100; 100;
        100; 80; 60; 40; 20; 10; 10; 10]);
    ("hospital", hundredths
       [70; 70; 70; 70; 75; 80; 85; 90;
        95; 100; 100; 95; 95; 90; 90; 90;
        90; 95; 95; 90; 85; 80; 75; 70]) ].

Definition summer : list Q := hundredths
  [0; 0; 0; 0; 1; 5; 15; 35;
   60; 80; 95; 100; 98; 90; 75; 55;
   35; 15; 5; 1; 0; 0; 0; 0].

Definition pv_profile_table : list (string * list Q) :=
  [ ("summer", summer);
    ("winter", (fun v => Np.round4 (v * (35 # 100))) <$> summer);
    ("night", repeat (0 : Q) 24) ].

Fixpoint lookup_profile (name : string) (tbl : list (string * list Q))
  : option (list Q) :=
  match tbl with
  | [] => None
  | (k, v) :: tbl' => if String.eqb k name then Some v else lookup_profile name tbl'
  end.

Definition quantile_probs : list Q :=
  [5 # 100; 10 # 100; 25 # 100; 50 # 100; 75 # 100; 90 # 100; 95 # 100].

Definition q_vals (r : quantile_row) : list Q :=
  [Q5 r; Q10 r; Q25 r; Q50 r; Q75 r; Q90 r; Q95 r].

(** [np.clip(np.interp(u, quantile_probs, q_vals), 0, None)] *)
Definition sample_quantile (r : quantile_row) (u : Q) : Q :=
  clip_lo (Np.interp u quantile_probs (q_vals r)) 0.

(** [df_stats[df_stats["hour"] == h].iloc[0]] *)
Definition stats_row (stats : list quantile_row) (h : string) : option quantile_row :=
  List.find (fun r => String.eqb (hour r) h) stats.

(** The constructor's arguments, i.e. the fields of the instance. *)
Record generator : Type := {
  df : list load_point;
  df_stats : option (list quantile_row);
  pv_profile_type : string;
  profile_type : string;
  add_noise : bool;
  noise_level : Q;
  stochastic : bool;
  seed : Z
}.

(** The three frames the constructor leaves on the instance. *)
Record profiles_out : Type := {
  active_profile_df : frame;
  reactive_profile_df : frame;
  pv_profile_df : frame
}.

Section Synthesizer.
Context {R : NumpyRandom}.

(** The seeds [np.random.seed] accepts. *)
Definition legal_seed (s : Z) : bool := ((0 <=? s) && (s <? 2 ^ 32))%Z.

Definition np_random_seed (s : Z) : M rng_state unit :=
  if legal_seed s then put (seeded s)
  else raise (ValueError "Seed must be between 0 and 2**32 - 1").

Definition np_random_uniform (n m : nat) : M rng_state (list (list Q)) :=
  fun g => let (u, g') := Np.draw_rows uniform01 n m g in (inr u, g').

Definition np_random_normal (loc scale : Q) (n : nat) : M rng_state (list Q) :=
  if Qle_bool 0 scale
  then fun g => let (z, g') := Np.draws (normal loc scale) n g in (inr z, g')
  else raise (ValueError "scale < 0").

Definition _select_profile (self : generator) : exn + list Q :=
  match lookup_profile (profile_type self) profiles with
  | Some p => inr p
  | None => inl (ValueError ("Profil inconnu : " +:+ profile_type self))
  end.

Definition _select_pv_profile (self : generator) : exn + list Q :=
  match lookup_profile (pv_profile_type self) pv_profile_table with
  | Some p => inr p
  | None => inl (ValueError ("Profil inconnu : " +:+ pv_profile_type self))
  end.

(** [base[power_col] * hour_profile], where [hour_profile] is the scalar
    [profile[i]] or, with noise, an array with one entry per row. *)
Definition scale_column (peak : list pyfloat) (hour_profile : Q + list Q)
  : list pyfloat :=
  match hour_profile with
  | inl c => (fun p => fmul p (Fin c)) <$> peak
  | inr a => zip_with fmul peak (Fin <$> a)
  end.

(** The loop [for i, h in enumerate(self.hours)] shared by
    [_generate_profile_df] (deterministic branch) and
    [_generate_pv_profile_df]; [hs] pairs each label with [profile[i]]. *)
Fixpoint hour_loop (self : generator) (peak : list pyfloat)
  (hs : list (string * Q)) (cols : list (string * list pyfloat))
  : M rng_state (list (string * list pyfloat)) :=
  match hs with
  | [] => ret cols
  | (h, shape) :: hs' =>
      let! hour_profile :=
        (if add_noise self
         then let! noise := np_random_normal 1 (noise_level self) (length peak) in
              ret (inr ((fun z => clip (shape * z) 0 1) <$> noise))
         else ret (inl shape)) in
      hour_loop self peak hs' (set_col h (scale_column peak hour_profile) cols)
  end.

(** Column [h] of [base_hours]: row [i] holds the sample drawn with
    [U[i, j]]. *)
Definition quantile_column (stats : list quantile_row) (U : list (list Q))
  (jh : nat * string) : exn + (string * list pyfloat) :=
  match stats_row stats jh.2 with
  | None => inl IndexError
  | Some row =>
      inr (jh.2, (fun Ui => Fin (sample_quantile row (nth jh.1 Ui 0%Q))) <$> U)
  end.

Definition enumerate {A} (l : list A) : list (nat * A) := zip (seq 0 (length l)) l.

(** The stochastic branch. A repeated hour label makes [base_hours[h]] a
    frame of several columns, which pandas refuses to store under one
    label. The hour labels are taken to differ from the column names of the
    load table, which [base[h] = ...] would otherwise overwrite. *)
Definition stochastic_columns (self : generator) (n : nat)
  : M rng_state (list (string * list pyfloat)) :=
  do! np_random_seed (seed self) in
  let! stats := lift (match df_stats self with
                      | Some t => inr t
                      | None => inl (TypeError "'NoneType' object is not subscriptable")
                      end) in
  let hours_ref := hour <$> stats in
  let! U := np_random_uniform n (length hours_ref) in
  let! base_hours := lift (emapM (quantile_column stats U) (enumerate hours_ref)) in
  if bool_decide (NoDup hours_ref)
  then ret (fold_left (fun cols c => set_col c.1 c.2 cols) base_hours [])
  else raise (ValueError "Cannot set a DataFrame with multiple columns to the single column").

(** The common tail: [base["Bus_ID"].astype(int).astype(str)] and
    [base[["Bus_ID"] + self.hours]]. *)
Definition finish (ids : list string) (cols : list (string * list pyfloat))
  : exn + frame :=
  ebind (PyInt.astype_int_str ids) (fun ids' =>
  ebind (select_cols hours cols) (fun sel =>
  inr {| Bus_ID := ids'; columns := sel |})).

(** [profile] is the attribute [self.profile]: [None] in stochastic mode. *)
Definition _generate_profile_df (self : generator) (profile : option (list Q))
  (power : power_col) : M rng_state frame :=
  let peak := peak_of power <$> df self in
  do! np_random_seed (seed self) in
  let! cols :=
    (if stochastic self
     then stochastic_columns self (length (df self))
     else match profile with
          | Some p => hour_loop self peak (zip hours p) []
          | None => raise (TypeError "'NoneType' object is not subscriptable")
          end) in
  lift (finish (lp_Bus_ID <$> df self) cols).

Definition _generate_pv_profile_df (self : generator) (pv_profile : list Q)
  : M rng_state frame :=
  let! cols := hour_loop self (lp_Pg <$> df self) (zip hours pv_profile) [] in
  lift (finish (lp_Bus_ID <$> df self) cols).

(** [df_copy[cols] = df_copy[cols] * 0.3] on every column but [Bus_ID]. *)
Definition times_03 (f : frame) : frame :=
  {| Bus_ID := Bus_ID f;
     columns := (fun c : string * list pyfloat =>
                   (c.1, (fun v => fmul v (Fin (3 # 10))) <$> c.2)) <$> columns f |}.

(** [DailyLoadProfileGenerator.__init__] *)
Definition __init__ (self : generator) : M rng_state profiles_out :=
  let! profile := (if negb (stochastic self)
                   then lift (ebind (_select_profile self) (fun p => inr (Some p)))
                   else ret None) in
  let! pv_profile := lift (_select_pv_profile self) in
  let! active := _generate_profile_df self profile PLmax_kW in
  let! reactive := (if negb (stochastic self)
                    then _generate_profile_df self profile QLmax_kVar
                    else ret (times_03 active)) in
  let! pv := _generate_pv_profile_df self pv_profile in
  ret {| active_profile_df := active;
         reactive_profile_df := reactive;
         pv_profile_df := pv |}.

End Synthesizer.

End Gen.

(** ** The input spreadsheet *)

(** One row of [xls], with the column-name indirection [self.columns[...]]
    resolved. Bus and line identifiers are kept as the strings [str(...)]
    makes of them. *)
Record xls_row : Type := {
  From : string;
  To : string;
  Line : string;
  Length_m : pyfloat;
  R_Ohm_km : pyfloat;
  X_Ohm_km : pyfloat;
  Ampacity_A : pyfloat;
  PLmax : pyfloat;
  QLmax : pyfloat;
  Pg : pyfloat
}.

(** ** loadflow.py *)

Module LoadFlow.

(** The pandapower tables the code touches. A row's index is its position:
    rows are only appended, or dropped all at once. *)
Record bus_row : Type := { bus_name : string; vn_kv : Q }.
Record ext_grid_row : Type := { eg_bus : nat; eg_vm_pu : Q; eg_name : string }.
Record line_row : Type := {
  from_bus : nat;
  to_bus : nat;
  length_km : pyfloat;
  r_ohm_per_km : pyfloat;
  x_ohm_per_km : pyfloat;
  c_nf_per_km : Q;
  max_i_ka : pyfloat;
  line_name : string
}.
Record load_row : Type := { load_bus : nat; p_mw : pyfloat; q_mvar : pyfloat }.
Record gen_row : Type := {
  gen_bus : nat;
  gen_p_mw : pyfloat;
  gen_vm_pu : pyfloat;
  gen_scaling : pyfloat;
  gen_in_service : bool;
  gen_name : string
}.

Record pandapowerNet : Type := {
  sn_mva : Q;
  net_name : string;
  bus : list bus_row;
  ext_grid : list ext_grid_row;
  line : list line_row;
  load : list load_row;
  gen : list gen_row
}.

(** The mutable objects a [LoadFlow] method works on: the network passed as
    [net] and the instance's own [self.buses]. *)
Record state : Type := {
  net : pandapowerNet;
  buses : list (string * nat)
}.

(** The immutable fields of the dataclass. *)
Record LoadFlow : Type := {
  xls : list xls_row;
  Sb : Q;
  Vb : Q;
  f : Q;
  name : string;
  node_df : list string        (* node_df["ID"].astype(str) *)
}.

(** [d[k]] and [d[k] = v] on an insertion-ordered dict. *)
Fixpoint dict_get (k : string) (d : list (string * nat)) : option nat :=
  match d with
  | [] => None
  | (k', v) :: d' => if String.eqb k' k then Some v else dict_get k d'
  end.

Fixpoint dict_set (k : string) (v : nat) (d : list (string * nat))
  : list (string * nat) :=
  match d with
  | [] => [(k, v)]
  | (k', v') :: d' =>
      if String.eqb k' k then (k', v) :: d' else (k', v') :: dict_set k v d'
  end.

Definition with_net (f : pandapowerNet -> pandapowerNet) (s : state) : state :=
  {| net := f (net s); buses := buses s |}.

(** pandapower's constructors, as far as the code relies on them: each
    appends one row; [create_bus] returns the new row's index. *)
Definition pp_create_empty_network (sn : Q) (nm : string) : pandapowerNet :=
  {| sn_mva := sn; net_name := nm;
     bus := []; ext_grid := []; line := []; load := []; gen := [] |}.

Definition pp_create_bus (vn : Q) (nm : string) : M state nat :=
  fun s =>
    (inr (length (bus (net s))),
     with_net (fun n => {| sn_mva := sn_mva n; net_name := net_name n;
                           bus := bus n ++ [ {| bus_name := nm; vn_kv := vn |} ];
                           ext_grid := ext_grid n; line := line n;
                           load := load n; gen := gen n |}) s).

Definition pp_create_ext_grid (b : nat) (vm : Q) (nm : string) : M state unit :=
  modify (with_net (fun n =>
    {| sn_mva := sn_mva n; net_name := net_name n; bus := bus n;
       ext_grid := ext_grid n ++ [ {| eg_bus := b; eg_vm_pu := vm; eg_name := nm |} ];
       line := line n; load := load n; gen := gen n |})).

Definition pp_create_line_from_parameters (l : line_row) : M state unit :=
  modify (with_net (fun n =>
    {| sn_mva := sn_mva n; net_name := net_name n; bus := bus n;
       ext_grid := ext_grid n; line := line n ++ [l];
       load := load n; gen := gen n |})).

Definition pp_create_load (l : load_row) : M state unit :=
  modify (with_net (fun n =>
    {| sn_mva := sn_mva n; net_name := net_name n; bus := bus n;
       ext_grid := ext_grid n; line := line n;
       load := load n ++ [l]; gen := gen n |})).

Definition pp_create_gen (g : gen_row) : M state unit :=
  modify (with_net (fun n =>
    {| sn_mva := sn_mva n; net_name := net_name n; bus := bus n;
       ext_grid := ext_grid n; line := line n;
       load := load n; gen := gen n ++ [g] |})).

(** [self.buses[k]] *)
Definition buses_get (k : string) : M state nat :=
  fun s => match dict_get k (buses s) with
           | Some v => (inr v, s)
           | None => (inl (KeyError k), s)
           end.

Definition _create_buses (self : LoadFlow) : M state unit :=
  do! for_each (node_df self) (fun bus_id =>
        let! idx := pp_create_bus (Vb self / 1000) bus_id in
        modify (fun s => {| net := net s; buses := dict_set bus_id idx (buses s) |})) in
  let! s := get in
  match buses s with
  | [] => ret tt
  | (_, first_bus) :: _ => pp_create_ext_grid first_bus 1 "Grid"
  end.

(** [r and x and length] as a truth value. *)
Definition has_parameters (row : xls_row) : bool :=
  truthy (R_Ohm_km row) && truthy (X_Ohm_km row) && truthy (Length_m row).

Definition _create_lines (self : LoadFlow) : M state unit :=
  for_each (xls self) (fun row =>
    let fb := From row in
    let tb := To row in
    let r := R_Ohm_km row in
    let x := X_Ohm_km row in
    let length := Length_m row in
    let max_i := Ampacity_A row in
    let name_l := Line row in
    if negb (has_parameters row) then ret tt
    else
      let! from := buses_get fb in
      let! to := buses_get tb in
      pp_create_line_from_parameters
        {| from_bus := from; to_bus := to;
           length_km := fdiv length (Fin 1000);
           r_ohm_per_km := r; x_ohm_per_km := x; c_nf_per_km := 0;
           max_i_ka := fdiv max_i (Fin 1000);
           line_name := name_l |}).

(** The new network object replaces the one in the store; [self.buses] is
    the instance's and stays. *)
Definition create_net_empty (self : LoadFlow) : M state pandapowerNet :=
  do! modify (fun s => {| net := pp_create_empty_network (Sb self / 1000000) (name self);
                          buses := buses s |}) in
  do! _create_buses self in
  do! _create_lines self in
  let! s := get in
  ret (net s).

Definition _clear_loads : M state unit :=
  modify (with_net (fun n =>
    {| sn_mva := sn_mva n; net_name := net_name n; bus := bus n;
       ext_grid := ext_grid n; line := line n; load := []; gen := gen n |})).

Definition _clear_generators : M state unit :=
  modify (with_net (fun n =>
    {| sn_mva := sn_mva n; net_name := net_name n; bus := bus n;
       ext_grid := ext_grid n; line := line n; load := load n; gen := [] |})).

(** A row of the frame handed to [_create_loads]: ['bus', 'p_mw', 'q_mvar']. *)
Record load_spec : Type := { ls_bus : string; ls_p_mw : pyfloat; ls_q_mvar : pyfloat }.

Definition _create_loads (loads : list load_spec) : M state unit :=
  for_each loads (fun row =>
    let bus_key := ls_bus row in
    let! s := get in
    match dict_get bus_key (buses s) with
    | None => ret tt
    | Some b => pp_create_load {| load_bus := b; p_mw := ls_p_mw row; q_mvar := ls_q_mvar row |}
    end).

(** A row of the frame handed to [_create_generators]. *)
Record gen_spec : Type := {
  gs_bus : string;
  gs_p_mw : pyfloat;
  gs_vm_pu : pyfloat;
  gs_scaling_factor : pyfloat;
  gs_in_service : bool;
  gs_ID : string
}.

Definition _create_generators (generation : list gen_spec) : M state unit :=
  do! _clear_generators in
  for_each generation (fun row =>
    let bus_key := gs_bus row in
    let! s := get in
    match dict_get bus_key (buses s) with
    | None => ret tt
    | Some b =>
        pp_create_gen {| gen_bus := b; gen_p_mw := fmul (Fin (-1)) (gs_p_mw row);
                         gen_vm_pu := gs_vm_pu row;
                         gen_scaling := gs_scaling_factor row;
                         gen_in_service := gs_in_service row;
                         gen_name := gs_ID row |}
    end).

(** [df[['Bus_ID', hour]]] as rows. *)
Definition hour_rows (df : Gen.frame) (hour : string)
  : exn + list (string * pyfloat) :=
  match Gen.get_col hour (Gen.columns df) with
  | Some v => inr (zip (Gen.Bus_ID df) v)
  | None => inl (KeyError hour)
  end.

(** One row of the concatenated frame, after
    [p_mw = p_kw * sign / 1000] and [q_mvar = q_kvar / 1000]. *)
Definition to_load_spec (bus_id : string) (p_kw q_kvar : pyfloat) (sign : Q)
  : load_spec :=
  {| ls_bus := bus_id;
     ls_p_mw := fdiv (fmul p_kw (Fin sign)) (Fin 1000);
     ls_q_mvar := fdiv q_kvar (Fin 1000) |}.

Definition hourly_specs (active reactive prod : list (string * pyfloat))
  : list load_spec :=
  ((fun r : string * pyfloat => to_load_spec r.1 r.2 (Fin 0) 1) <$> active) ++
  ((fun r : string * pyfloat => to_load_spec r.1 (Fin 0) r.2 1) <$> reactive) ++
  ((fun r : string * pyfloat => to_load_spec r.1 r.2 (Fin 0) (-1)) <$> prod).

Definition set_hourly_loads (hour : string) (P_df Q_df PV_df : Gen.frame)
  : M state unit :=
  do! _clear_loads in
  let! active := lift (hour_rows P_df hour) in
  let! reactive := lift (hour_rows Q_df hour) in
  let! prod := lift (hour_rows PV_df hour) in
  _create_loads (hourly_specs active reactive prod).

Definition set_generation_mw (production : list gen_spec) : M state unit :=
  _create_generators production.

(** [loads] with its columns ['Bus_ID', 'active_power_mw',
    'reactive_power_mvar'] renamed to ['bus', 'p_mw', 'q_mvar']. *)
Definition set_loads_mw (loads : list load_spec) : M state unit :=
  do! _clear_loads in
  _create_loads loads.

End LoadFlow.

(** ** data_prepare.py *)

Module Prep.

(** The column names bound at run time ([PowerFlowViz.columns]). *)
Record columns_map : Type := {
  c_from : string; c_to : string; c_line : string; c_length : string;
  c_r : string; c_x : string; c_ampacity : string;
  c_plmax : string; c_qlmax : string; c_pg : string;
  c_from_xy : string; c_to_xy : string
}.

Record DataPrepare : Type := {
  xls_columns : list string;        (* self.xls.columns *)
  xls : list xls_row;
  columns : columns_map;
  stochastic : bool
}.

Definition _check_required_columns (self : DataPrepare) (required : list string)
  : exn + unit :=
  let missing := List.filter (fun col => negb (bool_decide (col ∈ xls_columns self))) required in
  match missing with
  | [] => inr tt
  | _ => inl (ValueError "Missing columns in Excel")
  end.

(** A frame built from a list of dicts: its columns are the keys of the
    dicts, so a frame built from no dict has no column at all. *)
Record load_frame : Type := {
  lf_columns : list string;
  lf_rows : list Gen.load_point
}.

Definition load_keys : list string :=
  ["Bus_ID"; "PLmax(kW)"; "QLmax(kVar)"; "Pg(kW)"].

Definition pd_DataFrame (load_data : list Gen.load_point) : load_frame :=
  {| lf_columns := match load_data with [] => [] | _ => load_keys end;
     lf_rows := load_data |}.

(** [df[label]], as far as it can fail. *)
Definition getitem (df : load_frame) (label : string) : exn + unit :=
  if bool_decide (label ∈ lf_columns df) then inr tt else inl (KeyError label).

(** The test [row[plmax] != 0 or row[pg] != 0 or row[qlmax] != 0]. *)
Definition has_power (row : xls_row) : bool :=
  ne_zero (PLmax row) || ne_zero (Pg row) || ne_zero (QLmax row).

Definition load_record (row : xls_row) : Gen.load_point :=
  {| Gen.lp_Bus_ID := To row;
     Gen.lp_PLmax := PLmax row;
     Gen.lp_QLmax := QLmax row;
     Gen.lp_Pg := Pg row |}.

(** [pd.Series(l).unique()]: first occurrences, in order. *)
Fixpoint unique_from (seen l : list string) : list string :=
  match l with
  | [] => []
  | x :: l' =>
      if bool_decide (x ∈ seen) then unique_from seen l'
      else x :: unique_from (x :: seen) l'
  end.

Definition unique (l : list string) : list string := unique_from [] l.

Section RawCells.

(** The id cells of the sheet as pandas hands them to the loop: strings,
    integers, floats, NaN for a blank. [cell_eqb a b] tells whether a set
    holding [b] answers [a in seen] with [True] (equal hashes and [==], or
    the same object), and [cell_str] is [str(...)]. *)
Context {cell : Type} (cell_eqb : cell -> cell -> bool) (cell_str : cell -> string).

(** [node_id in seen] *)
Definition seen_has (node_id : cell) (seen : list cell) : bool :=
  existsb (cell_eqb node_id) seen.

(** One pass of the inner loop of [_extract_unique_nodes] on the pair
    [(seen, node_data)], as far as the ["ID"] column goes. *)
Definition visit_node (node_id : cell) (st : list cell * list cell)
  : list cell * list cell :=
  if seen_has node_id st.1 then st
  else (node_id :: st.1, st.2 ++ [node_id]).

(** [_extract_unique_nodes(...)["ID"]] on the rows [(row[from], row[to])]
    of the sheet: the cells are de-duplicated as they are, row by row,
    "from" before "to", and cast to [str] afterwards. The coordinates are
    parsed on the side and do not reach this column. A frame built from no
    entry has no ["ID"] column. *)
Definition _extract_unique_nodes (rows : list (cell * cell)) : exn + list string :=
  let node_data :=
    (foldl (fun st row => visit_node row.2 (visit_node row.1 st))
           ([], []) rows).2 in
  match node_data with
  | [] => inl (KeyError "ID")
  | _ => inr (cell_str <$> node_data)
  end.

End RawCells.

(** The dict [load] returned by [make_load_df]. *)
Record load_dict : Type := {
  active_profile_df : Gen.frame;
  reactive_profile_df : Gen.frame;
  pv_profile_df : Gen.frame;
  load_df : list Gen.load_point
}.

Section MakeLoad.
Context {R : NumpyRandom}.

Definition make_load_df (self : DataPrepare) (df_stats : option (list Gen.quantile_row))
  : M rng_state (load_dict * list string) :=
  do! lift (_check_required_columns self
              [c_plmax (columns self); c_qlmax (columns self);
               c_pg (columns self); c_to (columns self)]) in
  let load_data := load_record <$> List.filter has_power (xls self) in
  let df := pd_DataFrame load_data in
  do! lift (getitem df "Bus_ID") in
  let! gen := Gen.__init__
                {| Gen.df := lf_rows df; Gen.df_stats := df_stats;
                   Gen.pv_profile_type := "summer";
                   Gen.profile_type := "residential_weekday";
                   Gen.add_noise := false; Gen.noise_level := 1 # 10;
                   Gen.stochastic := stochastic self; Gen.seed := 0 |} in
  let load := {| active_profile_df := Gen.active_profile_df gen;
                 reactive_profile_df := Gen.reactive_profile_df gen;
                 pv_profile_df := Gen.pv_profile_df gen;
                 load_df := lf_rows df |} in
  let node_with_power :=
    Gen.Bus_ID (active_profile_df load) ++ Gen.Bus_ID (reactive_profile_df load) ++
    Gen.Bus_ID (pv_profile_df load) ++ (Gen.lp_Bus_ID <$> load_df load) in
  ret (load, unique node_with_power).

End MakeLoad.

End Prep.

(** ** power_flow_viz.py: the daily aggregation *)

Module Viz.

(** What [_collect] reads after one solve: the rows of [res_line] and
    [res_bus], each with the [name] of its element. *)
Record snapshot : Type := {
  res_line : list (string * pyfloat);     (* name, loading_percent *)
  res_bus : list (string * pyfloat)       (* name, vm_pu *)
}.

(** [hist.setdefault(k, []).append(v)] *)
Definition setdefault_append (k : string) (v : pyfloat)
  (hist : gmap string (list pyfloat)) : gmap string (list pyfloat) :=
  <[k := default [] (hist !! k) ++ [v]]> hist.

Definition collect_lines (rl : list (string * pyfloat))
  (line_hist : gmap string (list pyfloat)) : gmap string (list pyfloat) :=
  foldl (fun h r => setdefault_append r.1 r.2 h) line_hist rl.

Definition collect_buses (node_with_power_unique : list string)
  (rb : list (string * pyfloat)) (bus_hist : gmap string (list pyfloat))
  : gmap string (list pyfloat) :=
  foldl (fun h r => if bool_decide (r.1 ∈ node_with_power_unique)
                    then setdefault_append r.1 r.2 h else h) bus_hist rb.

(** The closure [_collect], on the pair [(line_hist, bus_hist)]. *)
Definition _collect (node_with_power_unique : list string) (snap : snapshot)
  (hist : gmap string (list pyfloat) * gmap string (list pyfloat))
  : gmap string (list pyfloat) * gmap string (list pyfloat) :=
  (collect_lines (res_line snap) hist.1,
   collect_buses node_with_power_unique (res_bus snap) hist.2).

(** Python's [max]: the running maximum is replaced only by an item that
    compares greater. *)
Fixpoint max_from (m : pyfloat) (v : list pyfloat) : pyfloat :=
  match v with
  | [] => m
  | x :: v' => max_from (if fgt x m then x else m) v'
  end.

Definition py_max (v : list pyfloat) : option pyfloat :=
  match v with
  | [] => None
  | x :: v' => Some (max_from x v')
  end.

(** Python's [min]: replaced only by an item that compares less. *)
Fixpoint min_from (m : pyfloat) (v : list pyfloat) : pyfloat :=
  match v with
  | [] => m
  | x :: v' => min_from (if fgt m x then x else m) v'
  end.

Definition py_min (v : list pyfloat) : option pyfloat :=
  match v with
  | [] => None
  | x :: v' => Some (min_from x v')
  end.

(** [{n: agg(v) for n, v in hist.items()}]; [agg] of an empty list raises. *)
Definition dict_agg (agg : list pyfloat -> option pyfloat)
  (hist : gmap string (list pyfloat)) : exn + gmap string pyfloat :=
  if bool_decide (map_Forall (fun _ v => length v ≠ 0%nat) hist)
  then inr (omap agg hist)
  else inl (ValueError "arg is an empty sequence").

(** The histories after the hourly loop, one snapshot per solved hour. *)
Definition histories (node_with_power_unique : list string) (snaps : list snapshot)
  : gmap string (list pyfloat) * gmap string (list pyfloat) :=
  foldl (fun h s => _collect node_with_power_unique s h) (∅, ∅) snaps.

Definition max_load (node_with_power_unique : list string) (snaps : list snapshot)
  : exn + gmap string pyfloat :=
  dict_agg py_max (histories node_with_power_unique snaps).1.

Definition min_volt (node_with_power_unique : list string) (snaps : list snapshot)
  : exn + gmap string pyfloat :=
  dict_agg py_min (histories node_with_power_unique snaps).2.

End Viz.

(** ** A replayable generator, for running the model

    The state is a tape of pre-recorded standard draws; seeding rewinds to
    the tape chosen by the seed. [normal loc scale] is
    [loc + scale * z] for the next standard draw [z]. *)

Definition tape_pop (g : list Q) : Q * list Q :=
  match g with
  | [] => (0%Q, [])
  | z :: g' => (z, g')
  end.

Definition TapeRandom (tape : Z -> list Q) : NumpyRandom :=
  {| rng_state := list Q;
     seeded := tape;
     uniform01 := tape_pop;
     normal := fun loc scale g => let (z, g') := tape_pop g in ((loc + scale * z)%Q, g') |}.

Definition run {S A} (m : M S A) (s : S) : exn + A := (m s).1.


(** * Vocabulary of the properties

    The predicates, views and sample inputs the statements below are
    written with. *)

Section NumFactsVocabulary.
Local Open Scope Q_scope.

(** Knots with increasing abscissae and non-decreasing ordinates. *)
Fixpoint rising (x0 y0 : Q) (rest : list (Q * Q)) : Prop :=
  match rest with
  | [] => True
  | (x1, y1) :: rest' => x0 < x1 /\ y0 <= y1 /\ rising x1 y1 rest'
  end.

Fixpoint last_ordinate (y0 : Q) (rest : list (Q * Q)) : Q :=
  match rest with
  | [] => y0
  | (_, y1) :: rest' => last_ordinate y1 rest'
  end.

End NumFactsVocabulary.

Section QuantileSamplingVocabulary.
Local Open Scope Q_scope.
Import Gen.

(** The breakpoints of a row are non-decreasing, as quantiles are. *)
Definition ordered_quantiles (r : quantile_row) : Prop :=
  Q5 r <= Q10 r /\ Q10 r <= Q25 r /\ Q25 r <= Q50 r /\
  Q50 r <= Q75 r /\ Q75 r <= Q90 r /\ Q90 r <= Q95 r.

(** A well-formed quantile table of a signed quantity (net load under
    heavy injection): every breakpoint is negative. *)
Definition surplus_row : quantile_row :=
  {| hour := "12:00"; Q5 := -7; Q10 := -6; Q25 := -5; Q50 := -4;
     Q75 := -3; Q90 := -2; Q95 := -1 |}.

(** A row of positive, increasing breakpoints. *)
Definition rising_row : quantile_row :=
  {| hour := "12:00"; Q5 := 1; Q10 := 2; Q25 := 3; Q50 := 4;
     Q75 := 5; Q90 := 6; Q95 := 7 |}.

End QuantileSamplingVocabulary.

Section DeterministicProfileVocabulary.
Context {R : NumpyRandom}.
Import Gen.

(** The factor applied to the peak of row [i] at the [k]-th hour of a
    loop started in generator state [g] over [n] rows: the archetype value,
    or with noise the clipped product of that value and the loop's draw
    number [k * n + i]. *)
Definition hour_factor (self : generator) (g : rng_state) (nhours n : nat)
  (shape : Q) (k i : nat) : Q :=
  if add_noise self
  then clip (shape * nth (k * n + i)
                       (Np.draws (normal 1 (noise_level self)) (nhours * n) g).1 0%Q)
            0 1
  else shape.

End DeterministicProfileVocabulary.

(** A value in lowest terms, to compare computed cells with literals. *)
Definition fred (x : pyfloat) : pyfloat :=
  match x with Fin q => Fin (Qred q) | NaN => NaN end.

(** The cell of the active frame at hour label [h], row [i]. *)
Definition active_cell (r : exn + Gen.profiles_out) (h : string) (i : nat)
  : option pyfloat :=
  match r with
  | inl _ => None
  | inr out =>
      match Gen.get_col h (Gen.columns (Gen.active_profile_df out)) with
      | Some col => col !! i
      | None => None
      end
  end.

(** The factor as C1 words it: the noise draw is clipped to [0, 1] first
    and then multiplied with the shape. *)
Definition claimed_noise_factor (shape z : Q) : Q := (shape * clip z 0 1)%Q.

(** One load point of 10 kW peak on the weekday archetype, noise level 0.1;
    every standard draw on the tape is 2, so every noise factor is 1.2. *)
Definition noisy_generator : Gen.generator :=
  {| Gen.df := [ {| Gen.lp_Bus_ID := "7"; Gen.lp_PLmax := Fin 10;
                    Gen.lp_QLmax := Fin 3; Gen.lp_Pg := Fin 0 |} ];
     Gen.df_stats := None;
     Gen.pv_profile_type := "summer";
     Gen.profile_type := "residential_weekday";
     Gen.add_noise := true;
     Gen.noise_level := 1 # 10;
     Gen.stochastic := false;
     Gen.seed := 0 |}.

(** A generator whose standard draws are all 2. *)
Definition tape_of_twos : NumpyRandom := TapeRandom (fun _ => repeat 2%Q 72).

(** The "residential_weekday" archetype. *)
Definition weekday : list Q :=
  default [] (Gen.lookup_profile "residential_weekday" Gen.profiles).

Section LoadFlowFactsVocabulary.
Import LoadFlow.

(** The static part of a network: everything but loads and generators. *)
Definition topology (n : pandapowerNet)
  : Q * string * list bus_row * list ext_grid_row * list line_row :=
  (sn_mva n, net_name n, bus n, ext_grid n, line n).

(** The load row a specification row becomes, if its bus key is known. *)
Definition attach (d : list (string * nat)) (r : load_spec) : option load_row :=
  match dict_get (ls_bus r) d with
  | Some b => Some {| load_bus := b; p_mw := ls_p_mw r; q_mvar := ls_q_mvar r |}
  | None => None
  end.

End LoadFlowFactsVocabulary.

Definition one_bus_state : LoadFlow.state :=
  {| LoadFlow.net :=
       {| LoadFlow.sn_mva := 1; LoadFlow.net_name := "grid";
          LoadFlow.bus := [ {| LoadFlow.bus_name := "7"; LoadFlow.vn_kv := 4 # 10 |} ];
          LoadFlow.ext_grid := [ {| LoadFlow.eg_bus := 0; LoadFlow.eg_vm_pu := 1;
                                    LoadFlow.eg_name := "Grid" |} ];
          LoadFlow.line := [];
          LoadFlow.load := [ {| LoadFlow.load_bus := 0; LoadFlow.p_mw := Fin 1;
                                LoadFlow.q_mvar := Fin 0 |} ];
          LoadFlow.gen := [ {| LoadFlow.gen_bus := 0; LoadFlow.gen_p_mw := Fin 1;
                               LoadFlow.gen_vm_pu := Fin 1;
                               LoadFlow.gen_scaling := Fin 1;
                               LoadFlow.gen_in_service := true;
                               LoadFlow.gen_name := "pv" |} ] |};
     LoadFlow.buses := [("7", 0%nat)] |}.

Definition nine_oclock (v : Q) : Gen.frame :=
  {| Gen.Bus_ID := ["7"]; Gen.columns := [("09:00", [Fin v])] |}.

Section AssemblyFactsVocabulary.
Import LoadFlow.

(** Keys numbered in order from [base]. *)
Definition numbered (ids : list string) (base : nat) : list (string * nat) :=
  zip ids (seq base (length ids)).

(** What bus creation leaves alone. *)
Definition beside_buses (n : pandapowerNet)
  : Q * string * list ext_grid_row * list line_row * list load_row * list gen_row :=
  (sn_mva n, net_name n, ext_grid n, line n, load n, gen n).

Definition bus_of (self : LoadFlow) (bus_id : string) : bus_row :=
  {| bus_name := bus_id; vn_kv := Vb self / 1000 |}.

Definition grid_on (b : nat) : ext_grid_row :=
  {| eg_bus := b; eg_vm_pu := 1; eg_name := "Grid" |}.

(** What [_create_buses] leaves alone. *)
Definition beside_buses_and_grid (n : pandapowerNet)
  : Q * string * list line_row * list load_row * list gen_row :=
  (sn_mva n, net_name n, line n, load n, gen n).

(** The row [pp.create_line_from_parameters] receives. *)
Definition line_of (row : xls_row) (fb tb : nat) : line_row :=
  {| from_bus := fb; to_bus := tb;
     length_km := fdiv (Length_m row) (Fin 1000);
     r_ohm_per_km := R_Ohm_km row; x_ohm_per_km := X_Ohm_km row;
     c_nf_per_km := 0;
     max_i_ka := fdiv (Ampacity_A row) (Fin 1000);
     line_name := Line row |}.

(** The outcome of the loop of [_create_lines] as a function of the bus
    dict: the lines to append, or the first [KeyError]. *)
Fixpoint lines_result (d : list (string * nat)) (rows : list xls_row)
  : exn + list line_row :=
  match rows with
  | [] => inr []
  | row :: rows' =>
      if negb (has_parameters row) then lines_result d rows'
      else match dict_get (From row) d with
           | None => inl (KeyError (From row))
           | Some fb =>
               match dict_get (To row) d with
               | None => inl (KeyError (To row))
               | Some tb =>
                   ebind (lines_result d rows') (fun ls => inr (line_of row fb tb :: ls))
               end
           end
  end.

Definition with_xls (self : LoadFlow) (rows : list xls_row) : LoadFlow :=
  {| xls := rows; Sb := Sb self; Vb := Vb self; f := f self;
     name := name self; node_df := node_df self |}.

(** What [_create_lines] leaves alone. *)
Definition beside_lines (s : state)
  : list (string * nat) * Q * string * list bus_row * list ext_grid_row
    * list load_row * list gen_row :=
  (buses s, sn_mva (net s), net_name (net s), bus (net s), ext_grid (net s),
   load (net s), gen (net s)).

End AssemblyFactsVocabulary.

Section AssemblyPropertiesVocabulary.
Import LoadFlow.

(** The claim's test on one parameter: present (not NaN) and non-zero. *)
Definition present_nonzero (x : pyfloat) : bool :=
  match x with Fin q => Qnonzero q | NaN => false end.

Definition claimed_kept (row : xls_row) : bool :=
  present_nonzero (R_Ohm_km row) && present_nonzero (X_Ohm_km row)
  && present_nonzero (Length_m row).

Definition parameters_present (row : xls_row) : Prop :=
  is_nan (R_Ohm_km row) = false /\ is_nan (X_Ohm_km row) = false /\
  is_nan (Length_m row) = false.

End AssemblyPropertiesVocabulary.

(** A view of the value a run returned. *)
Definition returned {A B} (f : A -> B) (r : exn + A) : exn + B :=
  match r with inl e => inl e | inr a => inr (f a) end.

Definition fresh_state : LoadFlow.state :=
  {| LoadFlow.net := LoadFlow.pp_create_empty_network 1 "";
     LoadFlow.buses := [] |}.

Definition assembler (nodes : list string) (rows : list xls_row) : LoadFlow.LoadFlow :=
  {| LoadFlow.xls := rows; LoadFlow.Sb := 1000000; LoadFlow.Vb := 400;
     LoadFlow.f := 50; LoadFlow.name := "grid"; LoadFlow.node_df := nodes |}.

Definition line_row_of (nm fb tb : string) (r x len : pyfloat) : xls_row :=
  {| From := fb; To := tb; Line := nm; Length_m := len; R_Ohm_km := r;
     X_Ohm_km := x; Ampacity_A := Fin 200;
     PLmax := Fin 0; QLmax := Fin 0; Pg := Fin 0 |}.

(** The three-bus grid of the specification: ref-A has parameters, A-B is a
    placeholder row. *)
Definition three_bus : LoadFlow.LoadFlow :=
  assembler ["ref"; "A"; "B"]
    [ line_row_of "ref-A" "ref" "A" (Fin (3 # 10)) (Fin (3 # 10)) (Fin 100);
      line_row_of "A-B" "A" "B" (Fin 0) (Fin 0) (Fin 50) ].

Definition one_load (bus_id : string) : Gen.generator :=
  {| Gen.df := [ {| Gen.lp_Bus_ID := bus_id; Gen.lp_PLmax := Fin 10;
                    Gen.lp_QLmax := Fin 3; Gen.lp_Pg := Fin 0 |} ];
     Gen.df_stats := None;
     Gen.pv_profile_type := "summer";
     Gen.profile_type := "office";
     Gen.add_noise := false;
     Gen.noise_level := 1 # 10;
     Gen.stochastic := false;
     Gen.seed := 0 |}.

(** The loads in the network after assembling the buses [nodes], building
    the profiles of one load point at [bus_id] and populating 09:00. *)
Definition loads_at_nine (nodes : list string) (bus_id : string)
  : exn + list LoadFlow.load_row :=
  match run (@Gen.__init__ tape_of_twos (one_load bus_id)) [] with
  | inl e => inl e
  | inr out =>
      let s := (LoadFlow.create_net_empty (assembler nodes []) fresh_state).2 in
      match LoadFlow.set_hourly_loads "09:00" (Gen.active_profile_df out)
              (Gen.reactive_profile_df out) (Gen.pv_profile_df out) s with
      | (inl e, _) => inl e
      | (inr _, s') => inr (LoadFlow.load (LoadFlow.net s'))
      end
  end.

Definition padded_state : LoadFlow.state :=
  {| LoadFlow.net := LoadFlow.pp_create_empty_network 1 "grid";
     LoadFlow.buses := [("007", 0%nat)] |}.

Section AggregationVocabulary.
Import Viz.

(** The values a table holds for the element named [n], in row order. *)
Definition series_of (n : string) (rows : list (string * pyfloat)) : list pyfloat :=
  snd <$> List.filter (fun r : string * pyfloat => String.eqb r.1 n) rows.

(** The hourly series of line [n] over the day. *)
Definition day_series (n : string) (snaps : list snapshot) : list pyfloat :=
  snaps ≫= (fun s => series_of n (res_line s)).

(** The maximum as C5 words it: NaN hours are excluded from the series
    first. *)
Definition claimed_max (v : list pyfloat) : option pyfloat :=
  py_max (List.filter (fun x => negb (is_nan x)) v).

(** The entry of [n] after appending the values [vs] to it. *)
Definition extended (old : option (list pyfloat)) (vs : list pyfloat)
  : option (list pyfloat) :=
  match vs with
  | [] => old
  | _ => Some (default [] old ++ vs)
  end.

End AggregationVocabulary.

(** A day on which line L1 is undefined at the first hour; L2 is defined
    throughout. *)
Definition undefined_first_hour : list Viz.snapshot :=
  [ {| Viz.res_line := [("L1", NaN); ("L2", Fin 20)]; Viz.res_bus := [] |};
    {| Viz.res_line := [("L1", Fin 10); ("L2", Fin 30)]; Viz.res_bus := [] |};
    {| Viz.res_line := [("L1", Fin 95); ("L2", Fin 25)]; Viz.res_bus := [] |} ].

Section EmptyLoadTableVocabulary.
Context {R : NumpyRandom}.
Import Prep.

(** A peak cell equal to zero. *)
Definition is_zero (x : pyfloat) : Prop := exists q, x = Fin q /\ (q == 0)%Q.

End EmptyLoadTableVocabulary.

Definition standard_columns : Prep.columns_map :=
  {| Prep.c_from := "From"; Prep.c_to := "To"; Prep.c_line := "Line";
     Prep.c_length := "Length(m)"; Prep.c_r := "R(Ohm/km)"; Prep.c_x := "X(Ohm/km)";
     Prep.c_ampacity := "Ampacity (A)"; Prep.c_plmax := "PLmax(kW)";
     Prep.c_qlmax := "QLmax(kVar)"; Prep.c_pg := "Pg(kW)";
     Prep.c_from_xy := "From_XY"; Prep.c_to_xy := "To_XY" |}.

(** A sheet with one line and no power anywhere. *)
Definition powerless_sheet : Prep.DataPrepare :=
  {| Prep.xls_columns :=
       ["Line"; "From"; "To"; "Length(m)"; "R(Ohm/km)"; "X(Ohm/km)";
        "Ampacity (A)"; "PLmax(kW)"; "QLmax(kVar)"; "Pg(kW)"; "From_XY"; "To_XY"];
     Prep.xls := [ line_row_of "ref-A" "ref" "A" (Fin (3 # 10)) (Fin (3 # 10)) (Fin 100) ];
     Prep.columns := standard_columns;
     Prep.stochastic := false |}.

Section SynthesizerVocabulary.
Import Gen.

(** A frame with the 24 hour labels in order and one value per load point
    in every column. *)
Definition well_shaped (n : nat) (fr : frame) : Prop :=
  (columns fr).*1 = hours /\
  length (Bus_ID fr) = n /\
  Forall (fun c : string * list pyfloat => length c.2 = n) (columns fr).

(** The value of a frame at hour label [h], row [i]. *)
Definition cell (fr : frame) (h : string) (i : nat) : option pyfloat :=
  match get_col h (columns fr) with
  | Some col => col !! i
  | None => None
  end.

(** A defined value between two bounds. *)
Definition between (lo hi : Q) (x : pyfloat) : Prop :=
  exists v, x = Fin v /\ (lo <= v)%Q /\ (v <= hi)%Q.

(** A defined, non-negative value. *)
Definition non_negative (x : pyfloat) : Prop :=
  exists v, x = Fin v /\ (0 <= v)%Q.

(** The instance with another load archetype name. *)
Definition with_profile_type (self : generator) (name : string) : generator :=
  {| df := df self; df_stats := df_stats self;
     pv_profile_type := pv_profile_type self; profile_type := name;
     add_noise := add_noise self; noise_level := noise_level self;
     stochastic := stochastic self; seed := seed self |}.

(** The instance with other peak values for the same load points. *)
Definition with_df (self : generator) (rows : list load_point) : generator :=
  {| df := rows; df_stats := df_stats self;
     pv_profile_type := pv_profile_type self; profile_type := profile_type self;
     add_noise := add_noise self; noise_level := noise_level self;
     stochastic := stochastic self; seed := seed self |}.

End SynthesizerVocabulary.

(** Every column of a frame satisfies [P]. *)
Definition columns_all (P : list pyfloat -> Prop)
  (cs : list (string * list pyfloat)) : Prop :=
  Forall (fun c : string * list pyfloat => P c.2) cs.

(** The frames of a run, for naming them in examples. *)
Definition the_profiles (r : exn + Gen.profiles_out) : Gen.profiles_out :=
  match r with
  | inr out => out
  | inl _ =>
      let none := {| Gen.Bus_ID := []; Gen.columns := [] |} in
      {| Gen.active_profile_df := none; Gen.reactive_profile_df := none;
         Gen.pv_profile_df := none |}
  end.

(** Every value of a shape curve lies in [0, 1]. *)
Definition unit_curve (p : list Q) : bool :=
  forallb (fun q => Qle_bool 0 q && Qle_bool q 1) p.

Section PopulationVocabulary.
Import LoadFlow.

(** The generator row a production row becomes, if its bus key is known;
    the sign of the power is flipped. *)
Definition attach_gen (d : list (string * nat)) (r : gen_spec) : option gen_row :=
  match dict_get (gs_bus r) d with
  | Some b => Some {| gen_bus := b; gen_p_mw := fmul (Fin (-1)) (gs_p_mw r);
                      gen_vm_pu := gs_vm_pu r; gen_scaling := gs_scaling_factor r;
                      gen_in_service := gs_in_service r; gen_name := gs_ID r |}
  | None => None
  end.

(** The position of the last occurrence of [k]. *)
Fixpoint last_index (k : string) (ids : list string) : option nat :=
  match ids with
  | [] => None
  | id :: ids' =>
      match last_index k ids' with
      | Some j => Some (S j)
      | None => if String.eqb id k then Some 0%nat else None
      end
  end.

End PopulationVocabulary.

Section VoltageVocabulary.
Import Viz.

(** The hourly voltage series of bus [n] over the day. *)
Definition bus_day_series (n : string) (snaps : list snapshot) : list pyfloat :=
  snaps ≫= (fun s => series_of n (res_bus s)).

End VoltageVocabulary.

Section NodeExtractionVocabulary.
Context {cell : Type} (cell_eqb : cell -> cell -> bool) (cell_str : cell -> string).




End NodeExtractionVocabulary.

(** Id cells of three kinds, for examples: a string, an integer, or an
    integral float [z.0] with fewer than 16 digits, which [str] renders with
    the digits of [z] followed by ".0". An integer and a float of the same
    value are one set element; a number and a string never are. *)
Inductive id_cell : Type :=
  | StrCell (s : string)
  | IntCell (z : Z)
  | FloatCell (z : Z).

Definition id_cell_eqb (a b : id_cell) : bool :=
  match a, b with
  | StrCell s, StrCell t => String.eqb s t
  | IntCell x, IntCell y | IntCell x, FloatCell y
  | FloatCell x, IntCell y | FloatCell x, FloatCell y => (x =? y)%Z
  | _, _ => false
  end.

Definition id_cell_str (a : id_cell) : string :=
  match a with
  | StrCell s => s
  | IntCell z => pretty z
  | FloatCell z => pretty z +:+ ".0"
  end.


(** ** Sample inputs of the further properties *)

(** The frames of the one noisy load point, every standard draw being 2. *)
Definition noisy_profiles : Gen.profiles_out :=
  the_profiles (run (@Gen.__init__ tape_of_twos noisy_generator) []).

(** One load point with 4 kW of installed generation, with noise. *)
Definition sunny_generator : Gen.generator :=
  {| Gen.df := [ {| Gen.lp_Bus_ID := "7"; Gen.lp_PLmax := Fin 10;
                    Gen.lp_QLmax := Fin 3; Gen.lp_Pg := Fin 4 |} ];
     Gen.df_stats := None;
     Gen.pv_profile_type := "summer";
     Gen.profile_type := "office";
     Gen.add_noise := true;
     Gen.noise_level := 1 # 10;
     Gen.stochastic := false;
     Gen.seed := 0 |}.

Definition sunny_profiles : Gen.profiles_out :=
  the_profiles (run (@Gen.__init__ tape_of_twos sunny_generator) []).

(** A quantile table covering the day, with a negative lowest breakpoint. *)
Definition quantile_table : list Gen.quantile_row :=
  (fun h => {| Gen.hour := Gen.hour_label h;
               Gen.Q5 := -1; Gen.Q10 := 0; Gen.Q25 := 1; Gen.Q50 := 2;
               Gen.Q75 := 3; Gen.Q90 := 4; Gen.Q95 := 5 |}) <$> seq 0 24.

(** Two load points in stochastic mode. *)
Definition stochastic_generator : Gen.generator :=
  {| Gen.df := [ {| Gen.lp_Bus_ID := "7"; Gen.lp_PLmax := Fin 10;
                    Gen.lp_QLmax := Fin 3; Gen.lp_Pg := Fin 0 |};
                 {| Gen.lp_Bus_ID := "8"; Gen.lp_PLmax := Fin 20;
                    Gen.lp_QLmax := Fin 5; Gen.lp_Pg := Fin 2 |} ];
     Gen.df_stats := Some quantile_table;
     Gen.pv_profile_type := "summer";
     Gen.profile_type := "residential_weekday";
     Gen.add_noise := false;
     Gen.noise_level := 1 # 10;
     Gen.stochastic := true;
     Gen.seed := 0 |}.

(** The same two load points with other peaks. *)
Definition other_peaks : list Gen.load_point :=
  [ {| Gen.lp_Bus_ID := "7"; Gen.lp_PLmax := Fin 1;
       Gen.lp_QLmax := NaN; Gen.lp_Pg := Fin 0 |};
    {| Gen.lp_Bus_ID := "8"; Gen.lp_PLmax := Fin 0;
       Gen.lp_QLmax := Fin 50; Gen.lp_Pg := Fin 0 |} ].

(** A generator whose uniform draws alternate between 1/50 and 1/2. *)
Definition tape_of_draws : NumpyRandom :=
  TapeRandom (fun _ => concat (repeat [1 # 50; 1 # 2]%Q 24)).

Definition stochastic_profiles : Gen.profiles_out :=
  the_profiles (run (@Gen.__init__ tape_of_draws stochastic_generator) []).

(** The frames of one load point at bus "7", without noise. *)
Definition office_profiles : Gen.profiles_out :=
  the_profiles (run (@Gen.__init__ tape_of_twos (one_load "7")) []).

(** The network assembled on the single bus "7". *)
Definition bus_seven : LoadFlow.state :=
  (LoadFlow.create_net_empty (assembler ["7"] []) fresh_state).2.

(** A sheet with one line whose far end draws 10 kW; the id of that end is
    written with leading zeros. *)
Definition powered_sheet : Prep.DataPrepare :=
  {| Prep.xls_columns :=
       ["Line"; "From"; "To"; "Length(m)"; "R(Ohm/km)"; "X(Ohm/km)";
        "Ampacity (A)"; "PLmax(kW)"; "QLmax(kVar)"; "Pg(kW)"; "From_XY"; "To_XY"];
     Prep.xls := [ {| From := "1"; To := "007"; Line := "L1";
                      Length_m := Fin 100; R_Ohm_km := Fin (3 # 10);
                      X_Ohm_km := Fin (3 # 10); Ampacity_A := Fin 200;
                      PLmax := Fin 10; QLmax := Fin 3; Pg := Fin 0 |} ];
     Prep.columns := standard_columns;
     Prep.stochastic := false |}.

(** What a run of [make_load_df] returned, for naming it in examples. *)
Definition the_load (r : exn + (Prep.load_dict * list string))
  : Prep.load_dict * list string :=
  match r with
  | inr x => x
  | inl _ =>
      let none := {| Gen.Bus_ID := []; Gen.columns := [] |} in
      ({| Prep.active_profile_df := none; Prep.reactive_profile_df := none;
          Prep.pv_profile_df := none; Prep.load_df := [] |}, [])
  end.

Definition powered_load : Prep.load_dict * list string :=
  the_load (run (@Prep.make_load_df tape_of_twos powered_sheet None) []).

(** A stochastic generator whose table lacks the hour "00:00". *)
Definition short_day_generator : Gen.generator :=
  {| Gen.df := Gen.df stochastic_generator;
     Gen.df_stats := Some (drop 1 quantile_table);
     Gen.pv_profile_type := "summer";
     Gen.profile_type := "residential_weekday";
     Gen.add_noise := false;
     Gen.noise_level := 1 # 10;
     Gen.stochastic := true;
     Gen.seed := 0 |}.

(** A node table in which the first id comes back at the end. *)
Definition looped_nodes : LoadFlow.LoadFlow := assembler ["ref"; "A"; "ref"] [].

(** * Properties *)

(** ** Arithmetic helpers *)

Section NumFacts.
Local Open Scope Q_scope.

Lemma Qltb_lt x y : Qltb x y = true <-> x < y.
Proof. unfold Qltb, Qlt. apply Z.ltb_lt. Qed.

Lemma Qltb_ge x y : Qltb x y = false <-> y <= x.
Proof. unfold Qltb, Qle. apply Z.ltb_ge. Qed.

Lemma Qnonzero_spec x : Qnonzero x = true <-> ~ x == 0.
Proof.
  unfold Qnonzero, Qeq. simpl. rewrite Z.mul_1_r, negb_true_iff, Z.eqb_neq.
  tauto.
Qed.

Lemma Qnonzero_false x : Qnonzero x = false <-> x == 0.
Proof.
  unfold Qnonzero, Qeq. simpl. rewrite Z.mul_1_r, negb_false_iff, Z.eqb_eq.
  tauto.
Qed.

Lemma clip_bounds x lo hi : lo <= hi -> lo <= clip x lo hi <= hi.
Proof.
  intros H. unfold clip. split.
  - apply Q.min_glb; [apply Q.le_max_r | exact H].
  - apply Q.le_min_r.
Qed.

Lemma clip_lo_mono x y lo : x <= y -> clip_lo x lo <= clip_lo y lo.
Proof. intros H. unfold clip_lo. apply Q.max_le_compat_r. exact H. Qed.

(** One segment of the interpolation: between two knots the value stays
    between the knots' ordinates and grows with the abscissa. *)
Lemma segment_slope x0 x1 y0 y1 :
  x0 < x1 -> y0 <= y1 ->
  0 <= (y1 - y0) / (x1 - x0) /\ ((y1 - y0) / (x1 - x0)) * (x1 - x0) == y1 - y0.
Proof.
  intros Hx Hy. split.
  - apply Qle_shift_div_l; lra.
  - field. lra.
Qed.

Lemma segment_bounds x x0 x1 y0 y1 :
  x0 < x1 -> y0 <= y1 -> x0 <= x -> x <= x1 ->
  y0 <= ((y1 - y0) / (x1 - x0)) * (x - x0) + y0 <= y1.
Proof.
  intros Hx Hy H0 H1.
  destruct (segment_slope x0 x1 y0 y1 Hx Hy) as [Hs He].
  set (s := (y1 - y0) / (x1 - x0)) in *. nra.
Qed.

Lemma segment_mono u v x0 x1 y0 y1 :
  x0 < x1 -> y0 <= y1 -> u <= v ->
  ((y1 - y0) / (x1 - x0)) * (u - x0) + y0 <= ((y1 - y0) / (x1 - x0)) * (v - x0) + y0.
Proof.
  intros Hx Hy Huv.
  destruct (segment_slope x0 x1 y0 y1 Hx Hy) as [Hs _].
  set (s := (y1 - y0) / (x1 - x0)) in *. nra.
Qed.

Lemma interp_from_bounds rest : forall x x0 y0,
  x0 <= x -> rising x0 y0 rest ->
  y0 <= Np.interp_from x x0 y0 rest <= last_ordinate y0 rest.
Proof.
  induction rest as [|[x1 y1] rest IH]; intros x x0 y0 Hx Hr; simpl.
  - lra.
  - destruct Hr as (Hlt & Hle & Hr).
    assert (Hlast : y1 <= last_ordinate y1 rest).
    { destruct (IH x1 x1 y1 (Qle_refl _) Hr) as [A B].
      eapply Qle_trans; eassumption. }
    destruct (Qltb x x1) eqn:E.
    + apply Qltb_lt in E.
      destruct (segment_bounds x x0 x1 y0 y1 Hlt Hle Hx (Qlt_le_weak _ _ E)).
      split; [assumption | lra].
    + apply Qltb_ge in E. destruct (IH x x1 y1 E Hr). split; lra.
Qed.

Lemma interp_from_mono rest : forall u v x0 y0,
  x0 <= u -> u <= v -> rising x0 y0 rest ->
  Np.interp_from u x0 y0 rest <= Np.interp_from v x0 y0 rest.
Proof.
  induction rest as [|[x1 y1] rest IH]; intros u v x0 y0 Hu Huv Hr; simpl.
  - lra.
  - destruct Hr as (Hlt & Hle & Hr).
    destruct (Qltb u x1) eqn:Eu, (Qltb v x1) eqn:Ev.
    + apply segment_mono; assumption.
    + apply Qltb_lt in Eu. apply Qltb_ge in Ev.
      destruct (segment_bounds u x0 x1 y0 y1 Hlt Hle Hu (Qlt_le_weak _ _ Eu)).
      destruct (interp_from_bounds rest v x1 y1 Ev Hr). lra.
    + apply Qltb_ge in Eu. apply Qltb_lt in Ev. lra.
    + apply Qltb_ge in Eu. apply IH; assumption.
Qed.

End NumFacts.

(** ** Quantile sampling *)

Section QuantileSampling.
Local Open Scope Q_scope.
Import Gen.

Lemma quantile_knots_rising r :
  ordered_quantiles r ->
  rising (5 # 100) (Q5 r)
    [(10 # 100, Q10 r); (25 # 100, Q25 r); (50 # 100, Q50 r);
     (75 # 100, Q75 r); (90 # 100, Q90 r); (95 # 100, Q95 r)].
Proof.
  intros (H1 & H2 & H3 & H4 & H5 & H6).
  cbn [rising]. repeat split; try assumption; reflexivity.
Qed.

Lemma interp_quantiles_bounds r u :
  ordered_quantiles r ->
  Q5 r <= Np.interp u quantile_probs (q_vals r) <= Q95 r.
Proof.
  intros Ho. pose proof (quantile_knots_rising r Ho) as Hr.
  destruct Ho as (H1 & H2 & H3 & H4 & H5 & H6).
  unfold Np.interp, quantile_probs, q_vals. cbn [zip zip_with].
  destruct (Qltb u (5 # 100)) eqn:E.
  - split; lra.
  - apply Qltb_ge in E.
    pose proof (interp_from_bounds _ u (5 # 100) (Q5 r) E Hr) as Hb.
    cbn [last_ordinate] in Hb. exact Hb.
Qed.

Lemma interp_quantiles_mono r u v :
  ordered_quantiles r -> u <= v ->
  Np.interp u quantile_probs (q_vals r) <= Np.interp v quantile_probs (q_vals r).
Proof.
  intros Ho Huv. pose proof (quantile_knots_rising r Ho) as Hr.
  unfold Np.interp, quantile_probs, q_vals. cbn [zip zip_with].
  destruct (Qltb u (5 # 100)) eqn:Eu, (Qltb v (5 # 100)) eqn:Ev.
  - lra.
  - apply Qltb_ge in Ev.
    destruct (interp_from_bounds _ v (5 # 100) (Q5 r) Ev Hr). assumption.
  - apply Qltb_ge in Eu. apply Qltb_lt in Ev. lra.
  - apply Qltb_ge in Eu. apply interp_from_mono; assumption.
Qed.

(** In the stochastic branch every cell of the column of hour [h] is the
    sample of that hour's row at the cell's own uniform draw. *)
Lemma quantile_column_cells stats U j h col :
  quantile_column stats U (j, h) = inr (h, col) ->
  exists row, stats_row stats h = Some row /\
    forall i Ui, U !! i = Some Ui ->
      col !! i = Some (Fin (sample_quantile row (nth j Ui 0))).
Proof.
  unfold quantile_column. cbn [fst snd].
  destruct (stats_row stats h) as [row|]; [|discriminate].
  intros [= <-]. exists row. split; [reflexivity|].
  intros i Ui Hi. rewrite list_lookup_fmap, Hi. reflexivity.
Qed.

(** C6, as stated, fails: with ordered breakpoints that are all negative,
    the interpolated value at u = 1/2 is Q50 = -4, the clip lifts it to 0,
    and 0 lies above Q95 = -1. *)
Lemma C6_counterexample :
  ordered_quantiles surplus_row /\ 0 <= 1 # 2 <= 1 /\
  sample_quantile surplus_row (1 # 2) == 0 /\
  ~ (Q5 surplus_row <= sample_quantile surplus_row (1 # 2) <= Q95 surplus_row).
Proof.
  split; [|split; [|split]].
  - unfold ordered_quantiles; cbn. repeat split; discriminate.
  - split; discriminate.
  - vm_compute. reflexivity.
  - intros [_ H]. vm_compute in H. apply H. reflexivity.
Qed.

(** C6 (amended): for non-decreasing breakpoints Q5 <= ... <= Q95, the
    sample obtained from u by interpolation and the clip to non-negative
    lies in [max(Q5, 0), max(Q95, 0)], hence in [Q5, Q95] whenever
    Q95 >= 0, and it is monotonic non-decreasing in u. *)
Theorem C6_sample_quantile_bounds (r : quantile_row) (u v : Q) :
  ordered_quantiles r -> u <= v ->
  (Qmax (Q5 r) 0 <= sample_quantile r u <= Qmax (Q95 r) 0) /\
  (0 <= Q95 r -> Q5 r <= sample_quantile r u <= Q95 r) /\
  sample_quantile r u <= sample_quantile r v.
Proof.
  intros Ho Huv.
  destruct (interp_quantiles_bounds r u Ho) as [Hlo Hhi].
  unfold sample_quantile, clip_lo. repeat split.
  - apply Q.max_le_compat_r. exact Hlo.
  - apply Q.max_le_compat_r. exact Hhi.
  - eapply Qle_trans; [exact Hlo | apply Q.le_max_l].
  - apply Q.max_lub; assumption.
  - apply Q.max_le_compat_r. apply interp_quantiles_mono; assumption.
Qed.

Lemma C6_sample_quantile_bounds_witness :
  (ordered_quantiles rising_row /\ 1 # 4 <= 1 # 2) /\
  ((Qmax (Q5 rising_row) 0 <= sample_quantile rising_row (1 # 4)
      <= Qmax (Q95 rising_row) 0) /\
   (0 <= Q95 rising_row ->
    Q5 rising_row <= sample_quantile rising_row (1 # 4) <= Q95 rising_row) /\
   sample_quantile rising_row (1 # 4) <= sample_quantile rising_row (1 # 2)).
Proof.
  assert (Ho : ordered_quantiles rising_row).
  { unfold ordered_quantiles; cbn. repeat split; discriminate. }
  assert (Hu : 1 # 4 <= 1 # 2) by discriminate.
  split; [split; assumption |].
  apply (C6_sample_quantile_bounds rising_row (1 # 4) (1 # 2) Ho Hu).
Defined.

End QuantileSampling.

(** ** The monad and the list helpers *)

Section MonadFacts.
Context {S : Type}.

Lemma bind_ok {A B} (m : M S A) (k : A -> M S B) s a s' :
  m s = (inr a, s') -> bind m k s = k a s'.
Proof. intros H. unfold bind. rewrite H. reflexivity. Qed.

Lemma bind_err {A B} (m : M S A) (k : A -> M S B) s e s' :
  m s = (inl e, s') -> bind m k s = (inl e, s').
Proof. intros H. unfold bind. rewrite H. reflexivity. Qed.

Lemma for_each_app {A} (xs ys : list A) (body : A -> M S unit) s :
  for_each (xs ++ ys) body s =
  (do! for_each xs body in for_each ys body) s.
Proof.
  revert s. induction xs as [|x xs IH]; intros s; simpl.
  - reflexivity.
  - unfold bind. destruct (body x s) as [[e|[]] s1]; [reflexivity|].
    apply IH.
Qed.

Lemma run_bind_ret {A B} (a : A) (k : A -> M S B) s :
  run (bind (ret a) k) s = run (k a) s.
Proof. reflexivity. Qed.

Lemma run_bind_lift {A B} (r : exn + A) (k : A -> M S B) s :
  run (bind (lift r) k) s =
  match r with inl e => inl e | inr a => run (k a) s end.
Proof. destruct r; reflexivity. Qed.

(** A computation that starts by overwriting the store does not depend on
    the store it is started in. *)
Lemma run_bind_reseed {A B} (m : M S A) (k : A -> M S B) s s' :
  run m s = run m s' ->
  (forall a, run m s = inr a -> (m s).2 = (m s').2) ->
  run (bind m k) s = run (bind m k) s'.
Proof.
  unfold run, bind. intros H1 H2.
  destruct (m s) as [[e|a] t], (m s') as [[e'|a'] t']; cbn in *;
    try discriminate.
  - injection H1 as <-. reflexivity.
  - injection H1 as <-. rewrite (H2 a eq_refl). reflexivity.
Qed.

End MonadFacts.

Lemma emapM_inr {A B} (f : A -> exn + B) (g : A -> B) xs :
  (forall x, x ∈ xs -> f x = inr (g x)) -> emapM f xs = inr (g <$> xs).
Proof.
  induction xs as [|x xs IH]; intros H; simpl; [reflexivity|].
  rewrite (H x) by left. simpl. rewrite IH.
  - reflexivity.
  - intros y Hy. apply H. right. exact Hy.
Qed.

Lemma emapM_inl {A B} (f : A -> exn + B) xs x :
  x ∈ xs -> (exists e, f x = inl e) -> exists e, emapM f xs = inl e.
Proof.
  induction xs as [|y xs IH]; intros Hin [e He]; [inversion Hin|].
  simpl. destruct (f y) as [e'|b] eqn:Ey; simpl; [eauto|].
  apply elem_of_cons in Hin as [->|Hin]; [congruence|].
  destruct (IH Hin (ex_intro _ e He)) as [e' ->]. simpl. eauto.
Qed.

Lemma emapM_Forall2 {A B} (f : A -> exn + B) xs ys :
  emapM f xs = inr ys -> Forall2 (fun x y => f x = inr y) xs ys.
Proof.
  revert ys. induction xs as [|x xs IH]; intros ys; simpl.
  - intros [= <-]. constructor.
  - destruct (f x) as [e|y] eqn:Ex; simpl; [discriminate|].
    destruct (emapM f xs) as [e|ys'] eqn:Exs; simpl; [discriminate|].
    intros [= <-]. constructor; [exact Ex | apply IH; reflexivity].
Qed.

(** ** Determinism of the synthesizer *)

Section Determinism.
Context {R : NumpyRandom}.
Import Gen.

(** [_generate_profile_df] starts by seeding: what it returns or raises
    does not depend on the state it finds, and neither does the generator
    state it leaves when it returns. *)
Lemma generate_profile_df_reseeds self profile power (g g' : rng_state) :
  run (_generate_profile_df self profile power) g =
  run (_generate_profile_df self profile power) g' /\
  (forall fr, run (_generate_profile_df self profile power) g = inr fr ->
     (_generate_profile_df self profile power g).2 =
     (_generate_profile_df self profile power g').2).
Proof.
  unfold run, _generate_profile_df. unfold bind at 1 3 5 7 9.
  unfold np_random_seed.
  destruct (legal_seed (seed self)); [split; reflexivity|].
  split; [reflexivity|]. cbn. discriminate.
Qed.

(** C8: the three profile frames built by the constructor are a function
    of its arguments (load table, quantile table, archetype names, noise
    settings, stochastic flag, seed) alone: two runs with the same
    arguments return the same active, reactive and generation frames, or
    raise the same exception, whatever state the process-wide generator was
    left in before each run. This holds in deterministic and in stochastic
    mode. *)
Theorem C8_profiles_determined_by_arguments (self : generator)
  (g g' : rng_state) :
  run (__init__ self) g = run (__init__ self) g'.
Proof.
  unfold __init__.
  destruct (stochastic self); cbn [negb].
  - rewrite !run_bind_ret, !run_bind_lift.
    destruct (_select_pv_profile self) as [e|pv]; [reflexivity|].
    apply run_bind_reseed; apply generate_profile_df_reseeds.
  - rewrite !run_bind_lift.
    destruct (_select_profile self) as [e|p]; cbn [ebind]; [reflexivity|].
    rewrite !run_bind_lift.
    destruct (_select_pv_profile self) as [e|pv]; [reflexivity|].
    apply run_bind_reseed; apply generate_profile_df_reseeds.
Qed.

End Determinism.

(** ** Frames: columns by label *)

Section FrameFacts.
Import Gen.

Lemma get_col_set_col_eq l v cs : get_col l (set_col l v cs) = Some v.
Proof.
  induction cs as [|[l' w] cs IH]; simpl.
  - rewrite String.eqb_refl. reflexivity.
  - destruct (String.eqb l' l) eqn:E; simpl; rewrite E; [reflexivity | exact IH].
Qed.

Lemma get_col_set_col_ne l l' v cs :
  l <> l' -> get_col l' (set_col l v cs) = get_col l' cs.
Proof.
  intros Hne. induction cs as [|[k w] cs IH]; simpl.
  - destruct (String.eqb l l') eqn:E; [|reflexivity].
    apply String.eqb_eq in E. contradiction.
  - destruct (String.eqb k l) eqn:E; simpl.
    + apply String.eqb_eq in E. subst k.
      destruct (String.eqb l l') eqn:E'; [|reflexivity].
      apply String.eqb_eq in E'. contradiction.
    + destruct (String.eqb k l'); [reflexivity | exact IH].
Qed.

Lemma get_col_labelled (F : string -> list pyfloat) labels l :
  l ∈ labels -> get_col l ((fun k => (k, F k)) <$> labels) = Some (F l).
Proof.
  induction labels as [|k labels IH]; intros Hin; [inversion Hin|].
  simpl. destruct (String.eqb k l) eqn:E.
  - apply String.eqb_eq in E. subst. reflexivity.
  - apply elem_of_cons in Hin as [->|Hin].
    + rewrite String.eqb_refl in E. discriminate.
    + apply IH. exact Hin.
Qed.

(** Selecting labels that are all present succeeds and keeps each
    selected column. *)
Lemma select_cols_present labels cs :
  (forall l, l ∈ labels -> is_Some (get_col l cs)) ->
  exists sel, select_cols labels cs = inr sel /\
    forall l, l ∈ labels -> get_col l sel = get_col l cs.
Proof.
  intros Hall.
  exists ((fun k => (k, default [] (get_col k cs))) <$> labels). split.
  - unfold select_cols. apply emapM_inr. intros l Hl.
    destruct (Hall l Hl) as [v ->]. reflexivity.
  - intros l Hl. rewrite (get_col_labelled (fun k => default [] (get_col k cs))) by exact Hl.
    destruct (Hall l Hl) as [v ->]. reflexivity.
Qed.

Lemma hours_lookup h : (h < 24)%nat -> hours !! h = Some (hour_label h).
Proof.
  intros Hh. unfold hours. rewrite list_lookup_fmap.
  rewrite lookup_seq_lt by exact Hh. reflexivity.
Qed.

Lemma hours_NoDup : NoDup hours.
Proof. apply (bool_decide_unpack (NoDup hours)). vm_compute. exact I. Qed.

Lemma profile_length name tbl p :
  Forall (fun e => length e.2 = 24%nat) tbl ->
  lookup_profile name tbl = Some p -> length p = 24%nat.
Proof.
  induction 1 as [|[k v] tbl Hk _ IH]; simpl; [discriminate|].
  destruct (String.eqb k name); [intros [= <-]; exact Hk | exact IH].
Qed.

Lemma _select_profile_length self p :
  _select_profile self = inr p -> length p = 24%nat.
Proof.
  unfold _select_profile.
  destruct (lookup_profile (profile_type self) profiles) eqn:E; [|discriminate].
  intros [= <-]. eapply profile_length; [|exact E].
  repeat constructor.
Qed.

Lemma _select_pv_profile_length self p :
  _select_pv_profile self = inr p -> length p = 24%nat.
Proof.
  unfold _select_pv_profile.
  destruct (lookup_profile (pv_profile_type self) pv_profile_table) eqn:E; [|discriminate].
  intros [= <-]. eapply profile_length; [|exact E].
  repeat constructor.
Qed.

End FrameFacts.

(** ** Draws *)

Section DrawFacts.
Context {G A : Type} (draw : G -> A * G).

Lemma draws_length n g : length (Np.draws draw n g).1 = n.
Proof.
  revert g. induction n as [|n IH]; intros g; simpl; [reflexivity|].
  destruct (draw g) as [x g1]. specialize (IH g1).
  destruct (Np.draws draw n g1) as [xs g2]. simpl in *. congruence.
Qed.

Lemma draws_add a b g :
  Np.draws draw (a + b) g =
  ((Np.draws draw a g).1 ++ (Np.draws draw b (Np.draws draw a g).2).1,
   (Np.draws draw b (Np.draws draw a g).2).2).
Proof.
  revert g. induction a as [|a IH]; intros g; simpl.
  - destruct (Np.draws draw b g); reflexivity.
  - destruct (draw g) as [x g1]. rewrite IH.
    destruct (Np.draws draw a g1) as [xs g2]. simpl.
    destruct (Np.draws draw b g2) as [ys g3]. reflexivity.
Qed.

End DrawFacts.

(** ** The deterministic branch, cell by cell *)

Section DeterministicProfile.
Context {R : NumpyRandom}.
Import Gen.

(** On an accepted seed [np.random.seed] sets the state; on any other it
    raises and leaves the state alone. *)
Lemma np_random_seed_legal (s : Z) (g : rng_state) :
  (0 <= s < 2 ^ 32)%Z -> np_random_seed s g = (inr tt, seeded s).
Proof.
  intros Hs. unfold np_random_seed, legal_seed.
  rewrite (proj2 (Z.leb_le 0 s)), (proj2 (Z.ltb_lt s (2 ^ 32))) by lia.
  reflexivity.
Qed.

Lemma np_random_seed_illegal (s : Z) (g : rng_state) :
  legal_seed s = false ->
  np_random_seed s g = (inl (ValueError "Seed must be between 0 and 2**32 - 1"), g).
Proof. intros Hs. unfold np_random_seed. rewrite Hs. reflexivity. Qed.

Lemma legal_seed_range (s : Z) : legal_seed s = true -> (0 <= s < 2 ^ 32)%Z.
Proof. unfold legal_seed. intros H. apply andb_true_iff in H as [H1 H2]. lia. Qed.

Lemma hour_loop_cells self peak hs : forall cols g,
  (add_noise self = true -> (0 <= noise_level self)%Q) ->
  NoDup hs.*1 ->
  exists cols' g', hour_loop self peak hs cols g = (inr cols', g') /\
    (forall l, l ∉ hs.*1 -> get_col l cols' = get_col l cols) /\
    (forall k h shape, hs !! k = Some (h, shape) ->
       exists col, get_col h cols' = Some col /\
         forall i p, peak !! i = Some p ->
           col !! i = Some (fmul p (Fin (hour_factor self g (length hs) (length peak) shape k i)))).
Proof.
  induction hs as [|[h0 shape0] hs IH]; intros cols g Hnoise Hnd.
  - exists cols, g. split; [reflexivity|]. split; [reflexivity|].
    intros k h shape Hk. rewrite lookup_nil in Hk. discriminate.
  - cbn [fmap list_fmap fst] in Hnd. apply NoDup_cons in Hnd as [Hh0 Hnd].
    cbn [hour_loop].
    set (noise := Np.draws (normal 1 (noise_level self)) (length peak) g).
    set (hp := if add_noise self
               then inr ((fun z => clip (shape0 * z) 0 1) <$> noise.1)
               else inl shape0 : Q + list Q).
    set (g1 := if add_noise self then noise.2 else g).
    assert (Hstep : (let! hour_profile :=
               (if add_noise self
                then let! noise := np_random_normal 1 (noise_level self) (length peak) in
                     ret (inr ((fun z => clip (shape0 * z) 0 1) <$> noise))
                else ret (inl shape0)) in
               hour_loop self peak hs (set_col h0 (scale_column peak hour_profile) cols)) g
             = hour_loop self peak hs (set_col h0 (scale_column peak hp) cols) g1).
    { unfold hp, g1, noise. destruct (add_noise self); [|reflexivity].
      unfold bind, np_random_normal, ret.
      rewrite (proj2 (Qle_bool_iff 0 (noise_level self)) (Hnoise eq_refl)).
      destruct (Np.draws (normal 1 (noise_level self)) (length peak) g); reflexivity. }
    rewrite Hstep. clear Hstep.
    set (n := length peak) in *.
    destruct (IH (set_col h0 (scale_column peak hp) cols) g1 Hnoise Hnd)
      as (cols' & g' & Hrun & Hother & Hcells).
    exists cols', g'. split; [exact Hrun|]. split.
    + intros l Hl. cbn [fmap list_fmap fst] in Hl.
      apply not_elem_of_cons in Hl as [Hne Hl].
      rewrite (Hother l Hl). apply get_col_set_col_ne. congruence.
    + intros [|k] h shape Hk.
      * cbn in Hk. injection Hk as <- <-.
        exists (scale_column peak hp). split.
        { rewrite (Hother h0 Hh0). apply get_col_set_col_eq. }
        intros i p Hi. unfold hp, hour_factor.
        destruct (add_noise self); cbn [scale_column].
        -- rewrite lookup_zip_with, Hi. cbn [mbind option_bind].
           rewrite !list_lookup_fmap.
           assert (Hlen : (i < length noise.1)%nat).
           { unfold noise. rewrite draws_length.
             eapply lookup_lt_Some. exact Hi. }
           destruct (lookup_lt_is_Some_2 _ _ Hlen) as [z Hz].
           rewrite Hz. cbn [fmap option_fmap option_map mbind option_bind].
           do 3 f_equal.
           change (length ((h0, shape0) :: hs)) with (S (length hs)).
           replace (S (length hs) * n)%nat with (n + length hs * n)%nat by lia.
           rewrite draws_add. cbn [fst].
           change (0 * n + i)%nat with i.
           fold noise. rewrite app_nth1 by exact Hlen.
           apply nth_lookup_Some with (d := 0%Q) in Hz. rewrite Hz. reflexivity.
        -- rewrite list_lookup_fmap, Hi. reflexivity.
      * cbn in Hk. destruct (Hcells k h shape Hk) as (col & Hcol & Hcell).
        exists col. split; [exact Hcol|].
        intros i p Hi. rewrite (Hcell i p Hi). do 3 f_equal.
        unfold hour_factor, g1. destruct (add_noise self); [|reflexivity].
        do 2 f_equal.
        change (length ((h0, shape0) :: hs)) with (S (length hs)).
        replace (S (length hs) * n)%nat with (n + length hs * n)%nat by lia.
        rewrite draws_add. cbn [fst]. fold noise.
        assert (Hlen : length noise.1 = n) by apply draws_length.
        rewrite app_nth2 by (rewrite Hlen; cbn; lia).
        rewrite Hlen. f_equal. cbn. lia.
Qed.

Lemma loop_then_finish self peak p ids ids' (g : rng_state) :
  (add_noise self = true -> (0 <= noise_level self)%Q) ->
  length p = 24%nat ->
  PyInt.astype_int_str ids = inr ids' ->
  exists fr g',
    (let! cols := hour_loop self peak (zip hours p) [] in lift (finish ids cols)) g
      = (inr fr, g') /\
    Bus_ID fr = ids' /\
    forall h i pk shape, p !! h = Some shape -> peak !! i = Some pk ->
      exists col, get_col (hour_label h) (columns fr) = Some col /\
        col !! i = Some (fmul pk (Fin (hour_factor self g 24 (length peak) shape h i))).
Proof.
  intros Hnoise Hlen Hids.
  assert (Hfst : (zip hours p).*1 = hours).
  { apply fst_zip. rewrite Hlen. vm_compute. lia. }
  assert (Hlz : length (zip hours p) = 24%nat).
  { rewrite length_zip, Hlen. reflexivity. }
  destruct (hour_loop_cells self peak (zip hours p) [] g Hnoise)
    as (cols' & g' & Hrun & _ & Hcells).
  { rewrite Hfst. apply hours_NoDup. }
  rewrite Hlz in Hcells.
  assert (Hcell : forall h shape, p !! h = Some shape ->
            exists col, get_col (hour_label h) cols' = Some col /\
              forall i pk, peak !! i = Some pk ->
                col !! i = Some (fmul pk (Fin (hour_factor self g 24 (length peak) shape h i)))).
  { intros h shape Hp. apply (Hcells h). apply lookup_zip_Some. split; [|exact Hp].
    apply hours_lookup. apply lookup_lt_Some in Hp. lia. }
  destruct (select_cols_present hours cols') as (sel & Hsel & Hsame).
  { intros l Hl. apply list_elem_of_lookup in Hl as [h Hh].
    assert (Hh24 : (h < 24)%nat) by (apply lookup_lt_Some in Hh; exact Hh).
    rewrite hours_lookup in Hh by exact Hh24. injection Hh as <-.
    destruct (lookup_lt_is_Some_2 p h) as [shape Hshape]; [lia|].
    destruct (Hcell h shape Hshape) as (col & -> & _). eauto. }
  exists {| Bus_ID := ids'; columns := sel |}, g'. split; [|split].
  - unfold bind. rewrite Hrun. unfold lift, finish. rewrite Hids. cbn [ebind].
    rewrite Hsel. reflexivity.
  - reflexivity.
  - intros h i pk shape Hp Hi. cbn [columns].
    destruct (Hcell h shape Hp) as (col & Hcol & Hc).
    exists col. split; [|apply Hc; exact Hi].
    rewrite Hsame; [exact Hcol|].
    apply list_elem_of_lookup. exists h. apply hours_lookup.
    apply lookup_lt_Some in Hp. lia.
Qed.

(** C1 (amended): in deterministic mode, for every load point [i] and every
    hour [h] in 0..23, the synthesized value is the peak times a factor.
    Without noise the factor is the selected archetype's value at [h]. With
    noise it is [clip(shape(h) * z, 0, 1)]: the clip is applied to the product
    of the shape and the Normal(1, noise_level) draw [z], not to the draw
    alone; every (load point, hour) cell has its own draw, number
    [h * n + i] of the stream started by seeding. Generation succeeds
    whenever the seed is one [np.random.seed] accepts (0 .. 2^32 - 1), the
    noise level, if used, is one [np.random.normal] accepts (not negative),
    and the bus ids survive the integer cast. *)
Theorem C1_deterministic_profile (self : generator) (p : list Q)
  (power : power_col) (g : rng_state) (ids' : list string) :
  stochastic self = false ->
  (0 <= seed self < 2 ^ 32)%Z ->
  (add_noise self = true -> (0 <= noise_level self)%Q) ->
  _select_profile self = inr p ->
  PyInt.astype_int_str (lp_Bus_ID <$> df self) = inr ids' ->
  exists fr, run (_generate_profile_df self (Some p) power) g = inr fr /\
    Bus_ID fr = ids' /\
    forall h i lp shape, p !! h = Some shape -> df self !! i = Some lp ->
      exists col, get_col (hour_label h) (columns fr) = Some col /\
        col !! i = Some (fmul (peak_of power lp)
                           (Fin (if add_noise self
                                 then clip (shape * nth (h * length (df self) + i)
                                                      (Np.draws (normal 1 (noise_level self))
                                                         (24 * length (df self))
                                                         (seeded (seed self))).1 0%Q) 0 1
                                 else shape))).
Proof.
  intros Hst Hseed Hnoise Hsel Hids.
  pose proof (_select_profile_length self p Hsel) as Hlen.
  destruct (loop_then_finish self (peak_of power <$> df self) p
              (lp_Bus_ID <$> df self) ids' (seeded (seed self)) Hnoise Hlen Hids)
    as (fr & g' & Hrun & Hb & Hcells).
  exists fr. split; [|split; [exact Hb|]].
  - unfold run, _generate_profile_df. rewrite Hst.
    unfold bind at 1. rewrite (np_random_seed_legal _ g Hseed).
    cbv zeta. rewrite Hrun. reflexivity.
  - intros h i lp shape Hp Hi.
    destruct (Hcells h i (peak_of power lp) shape Hp) as (col & Hcol & Hc).
    { rewrite list_lookup_fmap, Hi. reflexivity. }
    exists col. split; [exact Hcol|].
    rewrite Hc. unfold hour_factor. rewrite length_fmap. reflexivity.
Qed.

End DeterministicProfile.

(** *** A run with noise *)

(** C1, as stated, fails with noise: at 14:00 the weekday shape is 0.5 and
    the draw is 1.2; the code clips the product 0.6 and returns
    10 * 0.6 = 6 kW, where clipping the draw first would give
    10 * (0.5 * 1) = 5 kW. *)
Lemma C1_counterexample :
  weekday !! 14%nat = Some (50 # 100) /\
  Qred (nth 14 (Np.draws (@normal tape_of_twos 1 (1 # 10)) 24
                  (@seeded tape_of_twos 0)).1 0%Q) = 6 # 5 /\
  fred <$> active_cell (run (@Gen.__init__ tape_of_twos noisy_generator) [])
             "14:00" 0 = Some (Fin 6) /\
  fred (fmul (Fin 10) (Fin (claimed_noise_factor (50 # 100) (6 # 5)))) = Fin 5.
Proof. vm_compute. repeat split; reflexivity. Qed.

Lemma C1_deterministic_profile_witness :
  (Gen.stochastic noisy_generator = false /\
   (0 <= Gen.seed noisy_generator < 2 ^ 32)%Z /\
   (0 <= Gen.noise_level noisy_generator)%Q /\
   @Gen._select_profile noisy_generator = inr weekday /\
   PyInt.astype_int_str (Gen.lp_Bus_ID <$> Gen.df noisy_generator) = inr ["7"]) /\
  exists fr,
    run (@Gen._generate_profile_df tape_of_twos noisy_generator (Some weekday)
           Gen.PLmax_kW) [] = inr fr /\
    Gen.Bus_ID fr = ["7"] /\
    forall h i lp shape,
      weekday !! h = Some shape -> Gen.df noisy_generator !! i = Some lp ->
      exists col, Gen.get_col (Gen.hour_label h) (Gen.columns fr) = Some col /\
        col !! i = Some (fmul (Gen.peak_of Gen.PLmax_kW lp)
                           (Fin (if Gen.add_noise noisy_generator
                                 then clip (shape * nth (h * length (Gen.df noisy_generator) + i)
                                                      (Np.draws (@normal tape_of_twos 1
                                                                   (Gen.noise_level noisy_generator))
                                                         (24 * length (Gen.df noisy_generator))
                                                         (@seeded tape_of_twos
                                                            (Gen.seed noisy_generator))).1 0%Q) 0 1
                                 else shape))).
Proof.
  assert (H1 : Gen.stochastic noisy_generator = false) by reflexivity.
  assert (H2 : @Gen._select_profile noisy_generator = inr weekday) by reflexivity.
  assert (H3 : PyInt.astype_int_str (Gen.lp_Bus_ID <$> Gen.df noisy_generator)
               = inr ["7"]) by reflexivity.
  assert (Hseed : (0 <= Gen.seed noisy_generator < 2 ^ 32)%Z) by (cbn; lia).
  assert (Hnoise : (0 <= Gen.noise_level noisy_generator)%Q)
    by (unfold Qle; cbn; lia).
  split; [split; [exact H1|]; split; [exact Hseed|]; split; [exact Hnoise|];
          split; [exact H2 | exact H3] |].
  exact (@C1_deterministic_profile tape_of_twos noisy_generator weekday
           Gen.PLmax_kW [] ["7"] H1 Hseed (fun _ => Hnoise) H2 H3).
Defined.

(** ** The network assembler *)

Section LoadFlowFacts.
Import LoadFlow.

Lemma for_each_cons {S A} (x : A) xs (body : A -> M S unit) s :
  for_each (x :: xs) body s =
  match body x s with
  | (inr _, s1) => for_each xs body s1
  | (inl e, s1) => (inl e, s1)
  end.
Proof. reflexivity. Qed.

Lemma omap_attach_cons d r specs :
  omap (attach d) (r :: specs) =
  match dict_get (ls_bus r) d with
  | Some b => {| load_bus := b; p_mw := ls_p_mw r; q_mvar := ls_q_mvar r |}
                :: omap (attach d) specs
  | None => omap (attach d) specs
  end.
Proof. unfold attach at 1. cbn. destruct (dict_get (ls_bus r) d); reflexivity. Qed.

Lemma _create_loads_spec specs : forall s,
  exists s', _create_loads specs s = (inr tt, s') /\
    buses s' = buses s /\
    load (net s') = load (net s) ++ omap (attach (buses s)) specs /\
    gen (net s') = gen (net s) /\
    topology (net s') = topology (net s).
Proof.
  unfold _create_loads.
  induction specs as [|r specs IH]; intros s.
  - exists s. cbn. rewrite app_nil_r. repeat split; reflexivity.
  - rewrite for_each_cons, omap_attach_cons. unfold bind at 1, get at 1.
    destruct (dict_get (ls_bus r) (buses s)) as [b|] eqn:E.
    + unfold pp_create_load, modify.
      match goal with |- context [for_each specs _ ?s1] =>
        destruct (IH s1) as (s' & Hrun & Hb & Hl & Hg & Ht) end.
      exists s'. split; [exact Hrun|]. cbn in Hb, Hl, Hg, Ht.
      repeat split; try assumption.
      rewrite Hl, <- app_assoc. reflexivity.
    + unfold ret. destruct (IH s) as (s' & Hrun & Hb & Hl & Hg & Ht).
      exists s'. repeat split; assumption.
Qed.

(** A row whose bus key is unknown leaves no trace: the table with the row
    and the table without it make the same loads and the same store. *)
Lemma _create_loads_drop l1 r l2 s :
  dict_get (ls_bus r) (buses s) = None ->
  _create_loads (l1 ++ r :: l2) s = _create_loads (l1 ++ l2) s.
Proof.
  intros Hr. unfold _create_loads. rewrite !for_each_app.
  destruct (_create_loads_spec l1 s) as (s1 & Hrun & Hb & _).
  unfold _create_loads in Hrun.
  rewrite (bind_ok _ _ _ _ _ Hrun), (bind_ok _ _ _ _ _ Hrun).
  rewrite for_each_cons.
  match goal with |- context [bind get ?k s1] =>
    assert (Hskip : bind get k s1 = (inr tt, s1))
      by (unfold bind, get; rewrite Hb, Hr; reflexivity);
    rewrite Hskip end.
  reflexivity.
Qed.

(** C2 (amended): the per-hour population first empties the load table and
    then creates that hour's loads, so the loads after the call are exactly
    the ones made from the three profile frames and none of the previous
    hour carries over. The generator table is left as it is (the only place
    that empties it is [_create_generators]); so are the buses, the lines
    and the reference point. *)
Theorem C2_set_hourly_loads_replaces_loads (hour : string)
  (P_df Q_df PV_df : Gen.frame) (a r p : list (string * pyfloat)) (s : state) :
  hour_rows P_df hour = inr a ->
  hour_rows Q_df hour = inr r ->
  hour_rows PV_df hour = inr p ->
  exists s', set_hourly_loads hour P_df Q_df PV_df s = (inr tt, s') /\
    load (net s') = omap (attach (buses s)) (hourly_specs a r p) /\
    gen (net s') = gen (net s) /\
    topology (net s') = topology (net s) /\
    buses s' = buses s.
Proof.
  intros Ha Hr Hp. unfold set_hourly_loads.
  unfold bind at 1. unfold _clear_loads, modify.
  rewrite Ha, Hr, Hp. unfold bind, lift.
  match goal with |- context [_create_loads _ ?s1] =>
    destruct (_create_loads_spec (hourly_specs a r p) s1)
      as (s' & Hrun & Hb & Hl & Hg & Ht) end.
  exists s'. split; [exact Hrun|]. cbn in Hb, Hl, Hg, Ht.
  repeat split; assumption.
Qed.

End LoadFlowFacts.

(** *** One hour on a network that holds a generator *)

(** C2, as stated, fails for generators: a generator present before the
    call is still there after it; only the old load is gone. *)
Lemma C2_counterexample :
  (LoadFlow.set_hourly_loads "09:00" (nine_oclock 10) (nine_oclock 3)
     (nine_oclock 0) one_bus_state).1 = inr tt /\
  LoadFlow.gen (LoadFlow.net
     (LoadFlow.set_hourly_loads "09:00" (nine_oclock 10) (nine_oclock 3)
        (nine_oclock 0) one_bus_state).2)
    = LoadFlow.gen (LoadFlow.net one_bus_state) /\
  length (LoadFlow.gen (LoadFlow.net
     (LoadFlow.set_hourly_loads "09:00" (nine_oclock 10) (nine_oclock 3)
        (nine_oclock 0) one_bus_state).2)) = 1%nat /\
  length (LoadFlow.load (LoadFlow.net
     (LoadFlow.set_hourly_loads "09:00" (nine_oclock 10) (nine_oclock 3)
        (nine_oclock 0) one_bus_state).2)) = 3%nat.
Proof. vm_compute. repeat split; reflexivity. Qed.

Lemma C2_set_hourly_loads_replaces_loads_witness :
  (LoadFlow.hour_rows (nine_oclock 10) "09:00" = inr [("7", Fin 10)] /\
   LoadFlow.hour_rows (nine_oclock 3) "09:00" = inr [("7", Fin 3)] /\
   LoadFlow.hour_rows (nine_oclock 0) "09:00" = inr [("7", Fin 0)]) /\
  exists s',
    LoadFlow.set_hourly_loads "09:00" (nine_oclock 10) (nine_oclock 3)
      (nine_oclock 0) one_bus_state = (inr tt, s') /\
    LoadFlow.load (LoadFlow.net s')
      = omap (attach (LoadFlow.buses one_bus_state))
          (LoadFlow.hourly_specs [("7", Fin 10)] [("7", Fin 3)] [("7", Fin 0)]) /\
    LoadFlow.gen (LoadFlow.net s') = LoadFlow.gen (LoadFlow.net one_bus_state) /\
    topology (LoadFlow.net s') = topology (LoadFlow.net one_bus_state) /\
    LoadFlow.buses s' = LoadFlow.buses one_bus_state.
Proof.
  assert (H1 : LoadFlow.hour_rows (nine_oclock 10) "09:00" = inr [("7", Fin 10)])
    by reflexivity.
  assert (H2 : LoadFlow.hour_rows (nine_oclock 3) "09:00" = inr [("7", Fin 3)])
    by reflexivity.
  assert (H3 : LoadFlow.hour_rows (nine_oclock 0) "09:00" = inr [("7", Fin 0)])
    by reflexivity.
  split; [repeat split; assumption |].
  exact (C2_set_hourly_loads_replaces_loads "09:00" (nine_oclock 10)
           (nine_oclock 3) (nine_oclock 0) _ _ _ one_bus_state H1 H2 H3).
Defined.

(** ** Bus and line creation *)

Section AssemblyFacts.
Import LoadFlow.

Lemma dict_set_fresh k v d :
  dict_get k d = None -> dict_set k v d = d ++ [(k, v)].
Proof.
  induction d as [|[k' v'] d IH]; simpl; [reflexivity|].
  destruct (String.eqb k' k); [discriminate|].
  intros H. rewrite IH by exact H. reflexivity.
Qed.

Lemma dict_get_snoc_ne k k' v d :
  k <> k' -> dict_get k' (d ++ [(k, v)]) = dict_get k' d.
Proof.
  intros Hne. induction d as [|[k0 v0] d IH]; simpl.
  - destruct (String.eqb k k') eqn:E; [|reflexivity].
    apply String.eqb_eq in E. contradiction.
  - destruct (String.eqb k0 k'); [reflexivity | exact IH].
Qed.

Lemma dict_get_numbered ids : forall base k i,
  dict_get k (numbered ids base) = Some i ->
  exists j, i = (base + j)%nat /\ ids !! j = Some k.
Proof.
  unfold numbered.
  induction ids as [|id ids IH]; intros base k i; simpl; [discriminate|].
  destruct (String.eqb id k) eqn:E.
  - apply String.eqb_eq in E. subst. intros [= <-]. exists 0%nat.
    split; [lia | reflexivity].
  - intros H. destruct (IH (S base) k i H) as (j & -> & Hj).
    exists (S j). split; [lia | exact Hj].
Qed.

Lemma dict_get_numbered_in ids : forall base k,
  k ∈ ids -> is_Some (dict_get k (numbered ids base)).
Proof.
  unfold numbered.
  induction ids as [|id ids IH]; intros base k Hin; [inversion Hin|].
  simpl. destruct (String.eqb id k) eqn:E; [eauto|].
  apply elem_of_cons in Hin as [->|Hin].
  - rewrite String.eqb_refl in E. discriminate.
  - apply IH. exact Hin.
Qed.

Lemma dict_get_numbered_notin ids : forall base k,
  k ∉ ids -> dict_get k (numbered ids base) = None.
Proof.
  unfold numbered.
  induction ids as [|id ids IH]; intros base k Hin; [reflexivity|].
  apply not_elem_of_cons in Hin as [Hne Hin].
  simpl. destruct (String.eqb id k) eqn:E.
  - apply String.eqb_eq in E. congruence.
  - apply IH. exact Hin.
Qed.

(** The loop of [_create_buses] over distinct ids unknown so far: one bus
    per id, in order, each id mapped to the index of its bus. *)
Lemma create_buses_loop self ids : forall s,
  NoDup ids ->
  (forall id, id ∈ ids -> dict_get id (buses s) = None) ->
  exists s',
    for_each ids (fun bus_id =>
        let! idx := pp_create_bus (Vb self / 1000) bus_id in
        modify (fun s => {| net := net s; buses := dict_set bus_id idx (buses s) |})) s
      = (inr tt, s') /\
    bus (net s') = bus (net s) ++ (bus_of self <$> ids) /\
    buses s' = buses s ++ numbered ids (length (bus (net s))) /\
    beside_buses (net s') = beside_buses (net s).
Proof.
  induction ids as [|id ids IH]; intros s Hnd Hfresh.
  - exists s. cbn. rewrite !app_nil_r. repeat split; reflexivity.
  - apply NoDup_cons in Hnd as [Hid Hnd].
    rewrite for_each_cons. unfold bind at 1, pp_create_bus at 1, modify at 1.
    match goal with |- context [for_each ids _ ?s1] =>
      destruct (IH s1 Hnd) as (s' & Hrun & Hb & Hd & Hrest) end.
    { intros k Hk. cbn [buses].
      rewrite dict_set_fresh by (apply Hfresh; left).
      rewrite dict_get_snoc_ne; [apply Hfresh; right; exact Hk|].
      intros ->. contradiction. }
    exists s'. split; [exact Hrun|].
    cbn [net buses with_net bus] in Hb, Hd. cbn in Hrest.
    split; [|split].
    + rewrite Hb, <- app_assoc. reflexivity.
    + rewrite Hd, dict_set_fresh by (apply Hfresh; left).
      rewrite <- app_assoc, length_app. cbn [length].
      unfold numbered. cbn [length seq zip zip_with app].
      replace (length (bus (net s)) + 1)%nat with (S (length (bus (net s)))) by lia.
      reflexivity.
    + exact Hrest.
Qed.

(** [_create_buses] on an instance that knows no bus yet and a network
    without buses. *)
Lemma _create_buses_fresh self s :
  buses s = [] -> bus (net s) = [] -> NoDup (node_df self) ->
  exists s', _create_buses self s = (inr tt, s') /\
    bus (net s') = bus_of self <$> node_df self /\
    buses s' = numbered (node_df self) 0 /\
    ext_grid (net s') =
      ext_grid (net s) ++ match node_df self with [] => [] | _ => [grid_on 0] end /\
    beside_buses_and_grid (net s') = beside_buses_and_grid (net s).
Proof.
  intros Hd Hb Hnd.
  destruct (create_buses_loop self (node_df self) s Hnd)
    as (s1 & Hrun & Hb1 & Hd1 & Hrest).
  { intros id _. rewrite Hd. reflexivity. }
  rewrite Hb in Hb1, Hd1. rewrite Hd in Hd1. cbn [app length] in Hb1, Hd1.
  unfold _create_buses. rewrite (bind_ok _ _ _ _ _ Hrun).
  unfold bind, get. rewrite Hd1.
  unfold beside_buses in Hrest. injection Hrest as Hsn Hnm Heg Hln Hld Hgn.
  destruct (node_df self) as [|id0 ids] eqn:Eids.
  - exists s1. cbn. rewrite app_nil_r. cbn in Hb1, Hd1.
    unfold beside_buses_and_grid.
    repeat split; try reflexivity; try assumption; congruence.
  - unfold numbered. cbn [length seq zip zip_with].
    unfold pp_create_ext_grid, modify. eexists. split; [reflexivity|].
    cbn. unfold beside_buses_and_grid. cbn.
    repeat split; try congruence.
    + rewrite Hb1. reflexivity.
    + rewrite Hd1. reflexivity.
    + rewrite Heg. reflexivity.
Qed.

Lemma _create_lines_run self rows : forall s,
  exists s',
    _create_lines (with_xls self rows) s =
      (match lines_result (buses s) rows with
       | inl e => inl e
       | inr _ => inr tt
       end, s') /\
    beside_lines s' = beside_lines s /\
    (forall ls, lines_result (buses s) rows = inr ls ->
                line (net s') = line (net s) ++ ls).
Proof.
  unfold _create_lines. cbn [xls with_xls].
  induction rows as [|row rows IH]; intros s.
  - exists s. cbn. split; [reflexivity|]. split; [reflexivity|].
    intros ls [= <-]. rewrite app_nil_r. reflexivity.
  - rewrite for_each_cons. cbn [lines_result].
    destruct (negb (has_parameters row)) eqn:Hp.
    + unfold ret at 1. exact (IH s).
    + unfold bind at 1, buses_get at 1.
      destruct (dict_get (From row) (buses s)) as [fb|] eqn:Ef.
      2:{ exists s. split; [reflexivity|]. split; [reflexivity|]. discriminate. }
      unfold bind at 1, buses_get at 1.
      destruct (dict_get (To row) (buses s)) as [tb|] eqn:Et.
      2:{ exists s. split; [reflexivity|]. split; [reflexivity|]. discriminate. }
      unfold pp_create_line_from_parameters at 1, modify at 1.
      match goal with |- context [for_each rows _ ?s1] =>
        remember s1 as s1' eqn:Es1;
        destruct (IH s1') as (s' & Hrun & Hrest & Hls) end.
      assert (Hbs : buses s1' = buses s) by (subst s1'; reflexivity).
      assert (Hbl : beside_lines s1' = beside_lines s) by (subst s1'; reflexivity).
      assert (Hln : line (net s1') = line (net s) ++ [line_of row fb tb])
        by (subst s1'; reflexivity).
      rewrite Hbs in Hrun, Hls.
      exists s'. split; [|split].
      * rewrite Hrun. destruct (lines_result (buses s) rows); reflexivity.
      * rewrite Hrest. exact Hbl.
      * intros ls. destruct (lines_result (buses s) rows) as [e|ls']; [discriminate|].
        cbn [ebind]. intros [= <-]. rewrite (Hls ls' eq_refl), Hln, <- app_assoc.
        reflexivity.
Qed.

Lemma _create_lines_with_xls self s :
  _create_lines self s = _create_lines (with_xls self (xls self)) s.
Proof. reflexivity. Qed.

Lemma lines_result_app d pre rest :
  lines_result d (pre ++ rest) =
  ebind (lines_result d pre) (fun l1 =>
  ebind (lines_result d rest) (fun l2 => inr (l1 ++ l2))).
Proof.
  induction pre as [|row pre IH]; cbn [app lines_result ebind].
  - destruct (lines_result d rest); reflexivity.
  - destruct (negb (has_parameters row)); [exact IH|].
    destruct (dict_get (From row) d); [|reflexivity].
    destruct (dict_get (To row) d); [|reflexivity].
    rewrite IH. destruct (lines_result d pre); [reflexivity|]. cbn [ebind].
    destruct (lines_result d rest); reflexivity.
Qed.

Lemma lines_result_ok d rows :
  (forall row, row ∈ rows -> has_parameters row = true ->
     is_Some (dict_get (From row) d) /\ is_Some (dict_get (To row) d)) ->
  exists ls, lines_result d rows = inr ls.
Proof.
  induction rows as [|row rows IH]; intros H; cbn [lines_result]; [eauto|].
  destruct IH as [ls Hls]. { intros r Hr. apply H. right. exact Hr. }
  destruct (has_parameters row) eqn:Hp; cbn [negb]; [|eauto].
  destruct (H row (list_elem_of_here _ _) Hp) as [[fb ->] [tb ->]].
  rewrite Hls. cbn. eauto.
Qed.


(** The lines made are the rows with parameters, in order, each with its
    two bus keys resolved. *)
Lemma lines_result_rows d rows ls :
  lines_result d rows = inr ls ->
  Forall2 (fun row l => exists fb tb,
             dict_get (From row) d = Some fb /\ dict_get (To row) d = Some tb /\
             l = line_of row fb tb)
          (List.filter has_parameters rows) ls.
Proof.
  revert ls. induction rows as [|row rows IH]; intros ls; cbn [lines_result List.filter].
  - intros [= <-]. constructor.
  - destruct (has_parameters row); cbn [negb]; [|apply IH].
    destruct (dict_get (From row) d) as [fb|] eqn:Ef; [|discriminate].
    destruct (dict_get (To row) d) as [tb|] eqn:Et; [|discriminate].
    destruct (lines_result d rows) as [e|ls']; [discriminate|]. cbn [ebind].
    intros [= <-]. constructor; [|apply IH; reflexivity].
    exists fb, tb. repeat split; assumption.
Qed.

(** Assembly by an instance that knows no bus yet. *)
Lemma create_net_empty_fresh self s :
  buses s = [] -> NoDup (node_df self) ->
  exists s',
    create_net_empty self s =
      (match lines_result (numbered (node_df self) 0) (xls self) with
       | inl e => inl e
       | inr _ => inr (net s')
       end, s') /\
    buses s' = numbered (node_df self) 0 /\
    bus (net s') = bus_of self <$> node_df self /\
    ext_grid (net s') = match node_df self with [] => [] | _ => [grid_on 0] end /\
    load (net s') = [] /\ gen (net s') = [] /\
    (forall ls, lines_result (numbered (node_df self) 0) (xls self) = inr ls ->
                line (net s') = ls).
Proof.
  intros Hd Hnd. unfold create_net_empty.
  unfold bind at 1, modify at 1.
  match goal with |- context [bind (_create_buses self) _ ?s0] =>
    destruct (_create_buses_fresh self s0) as (s1 & Hrun1 & Hb1 & Hd1 & He1 & Hr1);
      [exact Hd | reflexivity | exact Hnd |] end.
  rewrite (bind_ok _ _ _ _ _ Hrun1).
  destruct (_create_lines_run self (xls self) s1) as (s2 & Hrun2 & Hr2 & Hl2).
  rewrite <- _create_lines_with_xls in Hrun2. rewrite Hd1 in Hrun2, Hl2.
  unfold beside_lines in Hr2. injection Hr2 as Hbs Hsn Hnm Hbu Heg Hld Hgn.
  unfold beside_buses_and_grid in Hr1. cbn in Hr1, He1.
  injection Hr1 as Hsn1 Hnm1 Hln1 Hld1 Hgn1.
  exists s2. split; [|repeat split].
  - unfold bind at 1. rewrite Hrun2.
    destruct (lines_result (numbered (node_df self) 0) (xls self)); reflexivity.
  - congruence.
  - congruence.
  - congruence.
  - congruence.
  - congruence.
  - intros ls Hls. rewrite (Hl2 ls Hls), Hln1. reflexivity.
Qed.

End AssemblyFacts.

(** ** Assembly: reference point, lines, unknown buses *)

Section AssemblyProperties.
Import LoadFlow.


Lemma has_parameters_present row :
  parameters_present row -> has_parameters row = claimed_kept row.
Proof.
  unfold parameters_present, has_parameters, claimed_kept.
  destruct (R_Ohm_km row), (X_Ohm_km row), (Length_m row); cbn;
    intros (H1 & H2 & H3); try discriminate; reflexivity.
Qed.

(** C4 (amended): when the instance starts without buses, the bus ids are
    distinct and at least one, every row's resistance, reactance and length
    are present (not NaN), and the endpoints of every row with three
    non-zero parameters are bus ids, assembly returns a network in which
    the lines are exactly the rows whose three parameters are all non-zero,
    in order, each with both endpoints resolved to the assembled bus of
    that id, and exactly one reference point exists, on the first created
    bus. *)
Theorem C4_assembled_topology (self : LoadFlow) (s : state) :
  buses s = [] ->
  NoDup (node_df self) ->
  node_df self <> [] ->
  Forall parameters_present (xls self) ->
  (forall row, row ∈ xls self -> claimed_kept row = true ->
     From row ∈ node_df self /\ To row ∈ node_df self) ->
  exists n, run (create_net_empty self) s = inr n /\
    bus n = bus_of self <$> node_df self /\
    Forall2 (fun row l => exists fb tb,
               l = line_of row fb tb /\
               bus_name <$> bus n !! fb = Some (From row) /\
               bus_name <$> bus n !! tb = Some (To row))
            (List.filter claimed_kept (xls self)) (line n) /\
    ext_grid n = [grid_on 0] /\
    bus_name <$> bus n !! 0%nat = head (node_df self).
Proof.
  intros Hd Hnd Hne Hpres Hends.
  destruct (create_net_empty_fresh self s Hd Hnd)
    as (s' & Hrun & _ & Hb & He & _ & _ & Hl).
  assert (Hsame : forall row, row ∈ xls self -> has_parameters row = claimed_kept row).
  { intros row Hrow. apply has_parameters_present.
    rewrite Forall_forall in Hpres. apply Hpres. exact Hrow. }
  destruct (lines_result_ok (numbered (node_df self) 0) (xls self)) as [ls Hls].
  { intros row Hrow Hp. rewrite (Hsame row Hrow) in Hp.
    destruct (Hends row Hrow Hp) as [Hf Ht].
    split; apply dict_get_numbered_in; assumption. }
  specialize (Hl ls Hls).
  exists (net s'). unfold run. rewrite Hrun, Hls. cbn [fst].
  assert (Hname : forall k i, dict_get k (numbered (node_df self) 0) = Some i ->
            bus_name <$> bus (net s') !! i = Some k).
  { intros k i Hk. destruct (dict_get_numbered _ _ _ _ Hk) as (j & -> & Hj).
    rewrite Hb, list_lookup_fmap. cbn. rewrite Hj. reflexivity. }
  split; [reflexivity|]. split; [exact Hb|]. split; [|split].
  - rewrite Hl.
    replace (List.filter claimed_kept (xls self))
      with (List.filter has_parameters (xls self)).
    + eapply Forall2_impl; [apply lines_result_rows; exact Hls|].
      intros row l (fb & tb & Hf & Ht & ->). exists fb, tb.
      split; [reflexivity|]. split; apply Hname; assumption.
    + apply List.filter_ext_in. intros row Hrow. apply Hsame.
      apply list_elem_of_In. exact Hrow.
  - rewrite He. destruct (node_df self); [contradiction | reflexivity].
  - rewrite Hb. destruct (node_df self); [contradiction | reflexivity].
Qed.

(** C7 (amended): a load row that names an unknown bus is silently skipped:
    [_create_loads] never raises, and the table with the row and the table
    without it have the same effect. Line creation does not tolerate an
    unknown bus: a row with three truthy parameters whose from- or to-bus
    is unknown raises [KeyError] (the rows before it having been created or
    skipped); only a row skipped for a zero parameter is not looked up. *)
Theorem C7_unknown_bus_rows :
  (forall specs s, exists s', _create_loads specs s = (inr tt, s')) /\
  (forall l1 r l2 s, dict_get (ls_bus r) (buses s) = None ->
     _create_loads (l1 ++ r :: l2) s = _create_loads (l1 ++ l2) s) /\
  (forall self s pre row post,
     xls self = pre ++ row :: post ->
     run (_create_lines (with_xls self pre)) s = inr tt ->
     has_parameters row = true ->
     dict_get (From row) (buses s) = None \/ dict_get (To row) (buses s) = None ->
     exists k, (k = From row \/ k = To row) /\ dict_get k (buses s) = None /\
       run (_create_lines self) s = inl (KeyError k)) /\
  (forall self s pre row post,
     xls self = pre ++ row :: post ->
     has_parameters row = false ->
     run (_create_lines self) s = run (_create_lines (with_xls self (pre ++ post))) s).
Proof.
  split; [|split; [|split]].
  - intros specs s. destruct (_create_loads_spec specs s) as (s' & H & _). eauto.
  - exact _create_loads_drop.
  - intros self s pre row post Hx Hpre Hp Hunk.
    unfold run in *. rewrite _create_lines_with_xls.
    destruct (_create_lines_run self pre s) as (s1 & H1 & _).
    destruct (_create_lines_run self (xls self) s) as (s2 & H2 & _).
    rewrite H1 in Hpre. rewrite H2. cbn [fst] in *.
    destruct (lines_result (buses s) pre) as [e|l1] eqn:E1; [discriminate|].
    rewrite Hx, lines_result_app, E1. cbn [ebind lines_result]. rewrite Hp. cbn [negb].
    destruct (dict_get (From row) (buses s)) as [fb|] eqn:Ef.
    + destruct Hunk as [Hu|Hu]; [discriminate|]. rewrite Hu.
      exists (To row). auto.
    + exists (From row). auto.
  - intros self s pre row post Hx Hp.
    unfold run. rewrite _create_lines_with_xls.
    destruct (_create_lines_run self (xls self) s) as (s1 & H1 & _).
    destruct (_create_lines_run self (pre ++ post) s) as (s2 & H2 & _).
    rewrite H1, H2. cbn [fst].
    rewrite Hx, !lines_result_app. cbn [lines_result]. rewrite Hp. cbn [negb].
    reflexivity.
Qed.

End AssemblyProperties.

(** *** Assemblies that run *)



(** C4, as stated, fails on the reference point: an empty topology is
    assembled with no reference point at all, and with a repeated bus id the
    reference point sits on the bus created last for that id (index 1), not
    on the first created bus. *)
Lemma C4_counterexample :
  returned LoadFlow.ext_grid
    (run (LoadFlow.create_net_empty (assembler [] [])) fresh_state) = inr [] /\
  returned LoadFlow.ext_grid
    (run (LoadFlow.create_net_empty (assembler ["a"; "a"] [])) fresh_state)
    = inr [grid_on 1] /\
  returned (fun n => length (LoadFlow.bus n))
    (run (LoadFlow.create_net_empty (assembler ["a"; "a"] [])) fresh_state)
    = inr 2%nat.
Proof. vm_compute. repeat split; reflexivity. Qed.

(** A row whose resistance cell is empty (NaN) has a truthy resistance and
    is created as a line. *)
Example nan_resistance_row_is_kept :
  LoadFlow.has_parameters (line_row_of "L" "ref" "A" NaN (Fin 1) (Fin 100)) = true /\
  returned (fun n => length (LoadFlow.line n))
    (run (LoadFlow.create_net_empty
            (assembler ["ref"; "A"] [line_row_of "L" "ref" "A" NaN (Fin 1) (Fin 100)]))
         fresh_state) = inr 1%nat.
Proof. vm_compute. split; reflexivity. Qed.

Lemma C4_assembled_topology_witness :
  (LoadFlow.buses fresh_state = [] /\
   NoDup (LoadFlow.node_df three_bus) /\
   LoadFlow.node_df three_bus <> [] /\
   Forall parameters_present (LoadFlow.xls three_bus)) /\
  exists n, run (LoadFlow.create_net_empty three_bus) fresh_state = inr n /\
    LoadFlow.bus n = bus_of three_bus <$> LoadFlow.node_df three_bus /\
    Forall2 (fun row l => exists fb tb,
               l = line_of row fb tb /\
               LoadFlow.bus_name <$> LoadFlow.bus n !! fb = Some (From row) /\
               LoadFlow.bus_name <$> LoadFlow.bus n !! tb = Some (To row))
            (List.filter claimed_kept (LoadFlow.xls three_bus)) (LoadFlow.line n) /\
    LoadFlow.ext_grid n = [grid_on 0] /\
    LoadFlow.bus_name <$> LoadFlow.bus n !! 0%nat = head (LoadFlow.node_df three_bus).
Proof.
  assert (H1 : LoadFlow.buses fresh_state = []) by reflexivity.
  assert (H2 : NoDup (LoadFlow.node_df three_bus)).
  { apply (bool_decide_unpack (NoDup (LoadFlow.node_df three_bus))).
    vm_compute. exact I. }
  assert (H3 : LoadFlow.node_df three_bus <> []) by discriminate.
  assert (H4 : Forall parameters_present (LoadFlow.xls three_bus)).
  { repeat constructor. }
  split; [repeat split; assumption|].
  apply (C4_assembled_topology three_bus fresh_state H1 H2 H3 H4).
  intros row Hrow Hkept. cbn in Hrow.
  apply elem_of_cons in Hrow as [->|Hrow].
  - split; cbn; [left | right; left].
  - apply elem_of_cons in Hrow as [->|Hrow]; [discriminate Hkept | inversion Hrow].
Defined.

(** C7, as stated, fails for lines: a row with parameters that names the
    unknown bus "Z" makes line creation, and with it the assembly, raise
    [KeyError]. *)
Lemma C7_counterexample :
  LoadFlow.has_parameters
    (line_row_of "ref-Z" "ref" "Z" (Fin (3 # 10)) (Fin (3 # 10)) (Fin 100)) = true /\
  run (LoadFlow._create_lines
         (assembler ["ref"; "A"]
            [line_row_of "ref-Z" "ref" "Z" (Fin (3 # 10)) (Fin (3 # 10)) (Fin 100)]))
      {| LoadFlow.net := LoadFlow.pp_create_empty_network 1 "grid";
         LoadFlow.buses := [("ref", 0%nat); ("A", 1%nat)] |}
    = inl (KeyError "Z") /\
  run (LoadFlow.create_net_empty
         (assembler ["ref"; "A"]
            [line_row_of "ref-Z" "ref" "Z" (Fin (3 # 10)) (Fin (3 # 10)) (Fin 100)]))
      fresh_state
    = inl (KeyError "Z").
Proof. vm_compute. repeat split; reflexivity. Qed.

Lemma C7_unknown_bus_rows_witness :
  (exists s', LoadFlow._create_loads
                [ {| LoadFlow.ls_bus := "Z"; LoadFlow.ls_p_mw := Fin 1;
                     LoadFlow.ls_q_mvar := Fin 0 |} ] fresh_state = (inr tt, s')) /\
  LoadFlow._create_loads
    ([] ++ {| LoadFlow.ls_bus := "Z"; LoadFlow.ls_p_mw := Fin 1;
              LoadFlow.ls_q_mvar := Fin 0 |} :: []) fresh_state
  = LoadFlow._create_loads ([] ++ []) fresh_state.
Proof.
  destruct C7_unknown_bus_rows as (Hnever & Hdrop & _ & _).
  split.
  - apply Hnever.
  - apply Hdrop. reflexivity.
Defined.

(** ** The integer cast of bus ids *)

Section BusIdCast.
Context {R : NumpyRandom}.
Import Gen.

Lemma astype_int_str_cells ids ids' :
  PyInt.astype_int_str ids = inr ids' ->
  Forall2 (fun id id' => exists z, PyInt.parse_int id = Some z /\
                                   id' = PyInt.render_int z) ids ids'.
Proof.
  unfold PyInt.astype_int_str.
  destruct (emapM PyInt.cell_astype_int ids) as [e|zs] eqn:E; [discriminate|].
  cbn [ebind]. intros [= <-]. apply emapM_Forall2 in E.
  apply Forall2_fmap_r. eapply Forall2_impl; [exact E|].
  intros id z Hz. exists z. unfold PyInt.cell_astype_int in Hz.
  destruct (PyInt.parse_int id) as [z'|]; [|discriminate].
  destruct (PyInt.in_int64 z'); [|discriminate].
  injection Hz as ->. auto.
Qed.

Lemma astype_int_str_unparsable ids id :
  id ∈ ids -> PyInt.parse_int id = None ->
  exists e, PyInt.astype_int_str ids = inl e.
Proof.
  intros Hin Hp. unfold PyInt.astype_int_str.
  destruct (emapM_inl PyInt.cell_astype_int ids id Hin) as [e ->].
  - unfold PyInt.cell_astype_int. rewrite Hp. eauto.
  - cbn. eauto.
Qed.

Lemma finish_Bus_ID ids cols fr :
  finish ids cols = inr fr -> PyInt.astype_int_str ids = inr (Bus_ID fr).
Proof.
  unfold finish. destruct (PyInt.astype_int_str ids) as [e|ids']; [discriminate|].
  cbn [ebind]. destruct (select_cols hours cols); [discriminate|].
  cbn [ebind]. intros [= <-]. reflexivity.
Qed.

(** Both synthesis functions end in the cast: a frame they return went
    through [finish]. *)
Lemma _generate_profile_df_finish self profile power (g : rng_state) fr :
  run (_generate_profile_df self profile power) g = inr fr ->
  exists cols, finish (lp_Bus_ID <$> df self) cols = inr fr.
Proof.
  unfold run, _generate_profile_df. unfold bind at 1. unfold np_random_seed.
  destruct (legal_seed (seed self)); [|discriminate]. unfold put.
  unfold bind at 1.
  match goal with |- context [match ?c with _ => _ end] =>
    destruct c as [[e|cols] g'] end; [discriminate|].
  unfold lift. cbn [fst]. eauto.
Qed.

Lemma _generate_pv_profile_df_finish self pv_profile (g : rng_state) fr :
  run (_generate_pv_profile_df self pv_profile) g = inr fr ->
  exists cols, finish (lp_Bus_ID <$> df self) cols = inr fr.
Proof.
  unfold run, _generate_pv_profile_df. unfold bind at 1.
  match goal with |- context [match ?c with _ => _ end] =>
    destruct c as [[e|cols] g'] end; [discriminate|].
  unfold lift. cbn [fst]. eauto.
Qed.

(** The loads after a successful per-hour population, from the rows of the
    three frames. *)
Lemma hourly_loads_created hour P_df Q_df PV_df s s' :
  LoadFlow.set_hourly_loads hour P_df Q_df PV_df s = (inr tt, s') ->
  exists a r p,
    LoadFlow.hour_rows P_df hour = inr a /\
    LoadFlow.hour_rows Q_df hour = inr r /\
    LoadFlow.hour_rows PV_df hour = inr p /\
    LoadFlow.load (LoadFlow.net s')
      = omap (attach (LoadFlow.buses s)) (LoadFlow.hourly_specs a r p).
Proof.
  unfold LoadFlow.set_hourly_loads.
  unfold bind at 1. unfold LoadFlow._clear_loads, modify.
  destruct (LoadFlow.hour_rows P_df hour) as [e|a]; [discriminate|].
  destruct (LoadFlow.hour_rows Q_df hour) as [e|r]; [discriminate|].
  destruct (LoadFlow.hour_rows PV_df hour) as [e|p]; [discriminate|].
  unfold bind, lift.
  match goal with |- context [LoadFlow._create_loads _ ?s1] =>
    destruct (_create_loads_spec (LoadFlow.hourly_specs a r p) s1)
      as (s2 & Hrun & _ & Hl & _) end.
  rewrite Hrun. intros [= <-]. exists a, r, p. cbn in Hl.
  repeat split; try reflexivity. exact Hl.
Qed.

Lemma omap_attach_unknown d specs :
  (forall r, r ∈ specs -> LoadFlow.dict_get (LoadFlow.ls_bus r) d = None) ->
  omap (attach d) specs = [].
Proof.
  induction specs as [|r specs IH]; intros H; [reflexivity|].
  rewrite omap_attach_cons, (H r) by left.
  apply IH. intros r' Hr'. apply H. right. exact Hr'.
Qed.

Lemma hour_rows_keys df hour rows r :
  LoadFlow.hour_rows df hour = inr rows -> r ∈ rows -> r.1 ∈ Bus_ID df.
Proof.
  unfold LoadFlow.hour_rows. destruct (get_col hour (columns df)); [|discriminate].
  intros [= <-] Hr. destruct r as [k v]. apply elem_of_zip_l in Hr. exact Hr.
Qed.

(** C9 (amended): the [Bus_ID] column of every profile frame is the input
    column cast to int and back to str. So, for ASCII ids, synthesis raises
    as soon as one bus id is not integer-parsable, and in a frame it returns
    every id is the decimal rendering of the integer read from the input id.
    In the per-hour load creation a row is dropped without an exception
    exactly when its (rendered) key is not a key of [self.buses]: the table
    without the row has the same effect, and when none of the keys is known
    no load is created at all. A row whose rendered key is a key of
    [self.buses] is not dropped, whatever the id it was rendered from: its
    load is created on the bus the dict gives for the rendered key. *)
Theorem C9_bus_id_cast (self : generator) (profile : option (list Q))
  (pv_profile : list Q) (power : power_col) (g : rng_state) :
  (forall id, id ∈ (lp_Bus_ID <$> df self) -> PyInt.is_ascii id = true ->
     PyInt.parse_int id = None ->
     (exists e, run (_generate_profile_df self profile power) g = inl e) /\
     (exists e, run (_generate_pv_profile_df self pv_profile) g = inl e)) /\
  (forall fr,
     Forall (fun id => PyInt.is_ascii id = true) (lp_Bus_ID <$> df self) ->
     run (_generate_profile_df self profile power) g = inr fr \/
     run (_generate_pv_profile_df self pv_profile) g = inr fr ->
     Forall2 (fun id id' => exists z, PyInt.parse_int id = Some z /\
                                      id' = PyInt.render_int z)
             (lp_Bus_ID <$> df self) (Bus_ID fr)) /\
  (forall l1 r l2 s,
     LoadFlow.dict_get (LoadFlow.ls_bus r) (LoadFlow.buses s) = None ->
     LoadFlow._create_loads (l1 ++ r :: l2) s = LoadFlow._create_loads (l1 ++ l2) s) /\
  (forall hour P_df Q_df PV_df s s',
     (forall id, id ∈ Bus_ID P_df ++ Bus_ID Q_df ++ Bus_ID PV_df ->
                 LoadFlow.dict_get id (LoadFlow.buses s) = None) ->
     LoadFlow.set_hourly_loads hour P_df Q_df PV_df s = (inr tt, s') ->
     LoadFlow.load (LoadFlow.net s') = []) /\
  (forall l1 r l2 s b,
     LoadFlow.dict_get (LoadFlow.ls_bus r) (LoadFlow.buses s) = Some b ->
     exists s', LoadFlow._create_loads (l1 ++ r :: l2) s = (inr tt, s') /\
       LoadFlow.load (LoadFlow.net s')
       = LoadFlow.load (LoadFlow.net s) ++ omap (attach (LoadFlow.buses s)) l1 ++
         {| LoadFlow.load_bus := b; LoadFlow.p_mw := LoadFlow.ls_p_mw r;
            LoadFlow.q_mvar := LoadFlow.ls_q_mvar r |}
         :: omap (attach (LoadFlow.buses s)) l2).
Proof.
  split; [|split; [|split; [|split]]]; cycle 4.
  { intros l1 r l2 s b Hb.
    destruct (_create_loads_spec (l1 ++ r :: l2) s) as (s' & Hrun & _ & Hl & _).
    exists s'. split; [exact Hrun|].
    rewrite Hl, omap_app, omap_attach_cons, Hb. reflexivity. }
  - intros id Hin _ Hp.
    destruct (astype_int_str_unparsable _ id Hin Hp) as [e He].
    split.
    + destruct (run (_generate_profile_df self profile power) g) as [e'|fr] eqn:E;
        [eauto|].
      destruct (_generate_profile_df_finish _ _ _ _ _ E) as [cols Hc].
      apply finish_Bus_ID in Hc. congruence.
    + destruct (run (_generate_pv_profile_df self pv_profile) g) as [e'|fr] eqn:E;
        [eauto|].
      destruct (_generate_pv_profile_df_finish _ _ _ _ E) as [cols Hc].
      apply finish_Bus_ID in Hc. congruence.
  - intros fr _ [E|E].
    + destruct (_generate_profile_df_finish _ _ _ _ _ E) as [cols Hc].
      apply astype_int_str_cells. eapply finish_Bus_ID. exact Hc.
    + destruct (_generate_pv_profile_df_finish _ _ _ _ E) as [cols Hc].
      apply astype_int_str_cells. eapply finish_Bus_ID. exact Hc.
  - exact _create_loads_drop.
  - intros hour P_df Q_df PV_df s s' Hunk Hrun.
    destruct (hourly_loads_created _ _ _ _ _ _ Hrun) as (a & r & p & Ha & Hr & Hp & ->).
    apply omap_attach_unknown. intros spec Hspec. apply Hunk.
    unfold LoadFlow.hourly_specs in Hspec.
    rewrite !elem_of_app, !list_elem_of_fmap in Hspec. rewrite !elem_of_app.
    destruct Hspec as [(x & -> & Hx)|[(x & -> & Hx)|(x & -> & Hx)]]; cbn.
    + left. eapply hour_rows_keys; eassumption.
    + right. left. eapply hour_rows_keys; eassumption.
    + right. right. eapply hour_rows_keys; eassumption.
Qed.

End BusIdCast.

(** *** Bus ids with a decimal point or leading zeros *)

(** The load at bus "007" is keyed "7" in the profiles and finds no bus;
    the same load at bus "7" gives the three loads of the hour. With both
    "007" and "7" in the node table, the load of "007" lands on bus "7"
    (index 1). *)
Example leading_zero_load_is_dropped :
  loads_at_nine ["007"] "007" = inr [] /\
  returned length (loads_at_nine ["7"] "7") = inr 3%nat /\
  returned (fmap LoadFlow.load_bus) (loads_at_nine ["007"; "7"] "007")
    = inr [1%nat; 1%nat; 1%nat].
Proof. vm_compute. repeat split; reflexivity. Qed.

(** C9, as stated, fails when the rendering is the id of another node:
    with the nodes "007" and "7", the load point "007" is rendered "7", which
    differs from its node id, and yet it is not dropped: its three loads of
    the hour are created, on bus 1, the bus of node "7". *)
Lemma C9_counterexample :
  PyInt.astype_int_str ["007"] = inr ["7"] /\
  LoadFlow.buses (LoadFlow.create_net_empty (assembler ["007"; "7"] []) fresh_state).2
    = [("007", 0%nat); ("7", 1%nat)] /\
  returned length (loads_at_nine ["007"; "7"] "007") = inr 3%nat /\
  returned (fmap LoadFlow.load_bus) (loads_at_nine ["007"; "7"] "007")
    = inr [1%nat; 1%nat; 1%nat].
Proof. vm_compute. repeat split; reflexivity. Qed.

Lemma C9_bus_id_cast_witness :
  (exists e, run (@Gen._generate_profile_df tape_of_twos (one_load "7.0")
                    (Some weekday) Gen.PLmax_kW) [] = inl e) /\
  (forall fr, run (@Gen._generate_profile_df tape_of_twos (one_load "007")
                     (Some weekday) Gen.PLmax_kW) [] = inr fr ->
     Forall2 (fun id id' => exists z, PyInt.parse_int id = Some z /\
                                      id' = PyInt.render_int z)
             ["007"] (Gen.Bus_ID fr)) /\
  LoadFlow.load (LoadFlow.net
    (LoadFlow.set_hourly_loads "09:00" (nine_oclock 10) (nine_oclock 3)
       (nine_oclock 0) padded_state).2) = [] /\
  (exists s', LoadFlow._create_loads
                [ {| LoadFlow.ls_bus := "007"; LoadFlow.ls_p_mw := Fin 1;
                     LoadFlow.ls_q_mvar := Fin 0 |} ] padded_state = (inr tt, s') /\
     LoadFlow.load (LoadFlow.net s')
     = [ {| LoadFlow.load_bus := 0%nat; LoadFlow.p_mw := Fin 1;
            LoadFlow.q_mvar := Fin 0 |} ]).
Proof.
  split; [|split; [|split]].
  - destruct (@C9_bus_id_cast tape_of_twos (one_load "7.0") (Some weekday)
                Gen.summer Gen.PLmax_kW []) as (Hraise & _).
    apply (Hraise "7.0"); [left | reflexivity | reflexivity].
  - destruct (@C9_bus_id_cast tape_of_twos (one_load "007") (Some weekday)
                Gen.summer Gen.PLmax_kW []) as (_ & Hcast & _).
    intros fr Hfr. apply (Hcast fr); [|left; exact Hfr].
    repeat constructor.
  - destruct (@C9_bus_id_cast tape_of_twos (one_load "007") (Some weekday)
                Gen.summer Gen.PLmax_kW []) as (_ & _ & _ & Hdrop & _).
    apply (Hdrop "09:00" (nine_oclock 10) (nine_oclock 3) (nine_oclock 0) padded_state).
    + intros id Hid. cbn in Hid.
      repeat (apply elem_of_cons in Hid as [->|Hid]; [reflexivity|]).
      inversion Hid.
    + reflexivity.
  - destruct (@C9_bus_id_cast tape_of_twos (one_load "007") (Some weekday)
                Gen.summer Gen.PLmax_kW []) as (_ & _ & _ & _ & Hkeep).
    exact (Hkeep [] {| LoadFlow.ls_bus := "007"; LoadFlow.ls_p_mw := Fin 1;
                       LoadFlow.ls_q_mvar := Fin 0 |} [] padded_state 0%nat eq_refl).
Defined.

(** ** Daily aggregation *)

Section Aggregation.
Import Viz.

Lemma extended_extended old vs ws :
  extended (extended old vs) ws = extended old (vs ++ ws).
Proof.
  destruct vs as [|v vs]; [reflexivity|].
  destruct ws as [|w ws]; cbn.
  - rewrite app_nil_r. reflexivity.
  - rewrite <- app_assoc. reflexivity.
Qed.

Lemma collect_lines_lookup rl : forall hist n,
  collect_lines rl hist !! n = extended (hist !! n) (series_of n rl).
Proof.
  unfold collect_lines.
  induction rl as [|[k v] rl IH]; intros hist n; [reflexivity|].
  cbn [foldl]. rewrite IH. unfold series_of. cbn [List.filter fst].
  unfold setdefault_append. cbn [fst snd].
  destruct (String.eqb k n) eqn:E.
  - apply String.eqb_eq in E. subst k. rewrite lookup_insert_eq.
    cbn [fmap list_fmap snd].
    change (Some (default [] (hist !! n) ++ [v])) with (extended (hist !! n) [v]).
    rewrite extended_extended. reflexivity.
  - apply String.eqb_neq in E. rewrite lookup_insert_ne by exact E. reflexivity.
Qed.

Lemma histories_lines nodes snaps : forall h0,
  (foldl (fun h s => _collect nodes s h) h0 snaps).1
  = foldl (fun h s => collect_lines (res_line s) h) h0.1 snaps.
Proof.
  induction snaps as [|s snaps IH]; intros h0; [reflexivity|].
  cbn [foldl]. rewrite IH. reflexivity.
Qed.

Lemma day_lookup snaps : forall hist n,
  foldl (fun h s => collect_lines (res_line s) h) hist snaps !! n
  = extended (hist !! n) (day_series n snaps).
Proof.
  induction snaps as [|s snaps IH]; intros hist n; [reflexivity|].
  cbn [foldl]. rewrite IH, collect_lines_lookup, extended_extended. reflexivity.
Qed.

Lemma line_hist_lookup nodes snaps n :
  (histories nodes snaps).1 !! n = extended None (day_series n snaps).
Proof.
  unfold histories. rewrite histories_lines, day_lookup. cbn [fst].
  rewrite lookup_empty. reflexivity.
Qed.

(** Python's [max] keeps a NaN that comes first, and ignores every NaN
    that comes later. *)
Lemma max_from_nan v : max_from NaN v = NaN.
Proof. induction v as [|x v IH]; [reflexivity|]. cbn. destruct x; exact IH. Qed.

Lemma elem_of_skip_second {A} (x a b : A) v : x ∈ a :: v -> x ∈ a :: b :: v.
Proof.
  intros H. apply elem_of_cons in H as [->|H]; [left | right; right; exact H].
Qed.

Lemma max_from_fin v : forall q,
  exists q', max_from (Fin q) v = Fin q' /\ Fin q' ∈ Fin q :: v /\
    forall y, Fin y ∈ Fin q :: v -> (y <= q')%Q.
Proof.
  induction v as [|x v IH]; intros q.
  - exists q. split; [reflexivity|]. split; [left|].
    intros y Hy. apply list_elem_of_singleton in Hy. injection Hy as ->. apply Qle_refl.
  - cbn [max_from]. destruct x as [y0|]; cbn [fgt].
    + destruct (Qltb q y0) eqn:E.
      * destruct (IH y0) as (q' & Hm & Hin & Hub). exists q'.
        split; [exact Hm|]. split; [right; exact Hin|].
        intros y Hy. apply elem_of_cons in Hy as [Hy|Hy]; [|apply Hub; exact Hy].
        injection Hy as ->. apply Qltb_lt in E.
        eapply Qle_trans; [apply Qlt_le_weak; exact E|]. apply Hub. left.
      * destruct (IH q) as (q' & Hm & Hin & Hub). exists q'.
        split; [exact Hm|]. split; [apply elem_of_skip_second; exact Hin|].
        intros y Hy. apply elem_of_cons in Hy as [Hy|Hy].
        { apply Hub. rewrite Hy. left. }
        apply elem_of_cons in Hy as [Hy|Hy]; [|apply Hub; right; exact Hy].
        injection Hy as ->. apply Qltb_ge in E.
        eapply Qle_trans; [exact E|]. apply Hub. left.
    + destruct (IH q) as (q' & Hm & Hin & Hub). exists q'.
      split; [exact Hm|]. split; [apply elem_of_skip_second; exact Hin|].
      intros y Hy. apply elem_of_cons in Hy as [Hy|Hy].
      { apply Hub. rewrite Hy. left. }
      apply elem_of_cons in Hy as [Hy|Hy]; [discriminate|].
      apply Hub. right. exact Hy.
Qed.

Lemma dict_agg_py_max hist :
  (forall n v, hist !! n = Some v -> v <> []) ->
  dict_agg py_max hist = inr (omap py_max hist).
Proof.
  intros H. unfold dict_agg. rewrite bool_decide_eq_true_2; [reflexivity|].
  intros n v Hv. specialize (H n v Hv). destruct v; [contradiction | discriminate].
Qed.

(** C5 (amended): the daily aggregate of a line is Python's [max] of the
    line's own hourly series (the values of the rows that carry its name, in
    hour order), whatever the other elements hold. If the first value of the
    series is defined, the result is the largest defined value of the series
    and NaN hours are ignored; if the first value is NaN, the result is NaN.
    The series [10, 95, 130, 40, NaN] yields 130. *)
Theorem C5_daily_max (nodes : list string) (snaps : list snapshot) :
  (exists m, max_load nodes snaps = inr m /\
     forall n,
       match day_series n snaps with
       | [] => m !! n = None
       | x :: rest =>
           m !! n = Some (max_from x rest) /\
           match x with
           | NaN => max_from x rest = NaN
           | Fin q => exists q', max_from x rest = Fin q' /\
                        Fin q' ∈ x :: rest /\
                        forall y, Fin y ∈ x :: rest -> (y <= q')%Q
           end
       end) /\
  py_max [Fin 10; Fin 95; Fin 130; Fin 40; NaN] = Some (Fin 130).
Proof.
  split; [|reflexivity].
  exists (omap py_max (histories nodes snaps).1). split.
  - unfold max_load. apply dict_agg_py_max. intros n v.
    rewrite line_hist_lookup. unfold extended.
    destruct (day_series n snaps) as [|x rest]; [discriminate|].
    cbn. intros [= <-]. discriminate.
  - intros n. rewrite lookup_omap, line_hist_lookup. unfold extended.
    destruct (day_series n snaps) as [|x rest]; [reflexivity|].
    cbn. split; [reflexivity|].
    destruct x as [q|]; [apply max_from_fin | apply max_from_nan].
Qed.

End Aggregation.

(** C5, as stated, fails when the undefined hour comes first: the series
    [NaN, 10, 95] of L1 aggregates to NaN, where the maximum with the NaN
    hour excluded is 95. *)
Lemma C5_counterexample :
  day_series "L1" undefined_first_hour = [NaN; Fin 10; Fin 95] /\
  returned (fun m : gmap string pyfloat => m !! "L1")
    (Viz.max_load [] undefined_first_hour) = inr (Some NaN) /\
  claimed_max (day_series "L1" undefined_first_hour) = Some (Fin 95) /\
  returned (fun m : gmap string pyfloat => m !! "L2")
    (Viz.max_load [] undefined_first_hour) = inr (Some (Fin 30)).
Proof. vm_compute. repeat split; reflexivity. Qed.

(** ** The load table of an input without power *)

Section EmptyLoadTable.
Context {R : NumpyRandom}.
Import Prep.

Lemma is_zero_ne_zero x : is_zero x -> ne_zero x = false.
Proof. intros (q & -> & Hq). cbn. apply Qnonzero_false. exact Hq. Qed.

Lemma no_power_no_record rows :
  Forall (fun row => is_zero (PLmax row) /\ is_zero (QLmax row) /\ is_zero (Pg row)) rows ->
  List.filter has_power rows = [].
Proof.
  induction 1 as [|row rows (Hp & Hq & Hg) _ IH]; [reflexivity|].
  cbn [List.filter]. unfold has_power.
  rewrite (is_zero_ne_zero _ Hp), (is_zero_ne_zero _ Hq), (is_zero_ne_zero _ Hg).
  exact IH.
Qed.

(** C10: when the required columns exist and every row has peak active,
    peak reactive and peak generation all equal to zero, [make_load_df]
    raises [KeyError] on ["Bus_ID"]: no record is collected, the frame built
    from the empty list has no column, and [df["Bus_ID"]] fails before any
    profile is synthesized. No empty load set is returned. *)
Theorem C10_all_zero_peaks_key_error (self : DataPrepare)
  (df_stats : option (list Gen.quantile_row)) (g : rng_state) :
  _check_required_columns self
    [c_plmax (columns self); c_qlmax (columns self);
     c_pg (columns self); c_to (columns self)] = inr tt ->
  Forall (fun row => is_zero (PLmax row) /\ is_zero (QLmax row) /\ is_zero (Pg row))
         (xls self) ->
  make_load_df self df_stats g = (inl (KeyError "Bus_ID"), g).
Proof.
  intros Hcols Hzero. unfold make_load_df.
  rewrite Hcols. unfold bind at 1. unfold lift at 1.
  rewrite (no_power_no_record _ Hzero). cbn [fmap list_fmap].
  unfold bind at 1. reflexivity.
Qed.

End EmptyLoadTable.

Lemma C10_all_zero_peaks_key_error_witness :
  (Prep._check_required_columns powerless_sheet
     [Prep.c_plmax (Prep.columns powerless_sheet);
      Prep.c_qlmax (Prep.columns powerless_sheet);
      Prep.c_pg (Prep.columns powerless_sheet);
      Prep.c_to (Prep.columns powerless_sheet)] = inr tt /\
   Forall (fun row => is_zero (PLmax row) /\ is_zero (QLmax row) /\ is_zero (Pg row))
          (Prep.xls powerless_sheet)) /\
  @Prep.make_load_df tape_of_twos powerless_sheet None [] = (inl (KeyError "Bus_ID"), []).
Proof.
  assert (H1 : Prep._check_required_columns powerless_sheet
                 [Prep.c_plmax (Prep.columns powerless_sheet);
                  Prep.c_qlmax (Prep.columns powerless_sheet);
                  Prep.c_pg (Prep.columns powerless_sheet);
                  Prep.c_to (Prep.columns powerless_sheet)] = inr tt)
    by (vm_compute; reflexivity).
  assert (Hz : is_zero (Fin 0)) by (exists 0%Q; split; reflexivity).
  assert (H2 : Forall (fun row => is_zero (PLmax row) /\ is_zero (QLmax row)
                                  /\ is_zero (Pg row))
                      (Prep.xls powerless_sheet)).
  { repeat constructor; exact Hz. }
  split; [split; assumption|].
  exact (@C10_all_zero_peaks_key_error tape_of_twos powerless_sheet None [] H1 H2).
Defined.

(** * Further properties of the code *)

(** ** The integer cast on ids that are already decimal *)

Section DecimalRoundTrip.
Import PyInt.

Lemma digit_not_space c d : digit_val c = Some d -> is_space c = false.
Proof.
  unfold digit_val, is_space. cbv zeta.
  destruct (48 <=? nat_of_ascii c)%nat eqn:E1; [|discriminate].
  destruct (nat_of_ascii c <=? 57)%nat eqn:E2; [|discriminate].
  intros _. apply Nat.leb_le in E1.
  destruct (nat_of_ascii c <=? 13)%nat eqn:E3; [apply Nat.leb_le in E3; lia|].
  destruct (nat_of_ascii c =? 32)%nat eqn:E4; [apply Nat.eqb_eq in E4; lia|].
  rewrite !andb_false_r. reflexivity.
Qed.

Lemma digit_val_pretty_N_char m :
  (m < 10)%N -> digit_val (pretty_N_char m) = Some (Z.of_N m).
Proof.
  intros Hm.
  assert (m = 0 \/ m = 1 \/ m = 2 \/ m = 3 \/ m = 4 \/ m = 5 \/ m = 6
          \/ m = 7 \/ m = 8 \/ m = 9)%N as H by lia.
  repeat destruct H as [->|H]; try subst m; reflexivity.
Qed.

Lemma drop_spaces_id l :
  Forall (fun c => is_space c = false) l -> drop_spaces l = l.
Proof. destruct 1 as [|c l Hc _]; [reflexivity|]. cbn. rewrite Hc. reflexivity. Qed.

Lemma strip_id l : Forall (fun c => is_space c = false) l -> strip l = l.
Proof.
  intros H. unfold strip. rewrite (drop_spaces_id l H).
  rewrite drop_spaces_id by (apply Forall_rev; exact H).
  apply rev_involutive.
Qed.

(** The digits [pretty] writes, read back from the left. *)
Lemma parse_digits_pretty_N_go x :
  (0 < x)%N ->
  exists k : nat, forall s acc prev,
    parse_digits acc prev (list_ascii_of_string (pretty_N_go x s))
    = parse_digits (acc * 10 ^ Z.of_nat k + Z.of_N x) true (list_ascii_of_string s).
Proof.
  induction (N.lt_wf_0 x) as [x _ IH]. intros Hx.
  assert (Hm : (x `mod` 10 < 10)%N) by (apply N.mod_lt; discriminate).
  assert (Hdm : x = (10 * (x `div` 10) + x `mod` 10)%N)
    by (apply N.div_mod; discriminate).
  destruct (decide (x `div` 10 = 0)%N) as [Hd|Hd].
  - exists 1%nat. intros s acc prev. rewrite pretty_N_go_step by exact Hx.
    rewrite Hd, pretty_N_go_0. cbn [list_ascii_of_string parse_digits].
    rewrite (digit_val_pretty_N_char _ Hm). f_equal.
    rewrite Hd in Hdm. set (r := (x `mod` 10)%N) in *.
    change (10 ^ Z.of_nat 1) with 10. lia.
  - destruct (IH (x `div` 10)%N) as [k Hk].
    { apply N.div_lt; [exact Hx | reflexivity]. }
    { apply N.neq_0_lt_0. exact Hd. }
    exists (S k). intros s acc prev. rewrite pretty_N_go_step by exact Hx.
    rewrite Hk. cbn [list_ascii_of_string parse_digits].
    rewrite (digit_val_pretty_N_char _ Hm). f_equal.
    rewrite Nat2Z.inj_succ, Z.pow_succ_r by lia.
    set (q := (x `div` 10)%N) in *. set (r := (x `mod` 10)%N) in *.
    set (t := 10 ^ Z.of_nat k). lia.
Qed.

Lemma pretty_N_go_digits x : forall s,
  Forall (fun c => is_Some (digit_val c)) (list_ascii_of_string s) ->
  Forall (fun c => is_Some (digit_val c)) (list_ascii_of_string (pretty_N_go x s)).
Proof.
  induction (N.lt_wf_0 x) as [x _ IH]. intros s Hs.
  destruct (decide (x = 0)%N) as [->|Hx]; [rewrite pretty_N_go_0; exact Hs|].
  apply N.neq_0_lt_0 in Hx.
  rewrite pretty_N_go_step by exact Hx. apply IH.
  - apply N.div_lt; [exact Hx | reflexivity].
  - cbn [list_ascii_of_string]. constructor; [|exact Hs].
    rewrite digit_val_pretty_N_char by (apply N.mod_lt; discriminate). eauto.
Qed.

Lemma parse_int_unsigned s c l d :
  strip (list_ascii_of_string s) = c :: l -> digit_val c = Some d ->
  parse_int s = parse_digits 0 false (c :: l).
Proof.
  unfold parse_int. intros ->.
  destruct c as [[] [] [] [] [] [] [] []]; cbn; try discriminate; reflexivity.
Qed.

Lemma parse_int_negative s l :
  strip (list_ascii_of_string s) = "-"%char :: l ->
  parse_int s = Z.opp <$> parse_digits 0 false l.
Proof. unfold parse_int. intros ->. reflexivity. Qed.

(** The characters of a rendered positive number: digits only, at least
    one, and they read back as the number. *)
Lemma pretty_pos_chars p :
  exists c l d,
    list_ascii_of_string (pretty (N.pos p)) = c :: l /\
    digit_val c = Some d /\
    Forall (fun c => is_space c = false) (c :: l) /\
    parse_digits 0 false (c :: l) = Some (Z.pos p).
Proof.
  unfold pretty, pretty_N.
  destruct (decide (N.pos p = 0%N)) as [H|_]; [discriminate|].
  pose proof (pretty_N_go_digits (N.pos p) "" (Forall_nil_2 _)) as Hdig.
  destruct (parse_digits_pretty_N_go (N.pos p)) as [k Hk]; [reflexivity|].
  specialize (Hk "" 0 false). cbn [list_ascii_of_string parse_digits] in Hk.
  destruct (list_ascii_of_string (pretty_N_go (N.pos p) "")) as [|c l] eqn:E.
  - cbn in Hk. discriminate.
  - pose proof Hdig as Hdig'. apply Forall_cons in Hdig' as [[d Hd] _].
    exists c, l, d. split; [reflexivity|]. split; [exact Hd|]. split.
    + eapply Forall_impl; [exact Hdig|]. intros c' [d' Hd'].
      eapply digit_not_space. exact Hd'.
    + rewrite Hk. f_equal.
Qed.

(** Reading back a rendered integer gives the integer: [int(str(z))] is
    [z]. *)
Lemma parse_int_render_int (z : Z) : parse_int (render_int z) = Some z.
Proof.
  unfold render_int, pretty, pretty_Z. destruct z as [|p|p].
  - reflexivity.
  - destruct (pretty_pos_chars p) as (c & l & d & Hc & Hd & Hns & Hp).
    unfold pretty, pretty_positive.
    rewrite (parse_int_unsigned _ c l d); [exact Hp | | exact Hd].
    rewrite Hc. apply strip_id. exact Hns.
  - destruct (pretty_pos_chars p) as (c & l & d & Hc & Hd & Hns & Hp).
    unfold pretty, pretty_positive.
    rewrite (parse_int_negative _ (c :: l)); [rewrite Hp; reflexivity|].
    change (list_ascii_of_string ("-" +:+ pretty (N.pos p)))
      with ("-"%char :: list_ascii_of_string (pretty (N.pos p))).
    rewrite Hc. apply strip_id. constructor; [reflexivity | exact Hns].
Qed.

(** X1: the cast of the [Bus_ID] column is idempotent: ids that came out
    of [astype(int).astype(str)] go through it again without an exception
    and unchanged. *)
Theorem astype_int_str_idempotent (ids ids' : list string) :
  astype_int_str ids = inr ids' -> astype_int_str ids' = inr ids'.
Proof.
  unfold astype_int_str.
  destruct (emapM cell_astype_int ids) as [e|zs] eqn:E; [discriminate|].
  cbn [ebind]. intros [= <-]. apply emapM_Forall2 in E.
  assert (Hin : forall z, z ∈ zs -> in_int64 z = true).
  { intros z Hz. apply list_elem_of_lookup in Hz as [i Hi].
    destruct (Forall2_lookup_r _ _ _ _ _ E Hi) as (id & _ & Hid).
    unfold cell_astype_int in Hid. destruct (parse_int id); [|discriminate].
    destruct (in_int64 z0) eqn:Ez; [|discriminate]. injection Hid as <-. exact Ez. }
  rewrite (emapM_inr cell_astype_int (fun s => default 0 (parse_int s)) (render_int <$> zs)).
  - cbn [ebind]. f_equal. rewrite <- !list_fmap_compose.
    apply list_fmap_ext. intros i z Hz. cbn. rewrite parse_int_render_int. reflexivity.
  - intros s Hs. apply list_elem_of_fmap in Hs as (z & -> & Hz).
    unfold cell_astype_int. rewrite parse_int_render_int, (Hin z Hz). reflexivity.
Qed.

End DecimalRoundTrip.

(** ** The constructor, step by step *)

Section ConstructorFacts.
Context {R : NumpyRandom}.
Import Gen.

(** What a successful construction went through. *)
Lemma __init___inv self (g : rng_state) out :
  run (__init__ self) g = inr out ->
  exists pvp profile g1 g2 g3,
    _select_pv_profile self = inr pvp /\
    (if stochastic self then profile = None
     else exists p, _select_profile self = inr p /\ profile = Some p) /\
    _generate_profile_df self profile PLmax_kW g = (inr (active_profile_df out), g1) /\
    (if stochastic self
     then reactive_profile_df out = times_03 (active_profile_df out) /\ g2 = g1
     else _generate_profile_df self profile QLmax_kVar g1
          = (inr (reactive_profile_df out), g2)) /\
    _generate_pv_profile_df self pvp g2 = (inr (pv_profile_df out), g3).
Proof.
  unfold run, __init__.
  destruct (stochastic self) eqn:Hst; cbn [negb].
  - unfold bind at 1. unfold ret at 1. unfold bind at 1. unfold lift at 1.
    destruct (_select_pv_profile self) as [e|pvp]; [discriminate|].
    unfold bind at 1.
    destruct (_generate_profile_df self None PLmax_kW g) as [[e|active] g1] eqn:Ea;
      [discriminate|].
    unfold bind at 1. unfold ret at 1. unfold bind at 1.
    destruct (_generate_pv_profile_df self pvp g1) as [[e|pv] g3] eqn:Ep;
      [discriminate|].
    unfold ret. cbn [fst]. intros [= <-]. cbn.
    exists pvp, None, g1, g1, g3. repeat split; assumption.
  - unfold bind at 1. unfold lift at 1.
    destruct (_select_profile self) as [e|p] eqn:Es; [discriminate|]. cbn [ebind].
    unfold bind at 1. unfold lift at 1.
    destruct (_select_pv_profile self) as [e|pvp]; [discriminate|].
    unfold bind at 1.
    destruct (_generate_profile_df self (Some p) PLmax_kW g) as [[e|active] g1] eqn:Ea;
      [discriminate|].
    unfold bind at 1.
    destruct (_generate_profile_df self (Some p) QLmax_kVar g1) as [[e|reactive] g2] eqn:Er;
      [discriminate|].
    unfold bind at 1.
    destruct (_generate_pv_profile_df self pvp g2) as [[e|pv] g3] eqn:Ep;
      [discriminate|].
    unfold ret. cbn [fst]. intros [= <-]. cbn.
    exists pvp, (Some p), g1, g2, g3. repeat split; eauto.
Qed.

End ConstructorFacts.

(** ** The shape of the profile frames *)

Section FrameShape.
Context {R : NumpyRandom}.
Import Gen.

Variable P : list pyfloat -> Prop.

Lemma set_col_all l v cs : P v -> columns_all P cs -> columns_all P (set_col l v cs).
Proof.
  intros Hv. induction 1 as [|[k w] cs Hw Hcs IH]; cbn.
  - repeat constructor. exact Hv.
  - destruct (String.eqb k l); constructor; assumption.
Qed.

Lemma get_col_all l v cs : columns_all P cs -> get_col l cs = Some v -> P v.
Proof.
  induction 1 as [|[k w] cs Hw Hcs IH]; cbn; [discriminate|].
  destruct (String.eqb k l); [intros [= <-]; exact Hw | exact IH].
Qed.

Lemma select_cols_all labels cs sel :
  columns_all P cs -> select_cols labels cs = inr sel ->
  sel.*1 = labels /\ columns_all P sel.
Proof.
  intros Hcs. unfold select_cols. revert sel.
  induction labels as [|l labels IH]; intros sel; cbn.
  - intros [= <-]. split; [reflexivity | constructor].
  - destruct (get_col l cs) as [v|] eqn:El; [|discriminate]. cbn [ebind].
    destruct (emapM _ labels) as [e|sel']; [discriminate|]. cbn [ebind].
    intros [= <-]. destruct (IH sel' eq_refl) as [Hl Ha]. split.
    + cbn. rewrite Hl. reflexivity.
    + constructor; [|exact Ha]. cbn. exact (get_col_all l v cs Hcs El).
Qed.

Lemma finish_all ids cols fr :
  columns_all P cols -> finish ids cols = inr fr ->
  (columns fr).*1 = hours /\ length (Bus_ID fr) = length ids /\
  columns_all P (columns fr).
Proof.
  intros Hcs. unfold finish.
  destruct (PyInt.astype_int_str ids) as [e|ids'] eqn:Ei; [discriminate|].
  cbn [ebind]. destruct (select_cols hours cols) as [e|sel] eqn:Es; [discriminate|].
  cbn [ebind]. intros [= <-]. cbn.
  destruct (select_cols_all _ _ _ Hcs Es) as [Hl Ha].
  split; [exact Hl|]. split; [|exact Ha].
  apply astype_int_str_cells in Ei. apply Forall2_length in Ei. congruence.
Qed.

(** The hour loop, when every column it writes satisfies [P]. *)
Lemma hour_loop_all self peak hs : forall cols (g : rng_state) cols' g',
  (forall hp, (forall a, hp = inr a -> length a = length peak) ->
              P (scale_column peak hp)) ->
  columns_all P cols ->
  hour_loop self peak hs cols g = (inr cols', g') ->
  columns_all P cols'.
Proof.
  induction hs as [|[h shape] hs IH]; intros cols g cols' g' HP Hcs.
  - cbn. intros [= <- _]. exact Hcs.
  - cbn [hour_loop]. unfold bind at 1.
    destruct (add_noise self).
    + unfold bind at 1, np_random_normal at 1.
      destruct (Qle_bool 0 (noise_level self)); [|cbn; discriminate].
      pose proof (draws_length (normal 1 (noise_level self)) (length peak) g) as Hlen.
      destruct (Np.draws (normal 1 (noise_level self)) (length peak) g) as [noise g1].
      unfold ret at 1. apply IH; [exact HP|].
      apply set_col_all; [|exact Hcs]. apply HP.
      intros a [= <-]. rewrite length_fmap. exact Hlen.
    + unfold ret at 1. apply IH; [exact HP|].
      apply set_col_all; [|exact Hcs]. apply HP. discriminate.
Qed.

End FrameShape.

Section FrameShapeOfResults.
Context {R : NumpyRandom}.
Import Gen.

Lemma draw_rows_length {G A} (draw : G -> A * G) n m g :
  length (Np.draw_rows draw n m g).1 = n.
Proof.
  revert g. induction n as [|n IH]; intros g; cbn; [reflexivity|].
  destruct (Np.draws draw m g) as [r g1]. specialize (IH g1).
  destruct (Np.draw_rows draw n m g1) as [rs g2]. cbn in *. congruence.
Qed.

Lemma fold_set_col_all P base : forall cols,
  columns_all P base -> columns_all P cols ->
  columns_all P (fold_left (fun cols c => set_col c.1 c.2 cols) base cols).
Proof.
  induction base as [|[l v] base IH]; intros cols Hb Hc; [exact Hc|].
  apply Forall_cons in Hb as [Hv Hb]. cbn. apply IH; [exact Hb|].
  apply set_col_all; assumption.
Qed.

Lemma quantile_columns_all P stats U js base :
  (forall row j, P ((fun Ui => Fin (sample_quantile row (nth j Ui 0%Q))) <$> U)) ->
  emapM (quantile_column stats U) js = inr base -> columns_all P base.
Proof.
  intros HP. revert base. induction js as [|[j h] js IH]; intros base; cbn.
  - intros [= <-]. constructor.
  - unfold quantile_column at 1. cbn [fst snd].
    destruct (stats_row stats h) as [row|]; [|discriminate]. cbn [ebind].
    destruct (emapM (quantile_column stats U) js) as [e|base']; [discriminate|].
    cbn [ebind]. intros [= <-]. constructor; [apply HP | apply IH; reflexivity].
Qed.

Lemma stochastic_columns_all P self n (g : rng_state) cols g' :
  (forall row j U, length U = n ->
     P ((fun Ui => Fin (sample_quantile row (nth j Ui 0%Q))) <$> U)) ->
  stochastic_columns self n g = (inr cols, g') -> columns_all P cols.
Proof.
  intros HP. unfold stochastic_columns.
  unfold bind at 1. unfold np_random_seed.
  destruct (legal_seed (seed self)); [|discriminate]. unfold put.
  unfold bind at 1. unfold lift at 1.
  destruct (df_stats self) as [stats|]; [|discriminate].
  unfold bind at 1. unfold np_random_uniform.
  pose proof (draw_rows_length uniform01 n (length (hour <$> stats)) (seeded (seed self)))
    as Hlen.
  destruct (Np.draw_rows uniform01 n (length (hour <$> stats)) (seeded (seed self)))
    as [U g1].
  unfold bind at 1. unfold lift at 1.
  destruct (emapM (quantile_column stats U) (enumerate (hour <$> stats)))
    as [e|base] eqn:Eb; [discriminate|].
  destruct (bool_decide (NoDup (hour <$> stats))); [|discriminate].
  unfold ret. intros [= <- _].
  apply fold_set_col_all; [|constructor].
  eapply quantile_columns_all; [|exact Eb].
  intros row j. apply HP. exact Hlen.
Qed.

(** Every column of a frame returned by [_generate_profile_df] satisfies a
    property that the columns written by either branch satisfy. *)
Lemma _generate_profile_df_all P self profile power (g : rng_state) fr :
  (forall peak hp, (forall a, hp = inr a -> length a = length peak) ->
     length peak = length (df self) -> P (scale_column peak hp)) ->
  (forall row j U, length U = length (df self) ->
     P ((fun Ui => Fin (sample_quantile row (nth j Ui 0%Q))) <$> U)) ->
  run (_generate_profile_df self profile power) g = inr fr ->
  (columns fr).*1 = hours /\ length (Bus_ID fr) = length (df self) /\
  columns_all P (columns fr).
Proof.
  intros Hdet Hsto. unfold run, _generate_profile_df.
  unfold bind at 1. unfold np_random_seed.
  destruct (legal_seed (seed self)); [|discriminate]. unfold put.
  unfold bind at 1.
  assert (Hcols : forall cols g1,
            (if stochastic self
             then stochastic_columns self (length (df self))
             else match profile with
                  | Some p => hour_loop self (peak_of power <$> df self) (zip hours p) []
                  | None => raise (TypeError "'NoneType' object is not subscriptable")
                  end) (seeded (seed self)) = (inr cols, g1) ->
            columns_all P cols).
  { intros cols g1. destruct (stochastic self).
    - apply stochastic_columns_all. exact Hsto.
    - destruct profile as [p|]; [|discriminate].
      intros Hrun. eapply hour_loop_all; [| |exact Hrun].
      + intros hp Hhp. apply Hdet; [exact Hhp | apply length_fmap].
      + constructor. }
  match goal with |- context [match ?c with _ => _ end] =>
    destruct c as [[e|cols] g1] eqn:Ec end; [discriminate|].
  unfold lift. cbn [fst]. intros Hf.
  destruct (finish_all P _ _ _ (Hcols _ _ eq_refl) Hf) as (Hl & Hn & Ha).
  rewrite length_fmap in Hn. auto.
Qed.

Lemma _generate_pv_profile_df_all P self pvp (g : rng_state) fr :
  (forall peak hp, (forall a, hp = inr a -> length a = length peak) ->
     length peak = length (df self) -> P (scale_column peak hp)) ->
  run (_generate_pv_profile_df self pvp) g = inr fr ->
  (columns fr).*1 = hours /\ length (Bus_ID fr) = length (df self) /\
  columns_all P (columns fr).
Proof.
  intros Hdet. unfold run, _generate_pv_profile_df. unfold bind at 1.
  destruct (hour_loop self (lp_Pg <$> df self) (zip hours pvp) [] g)
    as [[e|cols'] g'] eqn:Hrun; [discriminate|].
  assert (Hall : columns_all P cols').
  { eapply hour_loop_all; [| |exact Hrun].
    - intros hp Hhp. apply Hdet; [exact Hhp | apply length_fmap].
    - constructor. }
  unfold lift. cbn [fst]. intros Hf.
  destruct (finish_all P _ _ _ Hall Hf) as (Hl & Hn & Ha).
  rewrite length_fmap in Hn. auto.
Qed.

Lemma scale_column_length peak hp :
  (forall a, hp = inr a -> length a = length peak) ->
  length (scale_column peak hp) = length peak.
Proof.
  destruct hp as [c|a]; cbn; intros H.
  - apply length_fmap.
  - rewrite length_zip_with, length_fmap, (H a eq_refl). lia.
Qed.

Lemma times_03_well_shaped n fr : well_shaped n fr -> well_shaped n (times_03 fr).
Proof.
  intros (Hl & Hn & Hc). unfold well_shaped, times_03. cbn [columns Bus_ID].
  split; [|split; [exact Hn|]].
  - rewrite <- Hl, <- list_fmap_compose. reflexivity.
  - apply Forall_fmap. eapply Forall_impl; [exact Hc|].
    intros [l v] Hv. cbn in *. rewrite length_fmap. exact Hv.
Qed.

Lemma __init___well_shaped self (g : rng_state) out :
  run (__init__ self) g = inr out ->
  well_shaped (length (df self)) (active_profile_df out) /\
  well_shaped (length (df self)) (reactive_profile_df out) /\
  well_shaped (length (df self)) (pv_profile_df out).
Proof.
  intros Hrun.
  destruct (__init___inv self g out Hrun)
    as (pvp & profile & g1 & g2 & g3 & _ & _ & Ha & Hr & Hp).
  set (P := fun c : list pyfloat => length c = length (df self)).
  assert (Hdet : forall peak hp, (forall a, hp = inr a -> length a = length peak) ->
            length peak = length (df self) -> P (scale_column peak hp)).
  { intros peak hp Hhp Hn. unfold P. rewrite scale_column_length; assumption. }
  assert (Hsto : forall (row : quantile_row) (j : nat) (U : list (list Q)),
            length U = length (df self) ->
            P ((fun Ui => Fin (sample_quantile row (nth j Ui 0%Q))) <$> U)).
  { intros row j U HU. unfold P. rewrite length_fmap. exact HU. }
  assert (Hact : well_shaped (length (df self)) (active_profile_df out)).
  { destruct (_generate_profile_df_all P self profile PLmax_kW g (active_profile_df out) Hdet Hsto)
      as (H1 & H2 & H3); [unfold run; rewrite Ha; reflexivity|].
    repeat split; assumption. }
  split; [exact Hact|]. split.
  - destruct (stochastic self).
    + destruct Hr as [-> _]. apply times_03_well_shaped. exact Hact.
    + destruct (_generate_profile_df_all P self profile QLmax_kVar g1 (reactive_profile_df out) Hdet Hsto)
        as (H1 & H2 & H3); [unfold run; rewrite Hr; reflexivity|].
      repeat split; assumption.
  - destruct (_generate_pv_profile_df_all P self pvp g2 (pv_profile_df out) Hdet)
      as (H1 & H2 & H3); [unfold run; rewrite Hp; reflexivity|].
    repeat split; assumption.
Qed.

(** X2: whatever the mode, the three frames a successful construction
    returns are rectangular and complete: the columns are labelled
    "00:00" .. "23:00" in this order, and the [Bus_ID] column and every hour
    column hold one entry per row of the load table. *)
Theorem profiles_well_shaped (self : generator) (g : rng_state) (out : profiles_out) :
  run (__init__ self) g = inr out ->
  well_shaped (length (df self)) (active_profile_df out) /\
  well_shaped (length (df self)) (reactive_profile_df out) /\
  well_shaped (length (df self)) (pv_profile_df out).
Proof.
  exact (__init___well_shaped self g out).
Qed.

End FrameShapeOfResults.

(** ** Bounds of the deterministic values *)

Section DeterministicBounds.
Context {R : NumpyRandom}.
Import Gen.

Lemma lookup_profile_unit name tbl p :
  forallb (fun e : string * list Q => unit_curve e.2) tbl = true ->
  lookup_profile name tbl = Some p -> unit_curve p = true.
Proof.
  induction tbl as [|[k v] tbl IH]; cbn; [discriminate|].
  intros H. apply andb_true_iff in H as [Hv Ht].
  destruct (String.eqb k name); [intros [= <-]; exact Hv | apply IH; exact Ht].
Qed.

Lemma unit_curve_lookup p h shape :
  unit_curve p = true -> p !! h = Some shape -> (0 <= shape)%Q /\ (shape <= 1)%Q.
Proof.
  unfold unit_curve. rewrite forallb_forall. intros H Hh.
  specialize (H shape). rewrite andb_true_iff, !Qle_bool_iff in H. apply H.
  apply list_elem_of_In. eapply list_elem_of_lookup_2. exact Hh.
Qed.

Lemma _select_profile_unit self p : _select_profile self = inr p -> unit_curve p = true.
Proof.
  unfold _select_profile.
  destruct (lookup_profile (profile_type self) profiles) eqn:E; [|discriminate].
  intros [= <-]. eapply lookup_profile_unit; [|exact E]. vm_compute. reflexivity.
Qed.

Lemma _select_pv_profile_unit self p :
  _select_pv_profile self = inr p -> unit_curve p = true.
Proof.
  unfold _select_pv_profile.
  destruct (lookup_profile (pv_profile_type self) pv_profile_table) eqn:E; [|discriminate].
  intros [= <-]. eapply lookup_profile_unit; [|exact E]. vm_compute. reflexivity.
Qed.

Lemma hour_factor_unit self (g : rng_state) nh n shape k i :
  (0 <= shape)%Q -> (shape <= 1)%Q ->
  (0 <= hour_factor self g nh n shape k i)%Q /\
  (hour_factor self g nh n shape k i <= 1)%Q.
Proof.
  intros H0 H1. unfold hour_factor. destruct (add_noise self).
  - apply clip_bounds. discriminate.
  - split; assumption.
Qed.

(** A loop that ran through at least one hour drew its noise with a scale
    [np.random.normal] accepts. *)
Lemma hour_loop_noise_legal self peak hs cols (g g' : rng_state) cols' :
  hs <> [] -> hour_loop self peak hs cols g = (inr cols', g') ->
  add_noise self = true -> (0 <= noise_level self)%Q.
Proof.
  destruct hs as [|[h shape] hs]; [contradiction|]. intros _.
  cbn [hour_loop]. unfold bind at 1. intros Hrun Hn. rewrite Hn in Hrun.
  unfold bind at 1, np_random_normal at 1 in Hrun.
  destruct (Qle_bool 0 (noise_level self)) eqn:E; [|cbn in Hrun; discriminate].
  apply Qle_bool_iff. exact E.
Qed.

(** The cells of a frame the hour loop produced. *)
Lemma loop_frame_cells self peak p ids (g g' : rng_state) fr :
  length p = 24%nat ->
  (let! cols := hour_loop self peak (zip hours p) [] in lift (finish ids cols)) g
    = (inr fr, g') ->
  forall h i pk shape, p !! h = Some shape -> peak !! i = Some pk ->
    cell fr (hour_label h) i
    = Some (fmul pk (Fin (hour_factor self g 24 (length peak) shape h i))).
Proof.
  intros Hlen Hrun.
  assert (Hnoise : add_noise self = true -> (0 <= noise_level self)%Q).
  { unfold bind in Hrun.
    destruct (hour_loop self peak (zip hours p) [] g) as [[e|cols] g1] eqn:E;
      [discriminate|].
    eapply hour_loop_noise_legal; [|exact E].
    intros Hz. apply (f_equal length) in Hz.
    rewrite length_zip_with, Hlen in Hz. vm_compute in Hz. discriminate. }
  assert (Hids : PyInt.astype_int_str ids = inr (Bus_ID fr)).
  { unfold bind in Hrun. destruct (hour_loop self peak (zip hours p) [] g) as [[e|cols] g1];
      [discriminate|].
    unfold lift in Hrun. injection Hrun as Hf _. eapply finish_Bus_ID. exact Hf. }
  destruct (loop_then_finish self peak p ids (Bus_ID fr) g Hnoise Hlen Hids)
    as (fr' & g'' & Hrun' & _ & Hcells).
  rewrite Hrun in Hrun'. injection Hrun' as <- _.
  intros h i pk shape Hp Hi.
  destruct (Hcells h i pk shape Hp Hi) as (col & Hcol & Hc).
  unfold cell. rewrite Hcol. exact Hc.
Qed.

Lemma deterministic_cells self p power (g g' : rng_state) fr :
  stochastic self = false -> length p = 24%nat ->
  _generate_profile_df self (Some p) power g = (inr fr, g') ->
  forall h i lp shape, p !! h = Some shape -> df self !! i = Some lp ->
    cell fr (hour_label h) i
    = Some (fmul (peak_of power lp)
              (Fin (hour_factor self (seeded (seed self)) 24 (length (df self)) shape h i))).
Proof.
  intros Hst Hlen Hrun h i lp shape Hp Hi.
  unfold _generate_profile_df in Hrun. rewrite Hst in Hrun.
  unfold bind at 1 in Hrun. unfold np_random_seed in Hrun.
  destruct (legal_seed (seed self)); [|discriminate]. unfold put in Hrun.
  rewrite (loop_frame_cells self _ p _ _ _ fr Hlen Hrun h i (peak_of power lp) shape Hp).
  - rewrite length_fmap. reflexivity.
  - rewrite list_lookup_fmap, Hi. reflexivity.
Qed.

Lemma pv_cells self pvp (g g' : rng_state) fr :
  length pvp = 24%nat ->
  _generate_pv_profile_df self pvp g = (inr fr, g') ->
  forall h i lp shape, pvp !! h = Some shape -> df self !! i = Some lp ->
    cell fr (hour_label h) i
    = Some (fmul (lp_Pg lp)
              (Fin (hour_factor self g 24 (length (df self)) shape h i))).
Proof.
  intros Hlen Hrun h i lp shape Hp Hi.
  unfold _generate_pv_profile_df in Hrun.
  rewrite (loop_frame_cells self _ pvp _ _ _ fr Hlen Hrun h i (lp_Pg lp) shape Hp).
  - rewrite length_fmap. reflexivity.
  - rewrite list_lookup_fmap, Hi. reflexivity.
Qed.

Lemma scaled_between p f :
  (0 <= p)%Q -> (0 <= f)%Q -> (f <= 1)%Q -> between 0 p (fmul (Fin p) (Fin f)).
Proof.
  intros Hp H0 H1. exists (p * f)%Q. split; [reflexivity|]. split; nra.
Qed.

(** X3: the generation profile never leaves the band between zero and the
    installed power: in both modes, with or without noise, for a load point
    whose [Pg] is a non-negative number every hourly value is a number
    between 0 and [Pg]. *)
Theorem pv_profile_within_peak (self : generator) (g : rng_state)
  (out : profiles_out) (h i : nat) (lp : load_point) (p : Q) :
  run (__init__ self) g = inr out ->
  (h < 24)%nat -> df self !! i = Some lp -> lp_Pg lp = Fin p -> (0 <= p)%Q ->
  exists x, cell (pv_profile_df out) (hour_label h) i = Some x /\ between 0 p x.
Proof.
  intros Hrun Hh Hi HPg Hp.
  destruct (__init___inv self g out Hrun)
    as (pvp & profile & g1 & g2 & g3 & Hsel & _ & _ & _ & Hpv).
  pose proof (_select_pv_profile_length self pvp Hsel) as Hlen.
  destruct (lookup_lt_is_Some_2 pvp h) as [shape Hshape]; [lia|].
  destruct (unit_curve_lookup pvp h shape (_select_pv_profile_unit _ _ Hsel) Hshape)
    as [H0 H1].
  rewrite (pv_cells self pvp g2 g3 _ Hlen Hpv h i lp shape Hshape Hi), HPg.
  eexists. split; [reflexivity|].
  destruct (hour_factor_unit self g2 24 (length (df self)) shape h i H0 H1).
  apply scaled_between; assumption.
Qed.

(** X4: in deterministic mode the active and the reactive frame are built
    with the same factors: both syntheses reseed, so at every load point and
    hour the active value is [PLmax * f] and the reactive value is
    [QLmax * f] for one and the same [f] in [0, 1] (the archetype value, or
    with noise the same clipped noisy value). *)
Theorem active_reactive_share_factor (self : generator) (g : rng_state)
  (out : profiles_out) (h i : nat) (lp : load_point) :
  run (__init__ self) g = inr out ->
  stochastic self = false ->
  (h < 24)%nat -> df self !! i = Some lp ->
  exists f, (0 <= f)%Q /\ (f <= 1)%Q /\
    cell (active_profile_df out) (hour_label h) i
      = Some (fmul (lp_PLmax lp) (Fin f)) /\
    cell (reactive_profile_df out) (hour_label h) i
      = Some (fmul (lp_QLmax lp) (Fin f)).
Proof.
  intros Hrun Hst Hh Hi.
  destruct (__init___inv self g out Hrun)
    as (pvp & profile & g1 & g2 & g3 & _ & Hprof & Ha & Hr & _).
  rewrite Hst in Hprof, Hr. destruct Hprof as (p & Hsel & ->).
  pose proof (_select_profile_length self p Hsel) as Hlen.
  destruct (lookup_lt_is_Some_2 p h) as [shape Hshape]; [lia|].
  destruct (unit_curve_lookup p h shape (_select_profile_unit _ _ Hsel) Hshape)
    as [H0 H1].
  exists (hour_factor self (seeded (seed self)) 24 (length (df self)) shape h i).
  destruct (hour_factor_unit self (seeded (seed self)) 24 (length (df self)) shape h i H0 H1)
    as [Hf0 Hf1].
  split; [exact Hf0|]. split; [exact Hf1|]. split.
  - exact (deterministic_cells self p PLmax_kW g g1 _ Hst Hlen Ha h i lp shape Hshape Hi).
  - exact (deterministic_cells self p QLmax_kVar g1 g2 _ Hst Hlen Hr h i lp shape Hshape Hi).
Qed.

End DeterministicBounds.

(** ** Archetype names *)

Section ArchetypeNames.
Context {R : NumpyRandom}.
Import Gen.

Lemma lookup_profile_None name tbl :
  name ∉ tbl.*1 -> lookup_profile name tbl = None.
Proof.
  induction tbl as [|[k v] tbl IH]; cbn; [reflexivity|].
  intros Hn. apply not_elem_of_cons in Hn as [Hne Hn].
  destruct (String.eqb k name) eqn:E; [|apply IH; exact Hn].
  apply String.eqb_eq in E. congruence.
Qed.

Lemma lookup_profile_Some name tbl :
  name ∈ tbl.*1 -> is_Some (lookup_profile name tbl).
Proof.
  induction tbl as [|[k v] tbl IH]; cbn; [intros H; inversion H|].
  intros Hn. destruct (String.eqb k name) eqn:E; [eauto|].
  apply elem_of_cons in Hn as [->|Hn]; [|apply IH; exact Hn].
  rewrite String.eqb_refl in E. discriminate.
Qed.

(** X5: an unknown archetype name makes the constructor raise
    [ValueError] before anything is drawn (the generator state is left
    untouched) and no frame is built on a fallback curve: in deterministic
    mode for a load archetype outside the five known names, and in any mode
    for a generation archetype outside "summer", "winter", "night" (the load
    archetype being checked first). *)
Theorem unknown_archetype_raises (self : generator) (g : rng_state) :
  (stochastic self = false ->
   profile_type self ∉ profiles.*1 ->
   __init__ self g = (inl (ValueError ("Profil inconnu : " +:+ profile_type self)), g)) /\
  (pv_profile_type self ∉ pv_profile_table.*1 ->
   stochastic self = true \/ profile_type self ∈ profiles.*1 ->
   __init__ self g = (inl (ValueError ("Profil inconnu : " +:+ pv_profile_type self)), g)).
Proof.
  split.
  - intros Hst Hn. unfold __init__. rewrite Hst. cbn [negb].
    unfold bind at 1. unfold lift at 1. unfold _select_profile.
    rewrite (lookup_profile_None _ _ Hn). reflexivity.
  - intros Hn Hok. unfold __init__.
    assert (Hpv : _select_pv_profile self
                  = inl (ValueError ("Profil inconnu : " +:+ pv_profile_type self))).
    { unfold _select_pv_profile. rewrite (lookup_profile_None _ _ Hn). reflexivity. }
    destruct (stochastic self) eqn:Hst; cbn [negb].
    + unfold bind at 1. unfold ret at 1. unfold bind at 1. unfold lift at 1.
      rewrite Hpv. reflexivity.
    + destruct Hok as [Hok|Hok]; [discriminate|].
      unfold bind at 1. unfold lift at 1. unfold _select_profile.
      destruct (lookup_profile_Some _ _ Hok) as [p ->]. cbn [ebind].
      unfold bind at 1. unfold lift at 1. rewrite Hpv. reflexivity.
Qed.

End ArchetypeNames.

(** ** Stochastic mode *)

Section StochasticMode.
Context {R : NumpyRandom}.
Import Gen.

(** X6: in stochastic mode the synthesized load frame is a function of
    the bus ids, the quantile table and the seed alone: the load archetype
    name is never looked up (an unknown name is accepted), and the peak
    values, the power column and the generator state found play no part. *)
Theorem stochastic_frame_ignores_archetype_and_peaks (self : generator)
  (name : string) (rows : list load_point)
  (profile profile' : option (list Q)) (power power' : power_col)
  (g g' : rng_state) :
  stochastic self = true ->
  lp_Bus_ID <$> rows = lp_Bus_ID <$> df self ->
  run (_generate_profile_df (with_df (with_profile_type self name) rows) profile' power') g'
  = run (_generate_profile_df self profile power) g.
Proof.
  intros Hst Hids.
  assert (Hlen : length rows = length (df self)).
  { rewrite <- (length_fmap lp_Bus_ID rows), Hids. apply length_fmap. }
  unfold run, _generate_profile_df. cbn [with_df with_profile_type stochastic seed df].
  rewrite Hst, Hids, Hlen. unfold bind at 1 3. unfold np_random_seed.
  destruct (legal_seed (seed self)); reflexivity.
Qed.

Lemma stochastic_frame_all P self profile power (g : rng_state) fr :
  stochastic self = true ->
  (forall row j U, P ((fun Ui => Fin (sample_quantile row (nth j Ui 0%Q))) <$> U)) ->
  run (_generate_profile_df self profile power) g = inr fr ->
  columns_all P (columns fr).
Proof.
  intros Hst HP. unfold run, _generate_profile_df. rewrite Hst.
  unfold bind at 1. unfold np_random_seed.
  destruct (legal_seed (seed self)); [|discriminate]. unfold put.
  unfold bind at 1.
  destruct (stochastic_columns self (length (df self)) (seeded (seed self)))
    as [[e|cols] g1] eqn:Ec; [discriminate|].
  unfold lift. cbn [fst]. intros Hf.
  eapply finish_all; [|exact Hf].
  eapply stochastic_columns_all; [|exact Ec]. intros row j U _. apply HP.
Qed.

Lemma cell_all P fr h i x :
  columns_all (Forall P) (columns fr) -> cell fr h i = Some x -> P x.
Proof.
  intros Hall. unfold cell. destruct (get_col h (columns fr)) as [col|] eqn:E;
    [|discriminate].
  intros Hx. pose proof (get_col_all (Forall P) _ _ _ Hall E) as Hcol.
  rewrite Forall_forall in Hcol. apply Hcol. eapply list_elem_of_lookup_2. exact Hx.
Qed.

Lemma cell_times_03 fr h i :
  cell (times_03 fr) h i = (fun v => fmul v (Fin (3 # 10))) <$> cell fr h i.
Proof.
  unfold cell, times_03. cbn [columns].
  induction (columns fr) as [|[l v] cs IH]; cbn; [reflexivity|].
  destruct (String.eqb l h); [|exact IH].
  rewrite list_lookup_fmap. reflexivity.
Qed.

(** X7: in stochastic mode, for a quantile table whose breakpoints are
    all numbers (no blank cell), every value of the active frame is a
    non-negative number, whatever the sign and the order of the breakpoints,
    and the reactive frame is the active frame times 0.3, cell by cell. *)
Theorem stochastic_values_non_negative (self : generator) (g : rng_state)
  (out : profiles_out) :
  run (__init__ self) g = inr out ->
  stochastic self = true ->
  (forall h i x, cell (active_profile_df out) h i = Some x -> non_negative x) /\
  (forall h i, cell (reactive_profile_df out) h i
               = (fun v => fmul v (Fin (3 # 10))) <$> cell (active_profile_df out) h i) /\
  (forall h i x, cell (reactive_profile_df out) h i = Some x -> non_negative x).
Proof.
  intros Hrun Hst.
  destruct (__init___inv self g out Hrun)
    as (pvp & profile & g1 & g2 & g3 & _ & _ & Ha & Hr & _).
  rewrite Hst in Hr. destruct Hr as [Hr _].
  assert (Hact : forall h i x, cell (active_profile_df out) h i = Some x -> non_negative x).
  { intros h i x. apply cell_all.
    eapply (stochastic_frame_all (Forall non_negative) self profile PLmax_kW g);
      [exact Hst | | unfold run; rewrite Ha; reflexivity].
    intros row j U. apply Forall_fmap, Forall_forall. intros Ui _.
    eexists. split; [reflexivity|]. unfold sample_quantile, clip_lo. apply Q.le_max_r. }
  split; [exact Hact|]. split.
  - intros h i. rewrite Hr. apply cell_times_03.
  - intros h i x. rewrite Hr, cell_times_03.
    destruct (cell (active_profile_df out) h i) as [y|] eqn:Ey; [|discriminate].
    cbn. intros [= <-]. destruct (Hact h i y Ey) as (v & -> & Hv).
    eexists. split; [reflexivity|]. nra.
Qed.

End StochasticMode.

(** ** Repopulating the network *)

Section Population.
Import LoadFlow.

Lemma net_ext (n m : pandapowerNet) :
  topology n = topology m -> load n = load m -> gen n = gen m -> n = m.
Proof.
  destruct n, m. unfold topology. cbn. intros [= -> -> -> -> ->] -> ->. reflexivity.
Qed.

Lemma state_ext (s t : state) : net s = net t -> buses s = buses t -> s = t.
Proof. destruct s, t. cbn. intros -> ->. reflexivity. Qed.

(** Whether it succeeds or raises, the per-hour population changes nothing
    but the load table. *)
Lemma set_hourly_loads_frame hour P_df Q_df PV_df s :
  buses (set_hourly_loads hour P_df Q_df PV_df s).2 = buses s /\
  gen (net (set_hourly_loads hour P_df Q_df PV_df s).2) = gen (net s) /\
  topology (net (set_hourly_loads hour P_df Q_df PV_df s).2) = topology (net s).
Proof.
  destruct (set_hourly_loads hour P_df Q_df PV_df s) as [res s'] eqn:E.
  cbn [snd]. revert E.
  unfold set_hourly_loads. unfold bind at 1. unfold _clear_loads, modify.
  unfold bind at 1. unfold lift at 1.
  destruct (hour_rows P_df hour) as [e|a]; [intros [= <- <-]; repeat split|].
  unfold bind at 1. unfold lift at 1.
  destruct (hour_rows Q_df hour) as [e|r]; [intros [= <- <-]; repeat split|].
  unfold bind at 1. unfold lift at 1.
  destruct (hour_rows PV_df hour) as [e|p]; [intros [= <- <-]; repeat split|].
  match goal with |- context [_create_loads _ ?s1] =>
    destruct (_create_loads_spec (hourly_specs a r p) s1) as (s2 & Hrun & Hb & _ & Hg & Ht) end.
  rewrite Hrun. intros [= <- <-]. cbn in Hb, Hg, Ht. repeat split; assumption.
Qed.

(** X8: the last population wins. Populating an hour after any earlier
    population, successful or not, gives exactly the result and the network
    of populating that hour directly: the earlier call leaves no trace. *)
Theorem set_hourly_loads_overrides (hour hour' : string)
  (P_df Q_df PV_df P_df' Q_df' PV_df' : Gen.frame) (s : state) :
  set_hourly_loads hour P_df Q_df PV_df
    (set_hourly_loads hour' P_df' Q_df' PV_df' s).2
  = set_hourly_loads hour P_df Q_df PV_df s.
Proof.
  destruct (set_hourly_loads_frame hour' P_df' Q_df' PV_df' s) as (Hb & Hg & Ht).
  set (s1 := (set_hourly_loads hour' P_df' Q_df' PV_df' s).2) in *.
  assert (Hclear : _clear_loads s1 = _clear_loads s).
  { unfold _clear_loads, modify. f_equal. apply state_ext; [|exact Hb].
    apply net_ext; [|reflexivity|exact Hg]. exact Ht. }
  unfold set_hourly_loads. unfold bind at 1 5. rewrite Hclear. reflexivity.
Qed.

Lemma omap_attach_gen_cons d r rows :
  omap (attach_gen d) (r :: rows) =
  match dict_get (gs_bus r) d with
  | Some b => {| gen_bus := b; gen_p_mw := fmul (Fin (-1)) (gs_p_mw r);
                 gen_vm_pu := gs_vm_pu r; gen_scaling := gs_scaling_factor r;
                 gen_in_service := gs_in_service r; gen_name := gs_ID r |}
                :: omap (attach_gen d) rows
  | None => omap (attach_gen d) rows
  end.
Proof. unfold attach_gen at 1. cbn. destruct (dict_get (gs_bus r) d); reflexivity. Qed.

Lemma create_gens_loop rows : forall s,
  exists s',
    for_each rows (fun row =>
      let bus_key := gs_bus row in
      let! s := get in
      match dict_get bus_key (buses s) with
      | None => ret tt
      | Some b =>
          pp_create_gen {| gen_bus := b; gen_p_mw := fmul (Fin (-1)) (gs_p_mw row);
                           gen_vm_pu := gs_vm_pu row;
                           gen_scaling := gs_scaling_factor row;
                           gen_in_service := gs_in_service row;
                           gen_name := gs_ID row |}
      end) s = (inr tt, s') /\
    buses s' = buses s /\
    gen (net s') = gen (net s) ++ omap (attach_gen (buses s)) rows /\
    load (net s') = load (net s) /\
    topology (net s') = topology (net s).
Proof.
  induction rows as [|r rows IH]; intros s.
  - exists s. cbn. rewrite app_nil_r. repeat split; reflexivity.
  - rewrite for_each_cons, omap_attach_gen_cons. unfold bind at 1, get at 1.
    destruct (dict_get (gs_bus r) (buses s)) as [b|] eqn:E.
    + unfold pp_create_gen at 1, modify at 1.
      match goal with |- context [for_each rows _ ?s1] =>
        destruct (IH s1) as (s' & Hrun & Hb & Hg & Hl & Ht) end.
      exists s'. split; [exact Hrun|]. cbn in Hb, Hg, Hl, Ht.
      repeat split; try assumption.
      rewrite Hg, <- app_assoc. reflexivity.
    + unfold ret at 1. destruct (IH s) as (s' & Hrun & Hb & Hg & Hl & Ht).
      exists s'. repeat split; assumption.
Qed.

(** X9: [set_generation_mw] replaces the generators: it never raises,
    drops every generator present before, creates one generator per
    production row whose bus is known (rows naming an unknown bus are
    skipped) with the sign of the power flipped, and leaves loads, buses,
    lines and reference point as they were. *)
Theorem set_generation_mw_replaces_generators (production : list gen_spec) (s : state) :
  exists s', set_generation_mw production s = (inr tt, s') /\
    gen (net s') = omap (attach_gen (buses s)) production /\
    load (net s') = load (net s) /\
    topology (net s') = topology (net s) /\
    buses s' = buses s.
Proof.
  unfold set_generation_mw, _create_generators.
  unfold bind at 1. unfold _clear_generators, modify.
  match goal with |- context [for_each production _ ?s1] =>
    destruct (create_gens_loop production s1) as (s' & Hrun & Hb & Hg & Hl & Ht) end.
  exists s'. split; [exact Hrun|]. cbn in Hb, Hg, Hl, Ht.
  repeat split; assumption.
Qed.

End Population.


(** ** One cast for the three frames *)

Section SharedIds.
Context {R : NumpyRandom}.
Import Gen.

(** The three frames of a construction carry the same [Bus_ID] column: the
    cast of the ids of the load table. *)
Lemma __init___Bus_ID self (g : rng_state) out :
  run (__init__ self) g = inr out ->
  exists ids', PyInt.astype_int_str (lp_Bus_ID <$> df self) = inr ids' /\
    Bus_ID (active_profile_df out) = ids' /\
    Bus_ID (reactive_profile_df out) = ids' /\
    Bus_ID (pv_profile_df out) = ids'.
Proof.
  intros Hrun.
  destruct (__init___inv self g out Hrun)
    as (pvp & profile & g1 & g2 & g3 & _ & _ & Ha & Hr & Hp).
  destruct (_generate_profile_df_finish self profile PLmax_kW g (active_profile_df out))
    as [ca Hca].
  { unfold run. rewrite Ha. reflexivity. }
  destruct (_generate_pv_profile_df_finish self pvp g2 (pv_profile_df out)) as [cp Hcp].
  { unfold run. rewrite Hp. reflexivity. }
  apply finish_Bus_ID in Hca, Hcp.
  exists (Bus_ID (active_profile_df out)). split; [exact Hca|]. split; [reflexivity|].
  split; [|congruence].
  destruct (stochastic self).
  - destruct Hr as [-> _]. reflexivity.
  - destruct (_generate_profile_df_finish self profile QLmax_kVar g1 (reactive_profile_df out))
      as [cr Hcr].
    { unfold run. rewrite Hr. reflexivity. }
    apply finish_Bus_ID in Hcr. congruence.
Qed.

End SharedIds.

(** ** Populating the hours of a synthesized day *)

Section HourlyPopulation.
Context {R : NumpyRandom}.
Import LoadFlow.

Lemma get_col_None h cs : h ∉ cs.*1 -> Gen.get_col h cs = None.
Proof.
  induction cs as [|[l v] cs IH]; intros Hh; [reflexivity|].
  cbn in Hh. apply not_elem_of_cons in Hh as [Hne Hh]. cbn.
  destruct (String.eqb l h) eqn:E.
  - apply String.eqb_eq in E. congruence.
  - apply IH. exact Hh.
Qed.

Lemma get_col_Some h cs :
  h ∈ cs.*1 -> exists v, Gen.get_col h cs = Some v /\ (h, v) ∈ cs.
Proof.
  induction cs as [|[l v] cs IH]; intros Hh; [inversion Hh|].
  cbn. destruct (String.eqb l h) eqn:E.
  - apply String.eqb_eq in E. subst. exists v. split; [reflexivity | left].
  - cbn in Hh. apply elem_of_cons in Hh as [->|Hh].
    { rewrite String.eqb_refl in E. discriminate. }
    destruct (IH Hh) as (w & Hw & Hin). exists w. split; [exact Hw | right; exact Hin].
Qed.

Lemma hour_rows_present n fr h :
  well_shaped n fr -> h ∈ Gen.hours ->
  exists rows, hour_rows fr h = inr rows /\ rows.*1 = Gen.Bus_ID fr /\ length rows = n.
Proof.
  intros (Hl & Hn & Hc) Hh. rewrite <- Hl in Hh.
  destruct (get_col_Some h _ Hh) as (v & Hv & Hin).
  unfold hour_rows. rewrite Hv. exists (zip (Gen.Bus_ID fr) v).
  rewrite Forall_forall in Hc. specialize (Hc _ Hin). cbn in Hc.
  split; [reflexivity|]. split.
  - apply fst_zip. lia.
  - rewrite length_zip_with. lia.
Qed.

Lemma hour_rows_absent n fr h :
  well_shaped n fr -> h ∉ Gen.hours -> hour_rows fr h = inl (KeyError h).
Proof.
  intros (Hl & _) Hh. rewrite <- Hl in Hh.
  unfold hour_rows. rewrite (get_col_None _ _ Hh). reflexivity.
Qed.

Lemma hour_label_in_hours n : (n < 24)%nat -> Gen.hour_label n ∈ Gen.hours.
Proof.
  intros Hn. unfold Gen.hours. apply list_elem_of_fmap. exists n.
  split; [reflexivity|]. apply elem_of_seq. lia.
Qed.

Lemma length_omap_attach_le d specs :
  (length (omap (attach d) specs) <= length specs)%nat.
Proof.
  induction specs as [|r specs IH]; [reflexivity|].
  rewrite omap_attach_cons. destruct (dict_get (ls_bus r) d); cbn; lia.
Qed.

Lemma length_omap_attach_all d specs :
  Forall (fun r => is_Some (dict_get (ls_bus r) d)) specs ->
  length (omap (attach d) specs) = length specs.
Proof.
  induction 1 as [|r specs [b Hb] _ IH]; [reflexivity|].
  rewrite omap_attach_cons, Hb. cbn. lia.
Qed.

Lemma hourly_specs_keys a r p :
  ls_bus <$> hourly_specs a r p = a.*1 ++ r.*1 ++ p.*1.
Proof.
  unfold hourly_specs. rewrite !fmap_app, <- !list_fmap_compose. reflexivity.
Qed.

Lemma set_hourly_loads_rows hour P_df Q_df PV_df a r p s :
  hour_rows P_df hour = inr a -> hour_rows Q_df hour = inr r ->
  hour_rows PV_df hour = inr p ->
  exists s', set_hourly_loads hour P_df Q_df PV_df s = (inr tt, s') /\
    load (net s') = omap (attach (buses s)) (hourly_specs a r p).
Proof.
  intros Ha Hr Hp. unfold set_hourly_loads.
  unfold bind at 1. unfold _clear_loads, modify.
  rewrite Ha, Hr, Hp. unfold bind, lift.
  match goal with |- context [_create_loads _ ?s1] =>
    destruct (_create_loads_spec (hourly_specs a r p) s1)
      as (s' & Hrun & _ & Hl & _) end.
  exists s'. split; [exact Hrun|]. exact Hl.
Qed.

(** X10: the frames a construction returns can be handed to
    [set_hourly_loads] for every hour of the day, as [_iterate_hours] does:
    for each of the labels "00:00" .. "23:00" the call succeeds and creates
    at most three loads per load point, exactly three when every id of the
    frames is a bus key. For any other label the call raises [KeyError] on
    the label, after the loads of the network have been dropped. *)
Theorem generated_frames_populate_every_hour (self : Gen.generator)
  (g : rng_state) (out : Gen.profiles_out) (s : state) :
  run (Gen.__init__ self) g = inr out ->
  (forall n, (n < 24)%nat ->
     exists s',
       set_hourly_loads (Gen.hour_label n) (Gen.active_profile_df out)
         (Gen.reactive_profile_df out) (Gen.pv_profile_df out) s = (inr tt, s') /\
       (length (load (net s')) <= 3 * length (Gen.df self))%nat /\
       ((forall id, id ∈ Gen.Bus_ID (Gen.active_profile_df out) ->
                    is_Some (dict_get id (buses s))) ->
        length (load (net s')) = (3 * length (Gen.df self))%nat)) /\
  (forall h, h ∉ Gen.hours ->
     set_hourly_loads h (Gen.active_profile_df out)
       (Gen.reactive_profile_df out) (Gen.pv_profile_df out) s
     = (inl (KeyError h), (_clear_loads s).2)).
Proof.
  intros Hrun.
  destruct (__init___well_shaped self g out Hrun) as (Wa & Wr & Wp).
  destruct (__init___Bus_ID self g out Hrun) as (ids' & _ & Ia & Ir & Ip).
  split.
  - intros n Hn. pose proof (hour_label_in_hours n Hn) as Hh.
    destruct (hour_rows_present _ _ _ Wa Hh) as (a & Ha & Ka & La).
    destruct (hour_rows_present _ _ _ Wr Hh) as (r & Hr & Kr & Lr).
    destruct (hour_rows_present _ _ _ Wp Hh) as (p & Hp & Kp & Lp).
    destruct (set_hourly_loads_rows _ _ _ _ a r p s Ha Hr Hp) as (s' & Hs & Hl).
    exists s'. split; [exact Hs|].
    assert (Hlen : length (hourly_specs a r p) = (3 * length (Gen.df self))%nat).
    { unfold hourly_specs. rewrite !length_app, !length_fmap. lia. }
    rewrite Hl. split.
    + rewrite <- Hlen. apply length_omap_attach_le.
    + intros Hall. rewrite <- Hlen. apply length_omap_attach_all.
      assert (Hk : Forall (fun k => is_Some (dict_get k (buses s)))
                          (ls_bus <$> hourly_specs a r p)).
      { rewrite hourly_specs_keys, Ka, Kr, Kp, Ia, Ir, Ip.
        rewrite !Forall_app, Forall_forall. rewrite Ia in Hall. auto. }
      rewrite Forall_fmap in Hk. exact Hk.
  - intros h Hh. unfold set_hourly_loads.
    unfold bind at 1. unfold _clear_loads at 1, modify.
    rewrite (hour_rows_absent _ _ _ Wa Hh). reflexivity.
Qed.

End HourlyPopulation.

Section DirectLoads.
Import LoadFlow.

(** X11: [set_loads_mw] replaces the loads: it never raises, drops what
    was there and creates one load per row whose bus key is known, in row
    order, with the row's values; rows with an unknown bus leave no trace,
    and generators, topology and the bus dict stay as they were. *)
Theorem set_loads_mw_replaces_loads (loads : list load_spec) (s : state) :
  exists s', set_loads_mw loads s = (inr tt, s') /\
    load (net s') = omap (attach (buses s)) loads /\
    gen (net s') = gen (net s) /\
    topology (net s') = topology (net s) /\
    buses s' = buses s.
Proof.
  unfold set_loads_mw. unfold bind at 1. unfold _clear_loads, modify.
  match goal with |- context [_create_loads _ ?s1] =>
    destruct (_create_loads_spec loads s1) as (s' & Hrun & Hb & Hl & Hg & Ht) end.
  exists s'. split; [exact Hrun|]. cbn in Hb, Hl, Hg, Ht.
  repeat split; assumption.
Qed.

End DirectLoads.


(** ** The daily minimum of the bus voltages *)

Section VoltageAggregation.
Import Viz.

Lemma collect_buses_outside nodes rb n : n ∉ nodes ->
  forall hist, collect_buses nodes rb hist !! n = hist !! n.
Proof.
  intros Hn. unfold collect_buses.
  induction rb as [|[k v] rb IH]; intros hist; [reflexivity|].
  cbn [foldl fst snd]. rewrite IH.
  destruct (bool_decide (k ∈ nodes)) eqn:E; [|reflexivity].
  apply bool_decide_eq_true_1 in E.
  unfold setdefault_append. apply lookup_insert_ne. intros ->. contradiction.
Qed.

Lemma collect_buses_inside nodes rb n : n ∈ nodes ->
  forall hist, collect_buses nodes rb hist !! n = extended (hist !! n) (series_of n rb).
Proof.
  intros Hn. unfold collect_buses.
  induction rb as [|[k v] rb IH]; intros hist; [reflexivity|].
  cbn [foldl fst snd]. rewrite IH. unfold series_of. cbn [List.filter fst].
  destruct (String.eqb k n) eqn:E.
  - apply String.eqb_eq in E. subst k.
    rewrite (bool_decide_eq_true_2 _ Hn). unfold setdefault_append.
    rewrite lookup_insert_eq. cbn [fmap list_fmap snd].
    change (Some (default [] (hist !! n) ++ [v])) with (extended (hist !! n) [v]).
    rewrite extended_extended. reflexivity.
  - apply String.eqb_neq in E.
    destruct (bool_decide (k ∈ nodes)); [|reflexivity].
    unfold setdefault_append. rewrite lookup_insert_ne by exact E. reflexivity.
Qed.

Lemma histories_buses nodes snaps : forall h0,
  (foldl (fun h s => _collect nodes s h) h0 snaps).2
  = foldl (fun h s => collect_buses nodes (res_bus s) h) h0.2 snaps.
Proof.
  induction snaps as [|s snaps IH]; intros h0; [reflexivity|].
  cbn [foldl]. rewrite IH. reflexivity.
Qed.

Lemma bus_hist_outside nodes snaps n :
  n ∉ nodes -> (histories nodes snaps).2 !! n = None.
Proof.
  intros Hn. unfold histories. rewrite histories_buses. cbn [snd].
  assert (H : forall hist,
            foldl (fun h s => collect_buses nodes (res_bus s) h) hist snaps !! n
            = hist !! n).
  { induction snaps as [|s snaps IH]; intros hist; [reflexivity|].
    cbn [foldl]. rewrite IH. apply collect_buses_outside. exact Hn. }
  rewrite H. apply lookup_empty.
Qed.

Lemma bus_hist_inside nodes snaps n :
  n ∈ nodes ->
  (histories nodes snaps).2 !! n = extended None (bus_day_series n snaps).
Proof.
  intros Hn. unfold histories. rewrite histories_buses. cbn [snd].
  assert (H : forall hist,
            foldl (fun h s => collect_buses nodes (res_bus s) h) hist snaps !! n
            = extended (hist !! n) (bus_day_series n snaps)).
  { induction snaps as [|s snaps IH]; intros hist; [reflexivity|].
    cbn [foldl]. rewrite IH, (collect_buses_inside _ _ _ Hn), extended_extended.
    reflexivity. }
  rewrite H, lookup_empty. reflexivity.
Qed.

(** Python's [min] keeps a NaN that comes first, and ignores every NaN
    that comes later. *)
Lemma min_from_nan v : min_from NaN v = NaN.
Proof. induction v as [|x v IH]; [reflexivity|]. cbn. exact IH. Qed.

Lemma min_from_fin v : forall q,
  exists q', min_from (Fin q) v = Fin q' /\ Fin q' ∈ Fin q :: v /\
    forall y, Fin y ∈ Fin q :: v -> (q' <= y)%Q.
Proof.
  induction v as [|x v IH]; intros q.
  - exists q. split; [reflexivity|]. split; [left|].
    intros y Hy. apply list_elem_of_singleton in Hy. injection Hy as ->. apply Qle_refl.
  - cbn [min_from]. destruct x as [y0|]; cbn [fgt].
    + destruct (Qltb y0 q) eqn:E.
      * destruct (IH y0) as (q' & Hm & Hin & Hlb). exists q'.
        split; [exact Hm|]. split; [right; exact Hin|].
        intros y Hy. apply elem_of_cons in Hy as [Hy|Hy]; [|apply Hlb; exact Hy].
        injection Hy as ->. apply Qltb_lt in E.
        eapply Qle_trans; [apply Hlb; left|]. apply Qlt_le_weak. exact E.
      * destruct (IH q) as (q' & Hm & Hin & Hlb). exists q'.
        split; [exact Hm|]. split; [apply elem_of_skip_second; exact Hin|].
        intros y Hy. apply elem_of_cons in Hy as [Hy|Hy].
        { apply Hlb. rewrite Hy. left. }
        apply elem_of_cons in Hy as [Hy|Hy]; [|apply Hlb; right; exact Hy].
        injection Hy as ->. apply Qltb_ge in E.
        eapply Qle_trans; [apply Hlb; left|]. exact E.
    + destruct (IH q) as (q' & Hm & Hin & Hlb). exists q'.
      split; [exact Hm|]. split; [apply elem_of_skip_second; exact Hin|].
      intros y Hy. apply elem_of_cons in Hy as [Hy|Hy].
      { apply Hlb. rewrite Hy. left. }
      apply elem_of_cons in Hy as [Hy|Hy]; [discriminate|].
      apply Hlb. right. exact Hy.
Qed.

Lemma dict_agg_py_min hist :
  (forall n v, hist !! n = Some v -> v <> []) ->
  dict_agg py_min hist = inr (omap py_min hist).
Proof.
  intros H. unfold dict_agg. rewrite bool_decide_eq_true_2; [reflexivity|].
  intros n v Hv. specialize (H n v Hv). destruct v; [contradiction | discriminate].
Qed.

(** X12: the daily minimum voltage is computed for the buses listed in
    [node_with_power_unique] and for no other: a bus outside the list has no
    entry, however often it appears in the results. For a listed bus the
    entry is Python's [min] of its hourly series: the smallest defined value
    when the first value is defined (later NaN hours are ignored), NaN when
    the first value is NaN. The aggregation itself never raises. *)
Theorem daily_min_voltage (nodes : list string) (snaps : list snapshot) :
  exists m, min_volt nodes snaps = inr m /\
    (forall n, n ∉ nodes -> m !! n = None) /\
    (forall n, n ∈ nodes ->
       match bus_day_series n snaps with
       | [] => m !! n = None
       | x :: rest =>
           m !! n = Some (min_from x rest) /\
           match x with
           | NaN => min_from x rest = NaN
           | Fin q => exists q', min_from x rest = Fin q' /\
                        Fin q' ∈ x :: rest /\
                        forall y, Fin y ∈ x :: rest -> (q' <= y)%Q
           end
       end).
Proof.
  exists (omap py_min (histories nodes snaps).2). split; [|split].
  - unfold min_volt. apply dict_agg_py_min. intros n v.
    destruct (decide (n ∈ nodes)) as [Hn|Hn].
    + rewrite (bus_hist_inside _ _ _ Hn). unfold extended.
      destruct (bus_day_series n snaps) as [|x rest]; [discriminate|].
      cbn. intros [= <-]. discriminate.
    + rewrite (bus_hist_outside _ _ _ Hn). discriminate.
  - intros n Hn. rewrite lookup_omap, (bus_hist_outside _ _ _ Hn). reflexivity.
  - intros n Hn. rewrite lookup_omap, (bus_hist_inside _ _ _ Hn). unfold extended.
    destruct (bus_day_series n snaps) as [|x rest]; [reflexivity|].
    cbn. split; [reflexivity|].
    destruct x as [q|]; [apply min_from_fin | apply min_from_nan].
Qed.

End VoltageAggregation.


(** ** From the sheet to the assembled network *)

Section NodeExtraction.
Context {cell : Type} (cell_eqb : cell -> cell -> bool) (cell_str : cell -> string).
Import Prep.











End NodeExtraction.

(** With an integer 2 in the "from" column and a float 2.0 in the "to"
    column the second cell is found in [seen]: the id "2.0" is not
    extracted, and the line that ends there makes [_create_lines] raise.
    The integer 7 and the string "7" are both kept and give the id "7"
    twice. *)
Example mixed_cells_break_extraction :
  Prep._extract_unique_nodes id_cell_eqb id_cell_str
    [(IntCell 1, IntCell 2); (IntCell 2, FloatCell 2)] = inr ["1"; "2"] /\
  run (LoadFlow.create_net_empty
         (assembler ["1"; "2"]
            [ line_row_of "a" "1" "2" (Fin 1) (Fin 1) (Fin 1);
              line_row_of "b" "2" "2.0" (Fin 1) (Fin 1) (Fin 1) ])) fresh_state
    = inl (KeyError "2.0") /\
  Prep._extract_unique_nodes id_cell_eqb id_cell_str
    [(IntCell 7, StrCell "7")] = inr ["7"; "7"].
Proof. vm_compute. repeat split; reflexivity. Qed.

Section SheetToNetwork.
Context {cell : Type} (cell_eqb : cell -> cell -> bool) (cell_str : cell -> string).
Import LoadFlow.


End SheetToNetwork.


(** ** The nodes with power *)

Section NodesWithPower.
Context {R : NumpyRandom}.
Import Prep.

Lemma unique_from_spec l : forall seen,
  NoDup (unique_from seen l) /\
  forall x, x ∈ unique_from seen l <-> x ∈ l /\ x ∉ seen.
Proof.
  induction l as [|a l IH]; intros seen; cbn [unique_from].
  - split; [constructor|]. intros x. split; [inversion 1 | intros [H _]; inversion H].
  - destruct (bool_decide (a ∈ seen)) eqn:E.
    + apply bool_decide_eq_true_1 in E. destruct (IH seen) as [Hnd Hm].
      split; [exact Hnd|]. intros x. rewrite Hm, elem_of_cons. split.
      * intros [H1 H2]. auto.
      * intros [[->|H1] H2]; [contradiction | auto].
    + apply bool_decide_eq_false_1 in E. destruct (IH (a :: seen)) as [Hnd Hm].
      split.
      * constructor; [|exact Hnd]. rewrite Hm. intros [_ H]. apply H. left.
      * intros x. rewrite !elem_of_cons, Hm, not_elem_of_cons.
        destruct (decide (x = a)) as [->|Hne]; [tauto|]. tauto.
Qed.

Lemma unique_spec l : NoDup (unique l) /\ forall x, x ∈ unique l <-> x ∈ l.
Proof.
  destruct (unique_from_spec l []) as [Hnd Hm]. split; [exact Hnd|].
  intros x. unfold unique. rewrite Hm. split; [tauto|].
  intros H. split; [exact H | apply not_elem_of_nil].
Qed.

(** X15: what a successful [make_load_df] returns. The load table holds
    one record per sheet row with some non-zero peak, in row order, keyed by
    the row's "to" endpoint. The three frames share one [Bus_ID] column, the
    integer cast of those keys. The node list has no repetition and holds
    both spellings: an id is listed exactly when it is a cast id of a frame
    or a key of the load table as the sheet spells it. *)
Theorem make_load_df_nodes (self : DataPrepare)
  (df_stats : option (list Gen.quantile_row)) (g : rng_state)
  (load : load_dict) (nodes : list string) :
  run (make_load_df self df_stats) g = inr (load, nodes) ->
  load_df load = load_record <$> List.filter has_power (xls self) /\
  exists ids',
    PyInt.astype_int_str (To <$> List.filter has_power (xls self)) = inr ids' /\
    Gen.Bus_ID (active_profile_df load) = ids' /\
    Gen.Bus_ID (reactive_profile_df load) = ids' /\
    Gen.Bus_ID (pv_profile_df load) = ids' /\
    NoDup nodes /\
    forall x, x ∈ nodes <-> x ∈ ids' \/ x ∈ To <$> List.filter has_power (xls self).
Proof.
  unfold run, make_load_df. unfold bind at 1. unfold lift at 1.
  destruct (_check_required_columns self _) as [e|[]]; [discriminate|].
  unfold bind at 1. unfold lift at 1.
  destruct (getitem _ "Bus_ID") as [e|[]]; [discriminate|].
  unfold bind at 1. cbn [lf_rows pd_DataFrame].
  match goal with |- context [Gen.__init__ ?c g] =>
    set (cfg := c); destruct (Gen.__init__ cfg g) as [[e|out] g'] eqn:Eg end;
    [discriminate|].
  unfold ret. cbn [fst active_profile_df reactive_profile_df pv_profile_df load_df].
  intros [= <- <-]. cbn [active_profile_df reactive_profile_df pv_profile_df load_df].
  split; [reflexivity|].
  destruct (__init___Bus_ID cfg g out) as (ids' & Hc & Ia & Ir & Ip).
  { unfold run. rewrite Eg. reflexivity. }
  subst cfg. cbn [Gen.df] in Hc. rewrite <- list_fmap_compose in Hc.
  exists ids'. split; [exact Hc|]. split; [exact Ia|]. split; [exact Ir|].
  split; [exact Ip|].
  destruct (unique_spec (Gen.Bus_ID (Gen.active_profile_df out) ++
                         Gen.Bus_ID (Gen.reactive_profile_df out) ++
                         Gen.Bus_ID (Gen.pv_profile_df out) ++
                         (Gen.lp_Bus_ID <$> (load_record <$> List.filter has_power (xls self)))))
    as [Hnd Hm].
  split; [exact Hnd|].
  intros x. rewrite Hm, Ia, Ir, Ip, !elem_of_app, <- list_fmap_compose.
  change (Gen.lp_Bus_ID ∘ load_record) with To. tauto.
Qed.

End NodesWithPower.


(** ** The further properties on sample inputs *)

Lemma astype_int_str_idempotent_witness :
  PyInt.astype_int_str ["007"; "-12"] = inr ["7"; "-12"] /\
  PyInt.astype_int_str ["7"; "-12"] = inr ["7"; "-12"].
Proof.
  assert (H : PyInt.astype_int_str ["007"; "-12"] = inr ["7"; "-12"])
    by (vm_compute; reflexivity).
  split; [exact H | exact (astype_int_str_idempotent _ _ H)].
Defined.

Lemma profiles_well_shaped_witness :
  run (@Gen.__init__ tape_of_twos noisy_generator) [] = inr noisy_profiles /\
  well_shaped 1 (Gen.active_profile_df noisy_profiles) /\
  well_shaped 1 (Gen.reactive_profile_df noisy_profiles) /\
  well_shaped 1 (Gen.pv_profile_df noisy_profiles).
Proof.
  assert (H : run (@Gen.__init__ tape_of_twos noisy_generator) [] = inr noisy_profiles)
    by (vm_compute; reflexivity).
  split; [exact H|].
  exact (@profiles_well_shaped tape_of_twos noisy_generator [] noisy_profiles H).
Defined.

Lemma pv_profile_within_peak_witness :
  run (@Gen.__init__ tape_of_twos sunny_generator) [] = inr sunny_profiles /\
  exists x, cell (Gen.pv_profile_df sunny_profiles) (Gen.hour_label 12) 0 = Some x /\
            between 0 4 x.
Proof.
  assert (H : run (@Gen.__init__ tape_of_twos sunny_generator) [] = inr sunny_profiles)
    by (vm_compute; reflexivity).
  split; [exact H|].
  apply (@pv_profile_within_peak tape_of_twos sunny_generator [] sunny_profiles
           12%nat 0%nat
           {| Gen.lp_Bus_ID := "7"; Gen.lp_PLmax := Fin 10;
              Gen.lp_QLmax := Fin 3; Gen.lp_Pg := Fin 4 |} 4 H).
  - lia.
  - reflexivity.
  - reflexivity.
  - unfold Qle. cbn. lia.
Defined.

Lemma active_reactive_share_factor_witness :
  run (@Gen.__init__ tape_of_twos noisy_generator) [] = inr noisy_profiles /\
  exists f, (0 <= f)%Q /\ (f <= 1)%Q /\
    cell (Gen.active_profile_df noisy_profiles) (Gen.hour_label 9) 0
      = Some (fmul (Fin 10) (Fin f)) /\
    cell (Gen.reactive_profile_df noisy_profiles) (Gen.hour_label 9) 0
      = Some (fmul (Fin 3) (Fin f)).
Proof.
  assert (H : run (@Gen.__init__ tape_of_twos noisy_generator) [] = inr noisy_profiles)
    by (vm_compute; reflexivity).
  split; [exact H|].
  apply (@active_reactive_share_factor tape_of_twos noisy_generator [] noisy_profiles
           9%nat 0%nat
           {| Gen.lp_Bus_ID := "7"; Gen.lp_PLmax := Fin 10;
              Gen.lp_QLmax := Fin 3; Gen.lp_Pg := Fin 0 |} H).
  - reflexivity.
  - lia.
  - reflexivity.
Defined.

Lemma unknown_archetype_raises_witness :
  ("holiday" ∉ Gen.profiles.*1) /\
  @Gen.__init__ tape_of_twos (with_profile_type (one_load "7") "holiday") []
  = (inl (ValueError "Profil inconnu : holiday"), []).
Proof.
  assert (H : "holiday" ∉ Gen.profiles.*1).
  { intros H. cbn in H.
    repeat (apply elem_of_cons in H as [H|H]; [discriminate|]). inversion H. }
  split; [exact H|].
  exact (proj1 (@unknown_archetype_raises tape_of_twos
                  (with_profile_type (one_load "7") "holiday") []) eq_refl H).
Defined.

Lemma stochastic_frame_ignores_archetype_and_peaks_witness :
  (exists fr, run (@Gen._generate_profile_df tape_of_draws stochastic_generator
                     None Gen.PLmax_kW) [] = inr fr) /\
  run (@Gen._generate_profile_df tape_of_draws
         (with_df (with_profile_type stochastic_generator "holiday") other_peaks)
         None Gen.QLmax_kVar) [1 # 3]
  = run (@Gen._generate_profile_df tape_of_draws stochastic_generator
           None Gen.PLmax_kW) [].
Proof.
  split; [vm_compute; eexists; reflexivity|].
  apply (@stochastic_frame_ignores_archetype_and_peaks tape_of_draws
           stochastic_generator "holiday" other_peaks None None
           Gen.PLmax_kW Gen.QLmax_kVar [] [1 # 3]); reflexivity.
Defined.

Lemma stochastic_values_non_negative_witness :
  run (@Gen.__init__ tape_of_draws stochastic_generator) [] = inr stochastic_profiles /\
  (forall h i x, cell (Gen.active_profile_df stochastic_profiles) h i = Some x ->
                 non_negative x) /\
  (forall h i, cell (Gen.reactive_profile_df stochastic_profiles) h i
               = (fun v => fmul v (Fin (3 # 10)))
                   <$> cell (Gen.active_profile_df stochastic_profiles) h i) /\
  (forall h i x, cell (Gen.reactive_profile_df stochastic_profiles) h i = Some x ->
                 non_negative x).
Proof.
  assert (H : run (@Gen.__init__ tape_of_draws stochastic_generator) []
              = inr stochastic_profiles) by (vm_compute; reflexivity).
  split; [exact H|].
  exact (@stochastic_values_non_negative tape_of_draws stochastic_generator []
           stochastic_profiles H eq_refl).
Defined.

Lemma generated_frames_populate_every_hour_witness :
  run (@Gen.__init__ tape_of_twos (one_load "7")) [] = inr office_profiles /\
  (forall n, (n < 24)%nat ->
     exists s',
       LoadFlow.set_hourly_loads (Gen.hour_label n)
         (Gen.active_profile_df office_profiles)
         (Gen.reactive_profile_df office_profiles)
         (Gen.pv_profile_df office_profiles) bus_seven = (inr tt, s') /\
       (length (LoadFlow.load (LoadFlow.net s')) <= 3 * 1)%nat /\
       ((forall id, id ∈ Gen.Bus_ID (Gen.active_profile_df office_profiles) ->
                    is_Some (LoadFlow.dict_get id (LoadFlow.buses bus_seven))) ->
        length (LoadFlow.load (LoadFlow.net s')) = (3 * 1)%nat)) /\
  (forall h, h ∉ Gen.hours ->
     LoadFlow.set_hourly_loads h (Gen.active_profile_df office_profiles)
       (Gen.reactive_profile_df office_profiles)
       (Gen.pv_profile_df office_profiles) bus_seven
     = (inl (KeyError h), (LoadFlow._clear_loads bus_seven).2)).
Proof.
  assert (H : run (@Gen.__init__ tape_of_twos (one_load "7")) [] = inr office_profiles)
    by (vm_compute; reflexivity).
  split; [exact H|].
  exact (@generated_frames_populate_every_hour tape_of_twos (one_load "7") []
           office_profiles bus_seven H).
Defined.


Lemma make_load_df_nodes_witness :
  (run (@Prep.make_load_df tape_of_twos powered_sheet None) []
     = inr (powered_load.1, powered_load.2) /\
   powered_load.2 = ["7"; "007"]) /\
  Prep.load_df (powered_load.1)
    = Prep.load_record <$> List.filter Prep.has_power (Prep.xls powered_sheet) /\
  exists ids',
    PyInt.astype_int_str (To <$> List.filter Prep.has_power (Prep.xls powered_sheet))
      = inr ids' /\
    Gen.Bus_ID (Prep.active_profile_df (powered_load.1)) = ids' /\
    Gen.Bus_ID (Prep.reactive_profile_df (powered_load.1)) = ids' /\
    Gen.Bus_ID (Prep.pv_profile_df (powered_load.1)) = ids' /\
    NoDup powered_load.2 /\
    forall x, x ∈ powered_load.2 <->
      x ∈ ids' \/ x ∈ To <$> List.filter Prep.has_power (Prep.xls powered_sheet).
Proof.
  assert (H : run (@Prep.make_load_df tape_of_twos powered_sheet None) []
              = inr (powered_load.1, powered_load.2)) by (vm_compute; reflexivity).
  split; [split; [exact H | vm_compute; reflexivity]|].
  exact (@make_load_df_nodes tape_of_twos powered_sheet None []
           powered_load.1 powered_load.2 H).
Defined.


(** ** The quantile table of the stochastic mode *)

Section StochasticTable.
Context {R : NumpyRandom}.
Import Gen.

Lemma stats_row_found stats h : h ∈ hour <$> stats -> is_Some (stats_row stats h).
Proof.
  unfold stats_row. induction stats as [|r stats IH]; intros H; [inversion H|].
  cbn [List.find]. destruct (String.eqb (hour r) h) eqn:E; [eauto|].
  rewrite fmap_cons in H. apply elem_of_cons in H as [->|H].
  - rewrite String.eqb_refl in E. discriminate.
  - apply IH, H.
Qed.

Lemma emapM_total {A B} (f : A -> exn + B) xs :
  (forall x, x ∈ xs -> exists y, f x = inr y) -> exists ys, emapM f xs = inr ys.
Proof.
  induction xs as [|a xs IH]; intros H; cbn [emapM]; [eauto|].
  destruct (H a) as [y ->]; [left|].
  destruct IH as [ys ->]; [intros x Hx; apply H; right; exact Hx|].
  cbn. eauto.
Qed.

Lemma quantile_columns_run stats U :
  exists base,
    emapM (quantile_column stats U) (enumerate (hour <$> stats)) = inr base /\
    base.*1 = hour <$> stats.
Proof.
  destruct (emapM_total (quantile_column stats U) (enumerate (hour <$> stats)))
    as [base Hb].
  { intros [j h] Hin. unfold enumerate in Hin. apply elem_of_zip_r in Hin.
    destruct (stats_row_found stats h Hin) as [row Hrow].
    unfold quantile_column. cbn [fst snd]. rewrite Hrow. eauto. }
  exists base. split; [exact Hb|].
  apply emapM_Forall2 in Hb.
  assert (H : base.*1 = (enumerate (hour <$> stats)).*2).
  { induction Hb as [|[j h] [l c] xs ys Hxy _ IH]; [reflexivity|].
    rewrite !fmap_cons. f_equal; [|exact IH].
    unfold quantile_column in Hxy. cbn [fst snd] in Hxy.
    destruct (stats_row stats h); [|discriminate]. injection Hxy as <- _. reflexivity. }
  rewrite H. unfold enumerate. apply snd_zip. rewrite length_seq. lia.
Qed.

Lemma fold_set_col_keys base : forall cols h,
  is_Some (get_col h (fold_left (fun cols c => set_col c.1 c.2 cols) base cols)) <->
  h ∈ base.*1 \/ is_Some (get_col h cols).
Proof.
  induction base as [|[l v] base IH]; intros cols h.
  - cbn. split; [auto|]. intros [H|H]; [inversion H | exact H].
  - cbn [fold_left fst snd]. rewrite IH, fmap_cons, elem_of_cons. cbn [fst].
    destruct (decide (l = h)) as [->|Hne].
    + rewrite get_col_set_col_eq. split; [intros _; left; left; reflexivity|].
      intros _. right. eauto.
    + rewrite (get_col_set_col_ne _ _ _ _ Hne). split.
      * intros [H|H]; [left; right; exact H | right; exact H].
      * intros [[H|H]|H]; [congruence | left; exact H | right; exact H].
Qed.

Lemma select_cols_missing labels cs h :
  h ∈ labels -> get_col h cs = None ->
  exists h', h' ∈ labels /\ get_col h' cs = None /\
    select_cols labels cs = inl (KeyError h').
Proof.
  unfold select_cols. induction labels as [|l labels IH]; intros Hin Hh; [inversion Hin|].
  cbn [emapM]. destruct (get_col l cs) as [v|] eqn:E.
  - apply elem_of_cons in Hin as [->|Hin]; [congruence|].
    destruct (IH Hin Hh) as (h' & H1 & H2 & H3). exists h'.
    split; [right; exact H1|]. split; [exact H2|].
    cbn [ebind]. rewrite H3. reflexivity.
  - exists l. split; [left|]. split; [exact E | reflexivity].
Qed.

Lemma stochastic_columns_run self n (g : rng_state) stats :
  (0 <= seed self < 2 ^ 32)%Z ->
  df_stats self = Some stats -> NoDup (hour <$> stats) ->
  exists cols g', stochastic_columns self n g = (inr cols, g') /\
    forall h, is_Some (get_col h cols) <-> h ∈ hour <$> stats.
Proof.
  intros Hseed Hs Hnd. unfold stochastic_columns.
  unfold bind at 1. rewrite (np_random_seed_legal _ g Hseed). rewrite Hs.
  unfold bind at 1. unfold lift at 1.
  unfold bind at 1. unfold np_random_uniform.
  destruct (Np.draw_rows uniform01 n (length (hour <$> stats)) (seeded (seed self)))
    as [U g'] eqn:EU.
  destruct (quantile_columns_run stats U) as (base & Hb & Hk).
  unfold bind at 1. unfold lift at 1. rewrite Hb.
  rewrite (bool_decide_eq_true_2 _ Hnd). unfold ret.
  eexists _, _. split; [reflexivity|].
  intros h. rewrite fold_set_col_keys, Hk. split; [|auto].
  intros [H|[? H]]; [exact H | discriminate].
Qed.

Lemma stochastic_frame_run self profile power (g : rng_state) stats ids' :
  stochastic self = true -> (0 <= seed self < 2 ^ 32)%Z ->
  df_stats self = Some stats -> NoDup (hour <$> stats) ->
  PyInt.astype_int_str (lp_Bus_ID <$> df self) = inr ids' ->
  exists cols g',
    (forall h, is_Some (get_col h cols) <-> h ∈ hour <$> stats) /\
    _generate_profile_df self profile power g
    = (match select_cols hours cols with
       | inl e => inl e
       | inr sel => inr {| Bus_ID := ids'; columns := sel |}
       end, g').
Proof.
  intros Hst Hseed Hs Hnd Hids. unfold _generate_profile_df. rewrite Hst.
  unfold bind at 1. rewrite (np_random_seed_legal _ g Hseed).
  destruct (stochastic_columns_run self (length (df self)) (seeded (seed self)) stats
              Hseed Hs Hnd)
    as (cols & g' & Hrun & Hk).
  unfold bind at 1. rewrite Hrun. unfold lift, finish. rewrite Hids. cbn [ebind].
  exists cols, g'. split; [exact Hk|].
  destruct (select_cols hours cols); reflexivity.
Qed.

Lemma stochastic_without_table self profile power (g : rng_state) :
  stochastic self = true -> (0 <= seed self < 2 ^ 32)%Z -> df_stats self = None ->
  (_generate_profile_df self profile power g).1
  = inl (TypeError "'NoneType' object is not subscriptable").
Proof.
  intros Hst Hseed Hs. unfold _generate_profile_df, stochastic_columns.
  rewrite Hst, Hs. unfold bind at 1. rewrite (np_random_seed_legal _ g Hseed).
  unfold bind at 1. unfold bind at 1. rewrite (np_random_seed_legal _ _ Hseed).
  reflexivity.
Qed.

(** X16: what the stochastic mode asks of its quantile table, for
    arguments NumPy accepts (a seed in 0 .. 2^32 - 1 and, if noise is used
    for the generation frame, a noise level that is not negative) and a
    known generation archetype. Without a table the constructor raises
    [TypeError]. With a table of distinct hour labels and ids that cast to
    integers, the constructor succeeds when the table covers the 24 labels
    "00:00" .. "23:00", and raises [KeyError] as soon as one of them is
    missing: a table keyed by other labels is never used silently. *)
Theorem stochastic_mode_needs_the_day (self : generator) (g : rng_state) :
  stochastic self = true ->
  (0 <= seed self < 2 ^ 32)%Z ->
  (add_noise self = true -> (0 <= noise_level self)%Q) ->
  is_Some (lookup_profile (pv_profile_type self) pv_profile_table) ->
  (df_stats self = None ->
   run (__init__ self) g = inl (TypeError "'NoneType' object is not subscriptable")) /\
  (forall stats ids',
     df_stats self = Some stats -> NoDup (hour <$> stats) ->
     PyInt.astype_int_str (lp_Bus_ID <$> df self) = inr ids' ->
     ((forall h, h ∈ hours -> h ∈ hour <$> stats) ->
      exists out, run (__init__ self) g = inr out) /\
     (forall h, h ∈ hours -> h ∉ hour <$> stats ->
      exists k, run (__init__ self) g = inl (KeyError k))).
Proof.
  intros Hst Hseed Hnoise [pvp Hpv].
  assert (Hsel : _select_pv_profile self = inr pvp).
  { unfold _select_pv_profile. rewrite Hpv. reflexivity. }
  assert (Hinit : forall r g1,
            _generate_profile_df self None PLmax_kW g = (r, g1) ->
            run (__init__ self) g =
            match r with
            | inl e => inl e
            | inr active =>
                match _generate_pv_profile_df self pvp g1 with
                | (inl e, _) => inl e
                | (inr pv, _) =>
                    inr {| active_profile_df := active;
                           reactive_profile_df := times_03 active;
                           pv_profile_df := pv |}
                end
            end).
  { intros r g1 Hr. unfold run, __init__. rewrite Hst. cbn [negb].
    unfold bind at 1. unfold ret at 1. unfold bind at 1. unfold lift at 1.
    rewrite Hsel. unfold bind at 1. rewrite Hr.
    destruct r as [e|active]; [reflexivity|].
    unfold bind at 1. unfold ret at 1. unfold bind at 1.
    destruct (_generate_pv_profile_df self pvp g1) as [[e|pv] g2]; reflexivity. }
  split.
  - intros Hs.
    pose proof (stochastic_without_table self None PLmax_kW g Hst Hseed Hs) as Hf.
    rewrite (Hinit (_generate_profile_df self None PLmax_kW g).1
                   (_generate_profile_df self None PLmax_kW g).2)
      by (destruct (_generate_profile_df self None PLmax_kW g); reflexivity).
    rewrite Hf. reflexivity.
  - intros stats ids' Hs Hnd Hids.
    destruct (stochastic_frame_run self None PLmax_kW g stats ids' Hst Hseed Hs Hnd Hids)
      as (cols & g1 & Hk & Hrun).
    rewrite (Hinit _ _ Hrun). split.
    + intros Hall.
      destruct (select_cols_present hours cols) as (sel & Hsel' & _).
      { intros l Hl. apply Hk, Hall, Hl. }
      rewrite Hsel'.
      destruct (loop_then_finish self (lp_Pg <$> df self) pvp (lp_Bus_ID <$> df self)
                  ids' g1 Hnoise (_select_pv_profile_length self pvp Hsel) Hids)
        as (fr & g2 & Hpvrun & _).
      unfold _generate_pv_profile_df. rewrite Hpvrun. eauto.
    + intros h Hh Hmiss.
      destruct (select_cols_missing hours cols h Hh) as (h' & _ & _ & Hfail).
      { destruct (get_col h cols) eqn:E; [|reflexivity].
        exfalso. apply Hmiss, Hk. eauto. }
      rewrite Hfail. eauto.
Qed.

End StochasticTable.

Lemma stochastic_mode_needs_the_day_witness :
  (exists out, run (@Gen.__init__ tape_of_draws stochastic_generator) [] = inr out) /\
  (exists k, run (@Gen.__init__ tape_of_draws short_day_generator) [] = inl (KeyError k)).
Proof.
  assert (Hnd : NoDup (Gen.hour <$> quantile_table)).
  { apply (bool_decide_unpack (NoDup (Gen.hour <$> quantile_table))). vm_compute. exact I. }
  assert (Hnd' : NoDup (Gen.hour <$> drop 1 quantile_table)).
  { apply (bool_decide_unpack (NoDup (Gen.hour <$> drop 1 quantile_table))).
    vm_compute. exact I. }
  assert (Hpv : is_Some (Gen.lookup_profile "summer" Gen.pv_profile_table))
    by (vm_compute; eauto).
  assert (Hids : PyInt.astype_int_str ["7"; "8"] = inr ["7"; "8"])
    by (vm_compute; reflexivity).
  assert (Hseed : (0 <= 0 < 2 ^ 32)%Z) by lia.
  assert (Hnoise : false = true -> (0 <= 1 # 10)%Q) by discriminate.
  split.
  - destruct (@stochastic_mode_needs_the_day tape_of_draws stochastic_generator []
                eq_refl Hseed Hnoise Hpv) as [_ H].
    destruct (H quantile_table ["7"; "8"] eq_refl Hnd Hids) as [Hok _].
    apply Hok. intros h Hh. exact Hh.
  - destruct (@stochastic_mode_needs_the_day tape_of_draws short_day_generator []
                eq_refl Hseed Hnoise Hpv) as [_ H].
    destruct (H (drop 1 quantile_table) ["7"; "8"] eq_refl Hnd' Hids) as [_ Hko].
    apply (Hko "00:00").
    + apply (bool_decide_unpack ("00:00" ∈ Gen.hours)). vm_compute. exact I.
    + apply (bool_decide_unpack ("00:00" ∉ Gen.hour <$> drop 1 quantile_table)).
      vm_compute. exact I.
Defined.


(** ** Bus creation on repeated ids *)

Section RepeatedIds.
Import LoadFlow.

Lemma dict_get_set_eq k v d : dict_get k (dict_set k v d) = Some v.
Proof.
  induction d as [|[k' v'] d IH]; cbn.
  - rewrite String.eqb_refl. reflexivity.
  - destruct (String.eqb k' k) eqn:E; cbn; rewrite E; [reflexivity | exact IH].
Qed.

Lemma dict_get_set_ne k k' v d :
  k <> k' -> dict_get k' (dict_set k v d) = dict_get k' d.
Proof.
  intros Hne. induction d as [|[k0 v0] d IH]; cbn.
  - destruct (String.eqb k k') eqn:E; [|reflexivity].
    apply String.eqb_eq in E. contradiction.
  - destruct (String.eqb k0 k) eqn:E; cbn.
    + apply String.eqb_eq in E. subst k0.
      destruct (String.eqb k k') eqn:E'; [|reflexivity].
      apply String.eqb_eq in E'. contradiction.
    + destruct (String.eqb k0 k'); [reflexivity | exact IH].
Qed.

Lemma dict_set_head k v k0 v0 d :
  exists v' d', dict_set k v ((k0, v0) :: d) = (k0, v') :: d'.
Proof. cbn. destruct (String.eqb k0 k); eauto. Qed.

(** The loop of [_create_buses] on any ids and any dict: one bus per id;
    a key met in the loop ends on the bus of its last occurrence, the other
    keys keep their value, and the first key of the dict stays first. *)
Lemma create_buses_loop_any self ids : forall s,
  exists s',
    for_each ids (fun bus_id =>
        let! idx := pp_create_bus (Vb self / 1000) bus_id in
        modify (fun s => {| net := net s; buses := dict_set bus_id idx (buses s) |})) s
      = (inr tt, s') /\
    bus (net s') = bus (net s) ++ (bus_of self <$> ids) /\
    (forall k, dict_get k (buses s') =
               match last_index k ids with
               | Some j => Some (length (bus (net s)) + j)%nat
               | None => dict_get k (buses s)
               end) /\
    (forall k0 v0 d, buses s = (k0, v0) :: d ->
                     exists v' d', buses s' = (k0, v') :: d') /\
    beside_buses (net s') = beside_buses (net s).
Proof.
  induction ids as [|id ids IH]; intros s.
  - exists s. cbn. rewrite app_nil_r. repeat split; eauto.
  - rewrite for_each_cons. unfold bind at 1, pp_create_bus at 1, modify at 1.
    match goal with |- context [for_each ids _ ?s1] =>
      destruct (IH s1) as (s' & Hrun & Hb & Hd & Hh & Hrest) end.
    exists s'. split; [exact Hrun|].
    cbn [net buses with_net bus] in Hb, Hd, Hh. cbn in Hrest.
    split; [|split; [|split]].
    + rewrite Hb, <- app_assoc. reflexivity.
    + intros k. rewrite Hd, length_app. cbn [length last_index].
      destruct (last_index k ids) as [j|].
      * f_equal. lia.
      * destruct (String.eqb id k) eqn:E.
        -- apply String.eqb_eq in E. subst k. rewrite dict_get_set_eq. f_equal. lia.
        -- apply String.eqb_neq in E. apply dict_get_set_ne. exact E.
    + intros k0 v0 d Hs. rewrite Hs in Hh.
      destruct (dict_set_head id (length (bus (net s))) k0 v0 d) as (v1 & d1 & H1).
      apply (Hh k0 v1 d1). exact H1.
    + exact Hrest.
Qed.

(** X17: [_create_buses] on a node table with repeated ids. On a fresh
    instance it never raises and creates one bus per entry, repeated or not;
    the dict sends each id to the bus of its last occurrence, so the buses of
    the earlier occurrences cannot be reached by any line or load; and the
    reference is put on the bus of the last occurrence of the first id, which
    is bus 0 only if the first id is not repeated. *)
Theorem _create_buses_repeated_ids (self : LoadFlow) (s : state) :
  buses s = [] -> bus (net s) = [] ->
  exists s', _create_buses self s = (inr tt, s') /\
    bus (net s') = bus_of self <$> node_df self /\
    (forall k, dict_get k (buses s') = last_index k (node_df self)) /\
    match node_df self with
    | [] => ext_grid (net s') = ext_grid (net s)
    | id0 :: _ =>
        exists j, last_index id0 (node_df self) = Some j /\
                  ext_grid (net s') = ext_grid (net s) ++ [grid_on j]
    end /\
    beside_buses_and_grid (net s') = beside_buses_and_grid (net s).
Proof.
  intros Hd Hb.
  destruct (create_buses_loop_any self (node_df self) s)
    as (s1 & Hrun & Hb1 & Hd1 & _ & Hrest).
  rewrite Hb in Hb1, Hd1. cbn [app length] in Hb1, Hd1.
  assert (Hkeys : forall k, dict_get k (buses s1) = last_index k (node_df self)).
  { intros k. rewrite Hd1, Hd. cbn. destruct (last_index k (node_df self)); reflexivity. }
  unfold beside_buses in Hrest. injection Hrest as Hsn Hnm Heg Hln Hld Hgn.
  unfold _create_buses. rewrite (bind_ok _ _ _ _ _ Hrun).
  unfold bind, get.
  destruct (node_df self) as [|id0 ids] eqn:Eids.
  - cbn in Hrun. injection Hrun as <-. rewrite Hd.
    exists s. cbn. rewrite Hb. unfold beside_buses_and_grid. repeat split; try reflexivity.
    intros k. rewrite Hd. reflexivity.
  - assert (Hhead : exists v d', buses s1 = (id0, v) :: d').
    { revert Hrun. rewrite for_each_cons.
      unfold bind at 1, pp_create_bus at 1, modify at 1.
      match goal with |- context [for_each ids _ ?s0] =>
        destruct (create_buses_loop_any self ids s0) as (s2 & Hrun2 & _ & _ & Hh & _) end.
      rewrite Hrun2. intros [= <-].
      apply (Hh id0 (length (bus (net s))) []). cbn. rewrite Hd. reflexivity. }
    destruct Hhead as (v & d' & Hs1). rewrite Hs1.
    assert (Hv : last_index id0 (id0 :: ids) = Some v).
    { rewrite <- Hkeys, Hs1. cbn. rewrite String.eqb_refl. reflexivity. }
    unfold pp_create_ext_grid, modify. eexists. split; [reflexivity|].
    cbn [net with_net bus buses ext_grid].
    split; [exact Hb1|]. split.
    { intros k. apply Hkeys. }
    split.
    { exists v. split; [exact Hv|]. rewrite Heg. reflexivity. }
    unfold beside_buses_and_grid. cbn. congruence.
Qed.

End RepeatedIds.

Lemma _create_buses_repeated_ids_witness :
  exists s', LoadFlow._create_buses looped_nodes fresh_state = (inr tt, s') /\
    LoadFlow.bus (LoadFlow.net s') = bus_of looped_nodes <$> ["ref"; "A"; "ref"] /\
    (forall k, LoadFlow.dict_get k (LoadFlow.buses s')
               = last_index k ["ref"; "A"; "ref"]) /\
    (exists j, last_index "ref" ["ref"; "A"; "ref"] = Some j /\
               LoadFlow.ext_grid (LoadFlow.net s') = [] ++ [grid_on j]) /\
    beside_buses_and_grid (LoadFlow.net s')
    = beside_buses_and_grid (LoadFlow.net fresh_state).
Proof.
  exact (_create_buses_repeated_ids looped_nodes fresh_state eq_refl eq_refl).
Defined.
